(** * ArmoryQt: wallet registry, combined ledger and heartbeat

    A shallow embedding of the stateful methods of [ArmoryMainWindow]
    (ArmoryQt.py): [loadWalletsAndSettings], [createZeroConfLedger],
    [createCombinedLedger], [convertLedgerToTable] and [Heartbeat].

    The Python object [self] becomes a record that is threaded through a
    state-and-exception monad; Python dictionaries become [gmap]s, sets
    become [gset]s, and Python integers become [Z]. *)

From Stdlib Require Import ZArith Ascii String List Bool Lia.
From stdpp Require Import gmap strings list fin_maps sorting pretty.

Local Open Scope string_scope.
Local Open Scope list_scope.
Local Open Scope Z_scope.

(** ** Exceptions and outcomes *)

(** The Python exceptions the modelled methods can meet.  [EngineError]
    stands for whatever the wallet library or the chain engine raises. *)
Inductive exn : Type :=
| KeyError (key : string)
| IndexError
| TypeError
| AttributeError (attr : string)
| EngineError (msg : string).

Inductive outcome (A : Type) : Type :=
| Return (a : A)
| Raise (e : exn).
Arguments Return {A} a.
Arguments Raise {A} e.

Definition is_AttributeError (e : exn) : bool :=
  match e with AttributeError _ => true | _ => false end.

(** ** Data of the wallet library and of the chain engine *)

(** A ledger entry of the C++ engine, seen through its getters. *)
Record LedgerEntry : Type := {
  getBlockNum : Z;     (* uint32; 0xffffffff is "not in a block yet" *)
  getIndex    : Z;     (* position of the transaction inside its block *)
  getValue    : Z;     (* signed amount, in satoshi *)
  getTxHash   : string
}.

(** Modelled from the spec: [LedgerEntry]'s [operator<] is C++ code of the
    engine; the spec describes the ordering key as "combining height and
    intra-block position".  The key is the pair (height, position), compared
    lexicographically. *)
Definition LedgerEntry_lt (a b : LedgerEntry) : bool :=
  if negb (getBlockNum a =? getBlockNum b) then getBlockNum a <? getBlockNum b
  else if negb (getIndex a =? getIndex b) then getIndex a <? getIndex b
  else false.

Definition orderingKey (le : LedgerEntry) : Z * Z := (getBlockNum le, getIndex le).

(** A wallet handle.  [getTxLedger], [getBalance] and the zero-conf query of
    the C++ wallet are methods of the wallet library; they are fields here. *)
Record PyBtcWallet : Type := {
  wltUniqueIDB58 : string;
  walletPath     : string;
  labelName      : string;
  useEncryption  : bool;
  watchingOnly   : bool;
  commentsMap    : gmap string string;
  getTxLedger    : list LedgerEntry;
  getBalance     : outcome Z;
  getLedgerEntriesForZeroConfTxList : list string → list LedgerEntry
}.

Record BlockHeader : Type := { getBlockHeight : Z; getTimestamp : Z }.

(** Modelled from the spec: the chain engine [TheBDM] is consumed through
    [isInitialized], the top block header and the incremental read of the
    block file.  [blkFile] lists what the coming reads of the block file
    will find: each one raises, or reports a number of new blocks together
    with the header that is on top afterwards.  [getHeaderByHeight] is the
    engine's table of main-chain headers. *)
Record BlockDataManager : Type := {
  isInitialized     : bool;
  getTopBlockHeader : BlockHeader;
  getHeaderByHeight : Z → option BlockHeader;
  blkFile           : list (outcome (Z * BlockHeader))
}.

(** The peer protocol factory: unconfirmed transactions by hash (kept in
    their serialized form) and their arrival times.  [createZeroConfLedger]
    walks over [zeroConfTx.keys()], and a dict of Python 2 gives its keys in
    the order of its hash table: [zeroConfTx] is kept as the list of its
    items in that order, each hash once.  [zeroConfTxTime] is only looked
    up. *)
Record ArmoryClientFactory : Type := {
  zeroConfTx     : list (string * string);
  zeroConfTxTime : gmap string Z
}.

Inductive WLTTYPES : Type := Plain | Crypt | WatchOnly | Offline.

Definition WLTTYPES_eqb (a b : WLTTYPES) : bool :=
  match a, b with
  | Plain, Plain | Crypt, Crypt | WatchOnly, WatchOnly | Offline, Offline => true
  | _, _ => false
  end.

(** ** Widgets *)

(** One row of the ledger table, in the order [convertLedgerToTable]
    appends its eight columns. *)
Record Row : Type := {
  rowNumConf : Z;
  rowDate    : string;
  rowTxDir   : Z;
  rowWltName : string;
  rowComment : string;
  rowAmount  : string;
  rowIsMine  : bool;
  rowWltID   : string
}.

Record LedgerDispModelSimple : Type := { modelTable : list Row }.
Record QTableView : Type := { viewModel : option LedgerDispModelSimple }.
Record QLabel : Type := { labelText : string }.
Record QRadioButton : Type := { isChecked : bool }.

(** [self.walletBalances] starts as a list; [Heartbeat] rebinds the
    attribute to a single balance. *)
Inductive Balances : Type :=
| BalanceList (l : list Z)
| BalanceValue (v : Z).

(** ** The main window *)

(** The attributes of [self] that the modelled methods read or write.  An
    attribute that [__init__] creates only after the first method call is an
    [option]: reading it while it is [None] raises [AttributeError].  The
    last three fields are process globals: the chain engine, the pending
    [reactor.callLater] delays for [Heartbeat], and the printed lines. *)
Record ArmoryMainWindow : Type := {
  walletMap      : gmap string PyBtcWallet;
  walletIndices  : gmap string nat;
  walletIDSet    : gset string;
  walletIDList   : list string;
  walletBalances : Balances;
  walletLedgers  : list (list LedgerEntry);
  combinedLedger : list (string * LedgerEntry);
  ledgerSize     : nat;
  latestBlockNum : Z;
  walletOfflines : gset string;
  ledgerTable    : list Row;
  ledgerModel    : option LedgerDispModelSimple;
  ledgerView     : option QTableView;
  lblTotalFunds  : option QLabel;
  lblUnconfirmed : option QLabel;
  rdoAllWallets  : option QRadioButton;
  rdoMyWallets   : option QRadioButton;
  rdoWatchOnly   : option QRadioButton;
  NetworkingFactory : ArmoryClientFactory;
  TheBDM         : BlockDataManager;
  reactor        : list Z;
  stdout         : list string
}.

(** Attribute assignment, one setter per assigned attribute. *)
Definition set_walletMap v (self : ArmoryMainWindow) : ArmoryMainWindow :=
  {| walletMap := v; walletIndices := walletIndices self; walletIDSet :=
     walletIDSet self; walletIDList := walletIDList self; walletBalances :=
     walletBalances self; walletLedgers := walletLedgers self; combinedLedger
     := combinedLedger self; ledgerSize := ledgerSize self; latestBlockNum :=
     latestBlockNum self; walletOfflines := walletOfflines self; ledgerTable
     := ledgerTable self; ledgerModel := ledgerModel self; ledgerView :=
     ledgerView self; lblTotalFunds := lblTotalFunds self; lblUnconfirmed :=
     lblUnconfirmed self; rdoAllWallets := rdoAllWallets self; rdoMyWallets :=
     rdoMyWallets self; rdoWatchOnly := rdoWatchOnly self; NetworkingFactory
     := NetworkingFactory self; TheBDM := TheBDM self; reactor := reactor
     self; stdout := stdout self |}.

Definition set_walletIndices v (self : ArmoryMainWindow) : ArmoryMainWindow :=
  {| walletMap := walletMap self; walletIndices := v; walletIDSet :=
     walletIDSet self; walletIDList := walletIDList self; walletBalances :=
     walletBalances self; walletLedgers := walletLedgers self; combinedLedger
     := combinedLedger self; ledgerSize := ledgerSize self; latestBlockNum :=
     latestBlockNum self; walletOfflines := walletOfflines self; ledgerTable
     := ledgerTable self; ledgerModel := ledgerModel self; ledgerView :=
     ledgerView self; lblTotalFunds := lblTotalFunds self; lblUnconfirmed :=
     lblUnconfirmed self; rdoAllWallets := rdoAllWallets self; rdoMyWallets :=
     rdoMyWallets self; rdoWatchOnly := rdoWatchOnly self; NetworkingFactory
     := NetworkingFactory self; TheBDM := TheBDM self; reactor := reactor
     self; stdout := stdout self |}.

Definition set_walletIDSet v (self : ArmoryMainWindow) : ArmoryMainWindow :=
  {| walletMap := walletMap self; walletIndices := walletIndices self;
     walletIDSet := v; walletIDList := walletIDList self; walletBalances :=
     walletBalances self; walletLedgers := walletLedgers self; combinedLedger
     := combinedLedger self; ledgerSize := ledgerSize self; latestBlockNum :=
     latestBlockNum self; walletOfflines := walletOfflines self; ledgerTable
     := ledgerTable self; ledgerModel := ledgerModel self; ledgerView :=
     ledgerView self; lblTotalFunds := lblTotalFunds self; lblUnconfirmed :=
     lblUnconfirmed self; rdoAllWallets := rdoAllWallets self; rdoMyWallets :=
     rdoMyWallets self; rdoWatchOnly := rdoWatchOnly self; NetworkingFactory
     := NetworkingFactory self; TheBDM := TheBDM self; reactor := reactor
     self; stdout := stdout self |}.

Definition set_walletIDList v (self : ArmoryMainWindow) : ArmoryMainWindow :=
  {| walletMap := walletMap self; walletIndices := walletIndices self;
     walletIDSet := walletIDSet self; walletIDList := v; walletBalances :=
     walletBalances self; walletLedgers := walletLedgers self; combinedLedger
     := combinedLedger self; ledgerSize := ledgerSize self; latestBlockNum :=
     latestBlockNum self; walletOfflines := walletOfflines self; ledgerTable
     := ledgerTable self; ledgerModel := ledgerModel self; ledgerView :=
     ledgerView self; lblTotalFunds := lblTotalFunds self; lblUnconfirmed :=
     lblUnconfirmed self; rdoAllWallets := rdoAllWallets self; rdoMyWallets :=
     rdoMyWallets self; rdoWatchOnly := rdoWatchOnly self; NetworkingFactory
     := NetworkingFactory self; TheBDM := TheBDM self; reactor := reactor
     self; stdout := stdout self |}.

Definition set_walletBalances v (self : ArmoryMainWindow) : ArmoryMainWindow :=
  {| walletMap := walletMap self; walletIndices := walletIndices self;
     walletIDSet := walletIDSet self; walletIDList := walletIDList self;
     walletBalances := v; walletLedgers := walletLedgers self; combinedLedger
     := combinedLedger self; ledgerSize := ledgerSize self; latestBlockNum :=
     latestBlockNum self; walletOfflines := walletOfflines self; ledgerTable
     := ledgerTable self; ledgerModel := ledgerModel self; ledgerView :=
     ledgerView self; lblTotalFunds := lblTotalFunds self; lblUnconfirmed :=
     lblUnconfirmed self; rdoAllWallets := rdoAllWallets self; rdoMyWallets :=
     rdoMyWallets self; rdoWatchOnly := rdoWatchOnly self; NetworkingFactory
     := NetworkingFactory self; TheBDM := TheBDM self; reactor := reactor
     self; stdout := stdout self |}.

Definition set_walletLedgers v (self : ArmoryMainWindow) : ArmoryMainWindow :=
  {| walletMap := walletMap self; walletIndices := walletIndices self;
     walletIDSet := walletIDSet self; walletIDList := walletIDList self;
     walletBalances := walletBalances self; walletLedgers := v; combinedLedger
     := combinedLedger self; ledgerSize := ledgerSize self; latestBlockNum :=
     latestBlockNum self; walletOfflines := walletOfflines self; ledgerTable
     := ledgerTable self; ledgerModel := ledgerModel self; ledgerView :=
     ledgerView self; lblTotalFunds := lblTotalFunds self; lblUnconfirmed :=
     lblUnconfirmed self; rdoAllWallets := rdoAllWallets self; rdoMyWallets :=
     rdoMyWallets self; rdoWatchOnly := rdoWatchOnly self; NetworkingFactory
     := NetworkingFactory self; TheBDM := TheBDM self; reactor := reactor
     self; stdout := stdout self |}.

Definition set_combinedLedger v (self : ArmoryMainWindow) : ArmoryMainWindow :=
  {| walletMap := walletMap self; walletIndices := walletIndices self;
     walletIDSet := walletIDSet self; walletIDList := walletIDList self;
     walletBalances := walletBalances self; walletLedgers := walletLedgers
     self; combinedLedger := v; ledgerSize := ledgerSize self; latestBlockNum
     := latestBlockNum self; walletOfflines := walletOfflines self;
     ledgerTable := ledgerTable self; ledgerModel := ledgerModel self;
     ledgerView := ledgerView self; lblTotalFunds := lblTotalFunds self;
     lblUnconfirmed := lblUnconfirmed self; rdoAllWallets := rdoAllWallets
     self; rdoMyWallets := rdoMyWallets self; rdoWatchOnly := rdoWatchOnly
     self; NetworkingFactory := NetworkingFactory self; TheBDM := TheBDM self;
     reactor := reactor self; stdout := stdout self |}.

Definition set_ledgerSize v (self : ArmoryMainWindow) : ArmoryMainWindow :=
  {| walletMap := walletMap self; walletIndices := walletIndices self;
     walletIDSet := walletIDSet self; walletIDList := walletIDList self;
     walletBalances := walletBalances self; walletLedgers := walletLedgers
     self; combinedLedger := combinedLedger self; ledgerSize := v;
     latestBlockNum := latestBlockNum self; walletOfflines := walletOfflines
     self; ledgerTable := ledgerTable self; ledgerModel := ledgerModel self;
     ledgerView := ledgerView self; lblTotalFunds := lblTotalFunds self;
     lblUnconfirmed := lblUnconfirmed self; rdoAllWallets := rdoAllWallets
     self; rdoMyWallets := rdoMyWallets self; rdoWatchOnly := rdoWatchOnly
     self; NetworkingFactory := NetworkingFactory self; TheBDM := TheBDM self;
     reactor := reactor self; stdout := stdout self |}.

Definition set_latestBlockNum v (self : ArmoryMainWindow) : ArmoryMainWindow :=
  {| walletMap := walletMap self; walletIndices := walletIndices self;
     walletIDSet := walletIDSet self; walletIDList := walletIDList self;
     walletBalances := walletBalances self; walletLedgers := walletLedgers
     self; combinedLedger := combinedLedger self; ledgerSize := ledgerSize
     self; latestBlockNum := v; walletOfflines := walletOfflines self;
     ledgerTable := ledgerTable self; ledgerModel := ledgerModel self;
     ledgerView := ledgerView self; lblTotalFunds := lblTotalFunds self;
     lblUnconfirmed := lblUnconfirmed self; rdoAllWallets := rdoAllWallets
     self; rdoMyWallets := rdoMyWallets self; rdoWatchOnly := rdoWatchOnly
     self; NetworkingFactory := NetworkingFactory self; TheBDM := TheBDM self;
     reactor := reactor self; stdout := stdout self |}.

Definition set_walletOfflines v (self : ArmoryMainWindow) : ArmoryMainWindow :=
  {| walletMap := walletMap self; walletIndices := walletIndices self;
     walletIDSet := walletIDSet self; walletIDList := walletIDList self;
     walletBalances := walletBalances self; walletLedgers := walletLedgers
     self; combinedLedger := combinedLedger self; ledgerSize := ledgerSize
     self; latestBlockNum := latestBlockNum self; walletOfflines := v;
     ledgerTable := ledgerTable self; ledgerModel := ledgerModel self;
     ledgerView := ledgerView self; lblTotalFunds := lblTotalFunds self;
     lblUnconfirmed := lblUnconfirmed self; rdoAllWallets := rdoAllWallets
     self; rdoMyWallets := rdoMyWallets self; rdoWatchOnly := rdoWatchOnly
     self; NetworkingFactory := NetworkingFactory self; TheBDM := TheBDM self;
     reactor := reactor self; stdout := stdout self |}.

Definition set_ledgerTable v (self : ArmoryMainWindow) : ArmoryMainWindow :=
  {| walletMap := walletMap self; walletIndices := walletIndices self;
     walletIDSet := walletIDSet self; walletIDList := walletIDList self;
     walletBalances := walletBalances self; walletLedgers := walletLedgers
     self; combinedLedger := combinedLedger self; ledgerSize := ledgerSize
     self; latestBlockNum := latestBlockNum self; walletOfflines :=
     walletOfflines self; ledgerTable := v; ledgerModel := ledgerModel self;
     ledgerView := ledgerView self; lblTotalFunds := lblTotalFunds self;
     lblUnconfirmed := lblUnconfirmed self; rdoAllWallets := rdoAllWallets
     self; rdoMyWallets := rdoMyWallets self; rdoWatchOnly := rdoWatchOnly
     self; NetworkingFactory := NetworkingFactory self; TheBDM := TheBDM self;
     reactor := reactor self; stdout := stdout self |}.

Definition set_ledgerModel v (self : ArmoryMainWindow) : ArmoryMainWindow :=
  {| walletMap := walletMap self; walletIndices := walletIndices self;
     walletIDSet := walletIDSet self; walletIDList := walletIDList self;
     walletBalances := walletBalances self; walletLedgers := walletLedgers
     self; combinedLedger := combinedLedger self; ledgerSize := ledgerSize
     self; latestBlockNum := latestBlockNum self; walletOfflines :=
     walletOfflines self; ledgerTable := ledgerTable self; ledgerModel := v;
     ledgerView := ledgerView self; lblTotalFunds := lblTotalFunds self;
     lblUnconfirmed := lblUnconfirmed self; rdoAllWallets := rdoAllWallets
     self; rdoMyWallets := rdoMyWallets self; rdoWatchOnly := rdoWatchOnly
     self; NetworkingFactory := NetworkingFactory self; TheBDM := TheBDM self;
     reactor := reactor self; stdout := stdout self |}.

Definition set_ledgerView v (self : ArmoryMainWindow) : ArmoryMainWindow :=
  {| walletMap := walletMap self; walletIndices := walletIndices self;
     walletIDSet := walletIDSet self; walletIDList := walletIDList self;
     walletBalances := walletBalances self; walletLedgers := walletLedgers
     self; combinedLedger := combinedLedger self; ledgerSize := ledgerSize
     self; latestBlockNum := latestBlockNum self; walletOfflines :=
     walletOfflines self; ledgerTable := ledgerTable self; ledgerModel :=
     ledgerModel self; ledgerView := v; lblTotalFunds := lblTotalFunds self;
     lblUnconfirmed := lblUnconfirmed self; rdoAllWallets := rdoAllWallets
     self; rdoMyWallets := rdoMyWallets self; rdoWatchOnly := rdoWatchOnly
     self; NetworkingFactory := NetworkingFactory self; TheBDM := TheBDM self;
     reactor := reactor self; stdout := stdout self |}.

Definition set_lblTotalFunds v (self : ArmoryMainWindow) : ArmoryMainWindow :=
  {| walletMap := walletMap self; walletIndices := walletIndices self;
     walletIDSet := walletIDSet self; walletIDList := walletIDList self;
     walletBalances := walletBalances self; walletLedgers := walletLedgers
     self; combinedLedger := combinedLedger self; ledgerSize := ledgerSize
     self; latestBlockNum := latestBlockNum self; walletOfflines :=
     walletOfflines self; ledgerTable := ledgerTable self; ledgerModel :=
     ledgerModel self; ledgerView := ledgerView self; lblTotalFunds := v;
     lblUnconfirmed := lblUnconfirmed self; rdoAllWallets := rdoAllWallets
     self; rdoMyWallets := rdoMyWallets self; rdoWatchOnly := rdoWatchOnly
     self; NetworkingFactory := NetworkingFactory self; TheBDM := TheBDM self;
     reactor := reactor self; stdout := stdout self |}.

Definition set_lblUnconfirmed v (self : ArmoryMainWindow) : ArmoryMainWindow :=
  {| walletMap := walletMap self; walletIndices := walletIndices self;
     walletIDSet := walletIDSet self; walletIDList := walletIDList self;
     walletBalances := walletBalances self; walletLedgers := walletLedgers
     self; combinedLedger := combinedLedger self; ledgerSize := ledgerSize
     self; latestBlockNum := latestBlockNum self; walletOfflines :=
     walletOfflines self; ledgerTable := ledgerTable self; ledgerModel :=
     ledgerModel self; ledgerView := ledgerView self; lblTotalFunds :=
     lblTotalFunds self; lblUnconfirmed := v; rdoAllWallets := rdoAllWallets
     self; rdoMyWallets := rdoMyWallets self; rdoWatchOnly := rdoWatchOnly
     self; NetworkingFactory := NetworkingFactory self; TheBDM := TheBDM self;
     reactor := reactor self; stdout := stdout self |}.

Definition set_TheBDM v (self : ArmoryMainWindow) : ArmoryMainWindow :=
  {| walletMap := walletMap self; walletIndices := walletIndices self;
     walletIDSet := walletIDSet self; walletIDList := walletIDList self;
     walletBalances := walletBalances self; walletLedgers := walletLedgers
     self; combinedLedger := combinedLedger self; ledgerSize := ledgerSize
     self; latestBlockNum := latestBlockNum self; walletOfflines :=
     walletOfflines self; ledgerTable := ledgerTable self; ledgerModel :=
     ledgerModel self; ledgerView := ledgerView self; lblTotalFunds :=
     lblTotalFunds self; lblUnconfirmed := lblUnconfirmed self; rdoAllWallets
     := rdoAllWallets self; rdoMyWallets := rdoMyWallets self; rdoWatchOnly :=
     rdoWatchOnly self; NetworkingFactory := NetworkingFactory self; TheBDM :=
     v; reactor := reactor self; stdout := stdout self |}.

Definition set_reactor v (self : ArmoryMainWindow) : ArmoryMainWindow :=
  {| walletMap := walletMap self; walletIndices := walletIndices self;
     walletIDSet := walletIDSet self; walletIDList := walletIDList self;
     walletBalances := walletBalances self; walletLedgers := walletLedgers
     self; combinedLedger := combinedLedger self; ledgerSize := ledgerSize
     self; latestBlockNum := latestBlockNum self; walletOfflines :=
     walletOfflines self; ledgerTable := ledgerTable self; ledgerModel :=
     ledgerModel self; ledgerView := ledgerView self; lblTotalFunds :=
     lblTotalFunds self; lblUnconfirmed := lblUnconfirmed self; rdoAllWallets
     := rdoAllWallets self; rdoMyWallets := rdoMyWallets self; rdoWatchOnly :=
     rdoWatchOnly self; NetworkingFactory := NetworkingFactory self; TheBDM :=
     TheBDM self; reactor := v; stdout := stdout self |}.

Definition set_stdout v (self : ArmoryMainWindow) : ArmoryMainWindow :=
  {| walletMap := walletMap self; walletIndices := walletIndices self;
     walletIDSet := walletIDSet self; walletIDList := walletIDList self;
     walletBalances := walletBalances self; walletLedgers := walletLedgers
     self; combinedLedger := combinedLedger self; ledgerSize := ledgerSize
     self; latestBlockNum := latestBlockNum self; walletOfflines :=
     walletOfflines self; ledgerTable := ledgerTable self; ledgerModel :=
     ledgerModel self; ledgerView := ledgerView self; lblTotalFunds :=
     lblTotalFunds self; lblUnconfirmed := lblUnconfirmed self; rdoAllWallets
     := rdoAllWallets self; rdoMyWallets := rdoMyWallets self; rdoWatchOnly :=
     rdoWatchOnly self; NetworkingFactory := NetworkingFactory self; TheBDM :=
     TheBDM self; reactor := reactor self; stdout := v |}.

(** ** The state-and-exception monad *)

(** A computation returns or raises, and in both cases leaves a window
    behind: what was assigned before an exception stays assigned. *)
Definition M (A : Type) : Type := ArmoryMainWindow → outcome A * ArmoryMainWindow.

#[global] Instance M_ret : MRet M := λ A a self, (Return a, self).
#[global] Instance M_bind : MBind M := λ A B f m self,
  match m self with
  | (Return a, self') => f a self'
  | (Raise e, self') => (Raise e, self')
  end.

Definition raise {A : Type} (e : exn) : M A := λ self, (Raise e, self).
Definition gets {A : Type} (f : ArmoryMainWindow → A) : M A := λ self, (Return (f self), self).
Definition modify (f : ArmoryMainWindow → ArmoryMainWindow) : M unit := λ self, (Return tt, f self).
Definition lift {A : Type} (o : outcome A) : M A := λ self, (o, self).

(** [try: body except: handler]. *)
Definition try_except {A : Type} (body : M A) (handler : exn → M A) : M A := λ self,
  match body self with
  | (Return a, self') => (Return a, self')
  | (Raise e, self') => handler e self'
  end.

(** [for x in l: body x]. *)
Fixpoint for_each {A : Type} (l : list A) (body : A → M unit) : M unit :=
  match l with
  | [] => mret tt
  | x :: l' => body x ;; for_each l' body
  end.

(** [d[k]] on a dictionary. *)
Definition getitem {V : Type} (d : gmap string V) (k : string) : outcome V :=
  match d !! k with
  | Some v => Return v
  | None => Raise (KeyError k)
  end.

(** [self.attr] for an attribute that may not exist yet. *)
Definition getattr {W : Type} (name : string) (a : option W) : outcome W :=
  match a with
  | Some w => Return w
  | None => Raise (AttributeError name)
  end.

Definition print (line : string) : M unit :=
  modify (λ self, set_stdout (stdout self ++ [line]) self).

(** The same sequencing for computations that only read the window. *)
#[global] Instance outcome_ret : MRet outcome := λ A a, Return a.
#[global] Instance outcome_bind : MBind outcome := λ A B f o,
  match o with
  | Return a => f a
  | Raise e => Raise e
  end.

(** ** Python built-ins *)

(** [list.sort] is stable and compares with [<] only: an element is put to
    the right of the elements that are not greater than it. *)
Fixpoint sort_insert {A : Type} (lt : A → A → bool) (pivot : A) (l : list A) : list A :=
  match l with
  | [] => [pivot]
  | y :: l' => if lt pivot y then pivot :: y :: l' else y :: sort_insert lt pivot l'
  end.

Definition list_sort {A : Type} (lt : A → A → bool) (l : list A) : list A :=
  fold_left (λ sorted x, sort_insert lt x sorted) l [].

(** [l.sort(reverse=True)]: the list is reversed, sorted, and reversed
    again, which keeps equal elements in their original order. *)
Definition list_sort_reverse {A : Type} (lt : A → A → bool) (l : list A) : list A :=
  rev (list_sort lt (rev l)).

(** [filter(f, l)] with a predicate that may raise. *)
Fixpoint py_filter {A : Type} (f : A → outcome bool) (l : list A) : outcome (list A) :=
  match l with
  | [] => Return []
  | x :: l' =>
      keep ← f x;
      rest ← py_filter f l';
      Return (if keep : bool then x :: rest else rest)
  end.

(** [l[i] = v] and [l[i]] on a list, for an index that is not negative. *)
Definition list_setitem {A : Type} (l : list A) (i : nat) (v : A) : outcome (list A) :=
  if bool_decide (i < length l)%nat then Return (<[i := v]> l) else Raise IndexError.

Definition list_getitem {A : Type} (l : list A) (i : nat) : outcome A :=
  match l !! i with
  | Some v => Return v
  | None => Raise IndexError
  end.

(** ** What the window takes from the other modules *)

(** [readWalletFile] is [PyBtcWallet().readWalletFile(fpath)] of
    armoryengine, [determineWalletType] gives the first component of the
    pair that qtdefines' function returns, and the last two are the
    formatting helpers of armoryengine. *)
Record ArmoryEngine : Type := {
  readWalletFile      : string → outcome PyBtcWallet;
  determineWalletType : PyBtcWallet → ArmoryMainWindow → WLTTYPES;
  unixTimeToFormatStr : Z → string;
  coin2str            : Z → string
}.

(** The lists that [loadWalletsAndSettings] reads from the settings file. *)
Record SettingsFile : Type := {
  Other_Wallets     : list string;
  Excluded_Wallets  : list string;
  Offline_WalletIDs : list string
}.

Definition dquote : string := String "034"%char EmptyString.
Definition spaces10 : string := "          ".

Section Window.
Context (eng : ArmoryEngine).

(** ** loadWalletsAndSettings *)

(** The body of [for fpath in wltPaths], with its [try] and its bare
    [except], which prints and raises again. *)
Definition loadWallet (wltExclude wltOffline : list string) (fpath : string) : M unit :=
  try_except
    (wltLoad ← lift (readWalletFile eng fpath);
     let wltID := wltUniqueIDB58 wltLoad in
     if bool_decide (fpath ∈ wltExclude) then mret tt
     else
       idSet ← gets walletIDSet;
       if bool_decide (wltID ∈ idSet) then
         print ("***WARNING: Duplicate wallet detected, " +:+ wltID);;
         wm ← gets walletMap;
         loaded ← lift (getitem wm wltID);
         print (spaces10 +:+ " Wallet 1 (loaded):  " +:+ walletPath loaded);;
         print (spaces10 +:+ " Wallet 2 (skipped): " +:+ fpath)
       else
         modify (λ self, set_walletMap (<[wltID := wltLoad]> (walletMap self)) self);;
         modify (λ self, set_walletIndices
                   (<[wltID := (size (walletMap self) - 1)%nat]> (walletIndices self)) self);;
         modify (λ self, set_walletIDSet ({[wltID]} ∪ walletIDSet self) self);;
         modify (λ self, set_walletIDList (walletIDList self ++ [wltID]) self);;
         balances ← gets walletBalances;
         match balances with
         | BalanceList l => modify (set_walletBalances (BalanceList (l ++ [-1])))
         | BalanceValue _ => raise (AttributeError "append")
         end;;
         if bool_decide (wltID ∈ wltOffline) || bool_decide (fpath ∈ wltOffline)
         then modify (λ self, set_walletOfflines ({[wltID]} ∪ walletOfflines self) self)
         else mret tt)
    (λ e,
       print ("***WARNING: Wallet could not be loaded: " +:+ fpath);;
       print "            skipping... ";;
       raise e).

Definition loadWallets (wltExclude wltOffline wltPaths : list string) : M unit :=
  for_each wltPaths (loadWallet wltExclude wltOffline).

(** The names of [ARMORY_HOME_DIR] that are taken for wallet files. *)
Definition endswith (suffix s : string) : bool :=
  String.prefix (String.rev suffix) (String.rev s).

Definition contains (sub s : string) : bool :=
  match String.index 0 sub s with Some _ => true | None => false end.

Definition isWalletFileName (f : string) : bool :=
  String.prefix "armory_" f && endswith ".wallet" f &&
  negb (endswith "backup.wallet" f) && negb (contains "unsuccessful" f).

(** The wallet part of [loadWalletsAndSettings]: the registry is emptied,
    the wallet files of the home directory ([homeWallets], already joined
    with the directory) are added to the paths of the settings, and every
    path is loaded.  The summary printed after the loop is left out. *)
Definition loadWalletsAndSettings (settings : SettingsFile) (homeWallets : list string) : M unit :=
  let wltPaths := Other_Wallets settings in
  modify (set_walletMap ∅);;
  modify (set_walletIndices ∅);;
  modify (set_walletIDSet ∅);;
  modify (set_walletIDList []);;
  modify (set_walletBalances (BalanceList []));;
  modify (set_walletLedgers []);;
  modify (set_combinedLedger []);;
  modify (set_ledgerSize 0%nat);;
  modify (set_latestBlockNum 0);;
  modify (set_walletOfflines ∅);;
  print "Loading wallets...";;
  let wltPaths := wltPaths ++ homeWallets in
  let wltExclude := Excluded_Wallets settings in
  let wltOffline := Offline_WalletIDs settings in
  loadWallets wltExclude wltOffline wltPaths.

(** ** createZeroConfLedger *)

(** [d[k]] on a dict that is kept as the list of its items. *)
Fixpoint dict_getitem {V : Type} (d : list (string * V)) (k : string) : outcome V :=
  match d with
  | [] => Raise (KeyError k)
  | (k', v) :: d' => if String.eqb k' k then Return v else dict_getitem d' k
  end.

(** The loop [for zchash in zcMap.keys()]: the serialized transactions are
    collected together with their arrival times. *)
Fixpoint collectZeroConf (zcMap : list (string * string)) (timeMap : gmap string Z)
    (keys : list string) (zcTxBinList : list string) (zcTxTimeList : list Z)
    : outcome (list string * list Z) :=
  match keys with
  | [] => Return (zcTxBinList, zcTxTimeList)
  | zchash :: keys' =>
      tx ← dict_getitem zcMap zchash;
      t ← getitem timeMap zchash;
      collectZeroConf zcMap timeMap keys' (zcTxBinList ++ [tx]) (zcTxTimeList ++ [t])
  end.

(** The two loops that wrap the serialized transactions keep their order;
    the list is handed to the wallet's C++ query. *)
Definition createZeroConfLedger (self : ArmoryMainWindow) (wlt : PyBtcWallet)
    : outcome (list LedgerEntry) :=
  let zcMap := zeroConfTx (NetworkingFactory self) in
  let timeMap := zeroConfTxTime (NetworkingFactory self) in
  lists ← collectZeroConf zcMap timeMap zcMap.*1 [] [];
  let zcTxRefPtrList := lists.1 in
  Return (getLedgerEntriesForZeroConfTxList wlt zcTxRefPtrList).

(** ** convertLedgerToTable *)

Definition UNCONFIRMED_BLOCKNUM : Z := 0xffffffff.

(** One pass of the loop body: the eight columns of a row. *)
Definition convertLedgerRow (self : ArmoryMainWindow) (item : string * LedgerEntry)
    : outcome Row :=
  let '(wltID, le) := item in
  let nConf := latestBlockNum self - getBlockNum le + 1 in
  wlt ← getitem (walletMap self) wltID;
  let nConf := if getBlockNum le >=? UNCONFIRMED_BLOCKNUM then 0 else nConf in
  txtime ← (if nConf >? 0
            then Return (getTimestamp (getTopBlockHeader (TheBDM self)))
            else getitem (zeroConfTxTime (NetworkingFactory self)) (getTxHash le));
  labelled ← getitem (walletMap self) wltID;
  Return {| rowNumConf := nConf;
            rowDate    := unixTimeToFormatStr eng txtime;
            rowTxDir   := getValue le;
            rowWltName := labelName labelled;
            rowComment := match commentsMap wlt !! getTxHash le with
                          | Some c => c
                          | None => EmptyString
                          end;
            rowAmount  := coin2str eng (getValue le);
            rowIsMine  := watchingOnly wlt && negb (bool_decide (wltID ∈ walletOfflines self));
            rowWltID   := wltID |}.

Fixpoint convertLedgerLoop (self : ArmoryMainWindow) (ledger : list (string * LedgerEntry))
    (table2D : list Row) : outcome (list Row) :=
  match ledger with
  | [] => Return table2D
  | item :: ledger' =>
      row ← convertLedgerRow self item;
      convertLedgerLoop self ledger' (table2D ++ [row])
  end.

Definition convertLedgerToTable (self : ArmoryMainWindow) (ledger : list (string * LedgerEntry))
    : outcome (list Row) :=
  convertLedgerLoop self ledger [].

(** ** createCombinedLedger *)

(** The inner function [filt]. *)
Definition filt (self : ArmoryMainWindow) (wid : string) (whichWay : bool) : outcome bool :=
  wlt ← getitem (walletMap self) wid;
  let wtype := determineWalletType eng wlt self in
  Return (if whichWay then negb (WLTTYPES_eqb wtype WatchOnly)
          else WLTTYPES_eqb wtype WatchOnly).

(** The wallet list that is used: the argument when there is one, and
    otherwise the list chosen by the radio buttons.  With no button checked
    the list stays [None]. *)
Definition selectWalletIDs (self : ArmoryMainWindow) (wltIDList : option (list string))
    : outcome (option (list string)) :=
  match wltIDList with
  | Some l => Return (Some l)
  | None =>
      rdoAll ← getattr "rdoAllWallets" (rdoAllWallets self);
      if isChecked rdoAll then Return (Some (walletIDList self))
      else
        rdoMy ← getattr "rdoMyWallets" (rdoMyWallets self);
        if isChecked rdoMy
        then l ← py_filter (λ x, filt self x true) (walletIDList self); Return (Some l)
        else
          rdoWatch ← getattr "rdoWatchOnly" (rdoWatchOnly self);
          if isChecked rdoWatch
          then l ← py_filter (λ x, filt self x false) (walletIDList self); Return (Some l)
          else Return None
  end.

(** The body of [for wltID in wltIDList]. *)
Definition extendCombinedLedger (wltID : string) : M unit :=
  wm ← gets walletMap;
  wlt ← lift (getitem wm wltID);
  wi ← gets walletIndices;
  index ← lift (getitem wi wltID);
  ledgers ← gets walletLedgers;
  ledgers' ← lift (list_setitem ledgers index (getTxLedger wlt));
  modify (set_walletLedgers ledgers');;
  ledger ← lift (list_getitem ledgers' index);
  let id_le_pairs := map (λ le, (wltID, le)) ledger in
  modify (λ self, set_combinedLedger (combinedLedger self ++ id_le_pairs) self).

(** The loop over the combined ledger that adds up the two totals. *)
Definition sumFunds (latestBlockNum : Z) (ledger : list (string * LedgerEntry)) : Z * Z :=
  fold_left
    (λ funds item,
       let '(totFund, unconfFund) := funds in
       let le := item.2 in
       if latestBlockNum - getBlockNum le + 1 <? 6
       then (totFund, unconfFund + getValue le)
       else (totFund + getValue le, unconfFund))
    ledger (0, 0).

(** The body of the [try] at the end of [createCombinedLedger]. *)
Definition updateLedgerDisplay : M unit :=
  _ ← (λ self, lift (getattr "ledgerModel" (ledgerModel self)) self);
  ledger ← gets combinedLedger;
  tip ← gets latestBlockNum;
  let '(totFund, unconfFund) := sumFunds tip ledger in
  let uncolor := if unconfFund >? 0 then "red" else "black" in
  _ ← (λ self, lift (getattr "lblUnconfirmed" (lblUnconfirmed self)) self);
  modify (set_lblUnconfirmed (Some {| labelText :=
    "<b>Unconfirmed: <font color=" +:+ dquote +:+ uncolor +:+ dquote +:+ "   >" +:+
    coin2str eng unconfFund +:+ "</font> BTC</b>" |}));;
  _ ← (λ self, lift (getattr "lblTotalFunds" (lblTotalFunds self)) self);
  modify (set_lblTotalFunds (Some {| labelText :=
    "<b>Total Funds: <font color=" +:+ dquote +:+ "green" +:+ dquote +:+ ">" +:+
    coin2str eng totFund +:+ "</font> BTC</b>" |}));;
  table ← (λ self, lift (convertLedgerToTable self (combinedLedger self)) self);
  modify (set_ledgerTable table);;
  modify (set_ledgerModel (Some {| modelTable := table |}));;
  _ ← (λ self, lift (getattr "ledgerView" (ledgerView self)) self);
  modify (λ self, set_ledgerView (Some {| viewModel := ledgerModel self |}) self).

Definition combinedLedger_lt (x y : string * LedgerEntry) : bool :=
  LedgerEntry_lt x.2 y.2.

Definition createCombinedLedger (wltIDList : option (list string)) (withZeroConf : bool)
    : M unit :=
  wltIDList ← (λ self, lift (selectWalletIDs self wltIDList) self);
  modify (set_combinedLedger []);;
  match wltIDList with
  | Some l => for_each l extendCombinedLedger
  | None => raise TypeError
  end;;
  modify (λ self, set_combinedLedger
            (list_sort_reverse combinedLedger_lt (combinedLedger self)) self);;
  modify (λ self, set_ledgerSize (length (combinedLedger self)) self);;
  try_except updateLedgerDisplay
    (λ e, if is_AttributeError e then mret tt else raise e).

(** ** Heartbeat *)

(** [TheBDM.readBlkFileUpdate()]: the next read of the block file. *)
Definition readBlkFileUpdate : M Z := λ self,
  let bdm := TheBDM self in
  match blkFile bdm with
  | [] => (Return 0, self)
  | Return (newBlks, top) :: later =>
      (Return newBlks,
       set_TheBDM {| isInitialized := isInitialized bdm;
                     getTopBlockHeader := top;
                     getHeaderByHeight := getHeaderByHeight bdm;
                     blkFile := later |} self)
  | Raise e :: later =>
      (Raise e,
       set_TheBDM {| isInitialized := isInitialized bdm;
                     getTopBlockHeader := getTopBlockHeader bdm;
                     getHeaderByHeight := getHeaderByHeight bdm;
                     blkFile := later |} self)
  end.

(** The check for new blocks at the head of [Heartbeat]. *)
Definition checkNewBlocks : M unit :=
  bdm ← gets TheBDM;
  if isInitialized bdm then
    newBlks ← readBlkFileUpdate;
    if newBlks >? 0 then mret tt
    else modify (λ self,
           set_latestBlockNum (getBlockHeight (getTopBlockHeader (TheBDM self))) self)
  else mret tt.

(** The loop over [self.walletMap.iteritems()]. *)
Definition updateBalances : M unit :=
  wm ← gets walletMap;
  for_each (map_to_list wm) (λ item,
    wm' ← gets walletMap;
    wlt ← lift (getitem wm' item.1);
    balance ← lift (getBalance wlt);
    modify (set_walletBalances (BalanceValue balance))).

(** [self.extraHeartbeatFunctions] is an argument: a record cannot hold
    functions on itself.  [__init__] puts [createCombinedLedger] in it. *)
Definition Heartbeat (extraHeartbeatFunctions : list (M unit)) (nextBeatSec : Z) : M unit :=
  checkNewBlocks;;
  updateBalances;;
  for_each extraHeartbeatFunctions (λ func, func);;
  modify (λ self, set_reactor (reactor self ++ [nextBeatSec]) self).

End Window.

(** * Notions used in the statements *)

(** An attribute that a computation leaves alone, however it ends. *)
Definition preserves {A X : Type} (f : ArmoryMainWindow → X) (m : M A) : Prop :=
  ∀ self, f (m self).2 = f self.

(** Ascending and descending with respect to [lt]. *)
Definition ascending {A : Type} (lt : A → A → bool) (l : list A) : Prop := StronglySorted (λ a b, lt b a = false) l.
Definition descending {A : Type} (lt : A → A → bool) (l : list A) : Prop := StronglySorted (λ a b, lt a b = false) l.

(** The entries that have a given ordering key. *)
Definition hasKey (key : Z * Z) (x : string * LedgerEntry) : bool :=
  (getBlockNum x.2 =? key.1) && (getIndex x.2 =? key.2).

(** The pairs that one wallet contributes, and the pairs collected over a
    list of wallet identifiers, in the order of the list. *)
Definition walletPairs (self : ArmoryMainWindow) (wltID : string) : list (string * LedgerEntry) :=
  match walletMap self !! wltID with
  | Some wlt => map (λ le, (wltID, le)) (getTxLedger wlt)
  | None => []
  end.

Definition collectedPairs (self : ArmoryMainWindow) (wltIDList : list string)
    : list (string * LedgerEntry) :=
  flat_map (walletPairs self) wltIDList.

(** A wallet identifier the loop can process: it is in the registry and its
    index has a slot in [walletLedgers]. *)
Definition registered (self : ArmoryMainWindow) (wltID : string) : Prop :=
  is_Some (walletMap self !! wltID) ∧
  ∃ i, walletIndices self !! wltID = Some i ∧ (i < length (walletLedgers self))%nat.

(** The window when the loop, the sort and the size assignment are done. *)
Definition built (self : ArmoryMainWindow) (wltIDList : list string)
    (ledgers : list (list LedgerEntry)) : ArmoryMainWindow :=
  let sorted := list_sort_reverse combinedLedger_lt (collectedPairs self wltIDList) in
  set_ledgerSize (length sorted) (set_combinedLedger sorted (set_walletLedgers ledgers self)).

(** The handler of [except AttributeError: pass]. *)
Definition swallowAttributeError (e : exn) : M unit :=
  if is_AttributeError e then mret tt else raise e.


(** The number of rows one wallet has in its own ledger, and the number of
    entries that [createZeroConfLedger] gives for it. *)
Definition confirmedEntries (self : ArmoryMainWindow) (wltID : string) : nat :=
  match walletMap self !! wltID with
  | Some wlt => length (getTxLedger wlt)
  | None => 0
  end.

Definition zeroConfEntries (self : ArmoryMainWindow) (wltID : string) : nat :=
  match walletMap self !! wltID with
  | Some wlt =>
      match createZeroConfLedger self wlt with
      | Return entries => length entries
      | Raise _ => 0
      end
  | None => 0
  end.

(** The entries that the totals count as unconfirmed, and the sum of the
    signed values of a ledger. *)
Definition countsAsUnconfirmed (tip : Z) (x : string * LedgerEntry) : bool :=
  tip - getBlockNum x.2 + 1 <? 6.

Definition sumValues (ledger : list (string * LedgerEntry)) : Z :=
  foldr (λ x total, getValue x.2 + total) 0 ledger.

(** Ties between rows of equal ordering key in the order of wallet
    identifier, then of transaction hash. *)
Definition tieBreakOrdered (ledger : list (string * LedgerEntry)) : Prop :=
  ∀ (i j : nat) x y,
    (i < j)%nat → ledger !! i = Some x → ledger !! j = Some y →
    orderingKey x.2 = orderingKey y.2 →
    (x.1 <? y.1)%string = true ∨
    (x.1 = y.1 ∧ (getTxHash x.2 <=? getTxHash y.2)%string = true).

(** The three lines printed for a wallet file whose identifier is already
    in the registry. *)
Definition duplicateWarning (wltID loadedPath skippedPath : string) : list string :=
  [ "***WARNING: Duplicate wallet detected, " +:+ wltID;
    spaces10 +:+ " Wallet 1 (loaded):  " +:+ loadedPath;
    spaces10 +:+ " Wallet 2 (skipped): " +:+ skippedPath ].

(** The two lines printed for a wallet file that cannot be read. *)
Definition loadFailureWarning (fpath : string) : list string :=
  [ "***WARNING: Wallet could not be loaded: " +:+ fpath;
    "            skipping... " ].

(** What the loading loop keeps true of the registry: the balances are a
    list, the identifier set is the domain of the wallet map, and the
    identifier list has the same identifiers, each once. *)
Definition registryInv (self : ArmoryMainWindow) : Prop :=
  (∃ l, walletBalances self = BalanceList l) ∧
  (∀ wltID, wltID ∈ walletIDSet self ↔ is_Some (walletMap self !! wltID)) ∧
  NoDup (walletIDList self) ∧
  (∀ wltID, wltID ∈ walletIDList self ↔ wltID ∈ walletIDSet self).

(** The window when [loadWalletsAndSettings] enters the loading loop. *)
Definition freshRegistry (self : ArmoryMainWindow) : ArmoryMainWindow :=
  set_stdout (stdout self ++ ["Loading wallets..."])
    (set_walletOfflines ∅
       (set_latestBlockNum 0
          (set_ledgerSize 0%nat
             (set_combinedLedger []
                (set_walletLedgers []
                   (set_walletBalances (BalanceList [])
                      (set_walletIDList []
                         (set_walletIDSet ∅
                            (set_walletIndices ∅
                               (set_walletMap ∅ self)))))))))).

(** ** Concrete windows *)

Module Scenario.

(** Wallet A with one entry of +5 BTC in block 100, watching-only wallet B
    with one unconfirmed transaction of +1 BTC, and the chain tip at 105. *)
Definition entryA : LedgerEntry :=
  {| getBlockNum := 100; getIndex := 0; getValue := 500000000; getTxHash := "aa" |}.

Definition entryZC : LedgerEntry :=
  {| getBlockNum := 0xffffffff; getIndex := 0; getValue := 100000000; getTxHash := "zz" |}.

Definition walletA : PyBtcWallet :=
  {| wltUniqueIDB58 := "A"; walletPath := "/home/armory_A.wallet"; labelName := "Savings";
     useEncryption := false; watchingOnly := false; commentsMap := ∅;
     getTxLedger := [entryA]; getBalance := Return 500000000;
     getLedgerEntriesForZeroConfTxList := λ _, [] |}.

Definition walletB : PyBtcWallet :=
  {| wltUniqueIDB58 := "B"; walletPath := "/home/armory_B.wallet"; labelName := "Watched";
     useEncryption := false; watchingOnly := true; commentsMap := ∅;
     getTxLedger := []; getBalance := Return 0;
     getLedgerEntriesForZeroConfTxList := λ txs, map (λ _, entryZC) txs |}.

(** A second file that holds wallet A, and a file that is no wallet. *)
Definition engine : ArmoryEngine :=
  {| readWalletFile := λ fpath,
       if String.eqb fpath "/home/armory_A.wallet" then Return walletA
       else if String.eqb fpath "/home/armory_B.wallet" then Return walletB
       else if String.eqb fpath "/home/armory_A_copy.wallet" then Return walletA
       else Raise (EngineError "not a wallet file");
     determineWalletType := λ wlt _, if watchingOnly wlt then WatchOnly else Plain;
     unixTimeToFormatStr := pretty;
     coin2str := pretty |}.

Definition chain : BlockDataManager :=
  {| isInitialized := true;
     getTopBlockHeader := {| getBlockHeight := 105; getTimestamp := 1322000000 |};
     getHeaderByHeight := λ h,
       if h =? 100 then Some {| getBlockHeight := 100; getTimestamp := 1321997000 |}
       else if h =? 105 then Some {| getBlockHeight := 105; getTimestamp := 1322000000 |}
       else None;
     blkFile := [] |}.

(** The window before [__init__] has created the widgets. *)
Definition early : ArmoryMainWindow :=
  {| walletMap := {["A" := walletA; "B" := walletB]};
     walletIndices := {["A" := 0%nat; "B" := 1%nat]};
     walletIDSet := {["A"; "B"]};
     walletIDList := ["A"; "B"];
     walletBalances := BalanceList [500000000; 0];
     walletLedgers := [[entryA]; []];
     combinedLedger := [];
     ledgerSize := 0;
     latestBlockNum := 105;
     walletOfflines := ∅;
     ledgerTable := [];
     ledgerModel := None; ledgerView := None;
     lblTotalFunds := None; lblUnconfirmed := None;
     rdoAllWallets := None; rdoMyWallets := None; rdoWatchOnly := None;
     NetworkingFactory := {| zeroConfTx := [("zz", "rawtx")];
                             zeroConfTxTime := {["zz" := 1322000100]} |};
     TheBDM := chain;
     reactor := [];
     stdout := [] |}.

(** The same window with its widgets, "All wallets" checked. *)
Definition window : ArmoryMainWindow :=
  {| walletMap := walletMap early; walletIndices := walletIndices early;
     walletIDSet := walletIDSet early; walletIDList := walletIDList early;
     walletBalances := walletBalances early; walletLedgers := walletLedgers early;
     combinedLedger := []; ledgerSize := 0; latestBlockNum := 105;
     walletOfflines := ∅; ledgerTable := [];
     ledgerModel := Some {| modelTable := [] |};
     ledgerView := Some {| viewModel := Some {| modelTable := [] |} |};
     lblTotalFunds := Some {| labelText := EmptyString |};
     lblUnconfirmed := Some {| labelText := EmptyString |};
     rdoAllWallets := Some {| isChecked := true |};
     rdoMyWallets := Some {| isChecked := false |};
     rdoWatchOnly := Some {| isChecked := false |};
     NetworkingFactory := NetworkingFactory early;
     TheBDM := chain; reactor := []; stdout := [] |}.

(** Wallet B loaded before wallet A, and one transaction in block 101
    that pays from B to A: both wallets have an entry with its key. *)
Definition sentB : LedgerEntry :=
  {| getBlockNum := 101; getIndex := 3; getValue := -100000000; getTxHash := "cc" |}.

Definition receivedA : LedgerEntry :=
  {| getBlockNum := 101; getIndex := 3; getValue := 100000000; getTxHash := "cc" |}.

Definition payer : PyBtcWallet :=
  {| wltUniqueIDB58 := "B"; walletPath := "/home/armory_B.wallet"; labelName := "Payer";
     useEncryption := false; watchingOnly := false; commentsMap := ∅;
     getTxLedger := [sentB]; getBalance := Return 0;
     getLedgerEntriesForZeroConfTxList := λ _, [] |}.

Definition payee : PyBtcWallet :=
  {| wltUniqueIDB58 := "A"; walletPath := "/home/armory_A.wallet"; labelName := "Payee";
     useEncryption := false; watchingOnly := false; commentsMap := ∅;
     getTxLedger := [receivedA]; getBalance := Return 100000000;
     getLedgerEntriesForZeroConfTxList := λ _, [] |}.

Definition transfer : ArmoryMainWindow :=
  set_walletMap {["B" := payer; "A" := payee]}
    (set_walletIndices {["B" := 0%nat; "A" := 1%nat]}
       (set_walletIDList ["B"; "A"]
          (set_walletLedgers [[sentB]; [receivedA]] window))).

(** Settings that name wallet A, wallet B and a copy of wallet A, and
    settings that name a file that is no wallet before wallet A. *)
Definition withCopy : SettingsFile :=
  {| Other_Wallets := ["/home/armory_A.wallet"; "/home/armory_B.wallet";
                       "/home/armory_A_copy.wallet"];
     Excluded_Wallets := [];
     Offline_WalletIDs := [] |}.

Definition withBroken : SettingsFile :=
  {| Other_Wallets := ["/home/armory_broken.wallet"; "/home/armory_A.wallet"];
     Excluded_Wallets := [];
     Offline_WalletIDs := [] |}.

(** The window whose tracked height is 105, with an engine that finds one
    new block, and with an engine whose top block is at 104. *)
Definition withTop (top : BlockHeader) (reads : list (outcome (Z * BlockHeader)))
    : ArmoryMainWindow :=
  set_TheBDM {| isInitialized := true;
                getTopBlockHeader := top;
                getHeaderByHeight := getHeaderByHeight chain;
                blkFile := reads |} window.

Definition oneNewBlock : ArmoryMainWindow :=
  withTop (getTopBlockHeader chain)
          [Return (1, {| getBlockHeight := 106; getTimestamp := 1322000600 |})].

Definition lowerTop : ArmoryMainWindow :=
  withTop {| getBlockHeight := 104; getTimestamp := 1321999400 |} [].

(** The observers of [__init__], and the same with one that fails. *)
Definition observers : list (M unit) := [createCombinedLedger engine None true].

Definition failingObservers : list (M unit) :=
  [createCombinedLedger engine None true; raise (EngineError "observer failed")].

End Scenario.

(** * Further methods of the window *)

(** ** getWalletForAddr160 *)

(** [wlt.hasAddr] is a method of the wallet library; it is an argument
    here.  The loop runs over [self.walletMap.iteritems()]; [map_to_list]
    stands for the order in which the dictionary gives its items. *)
Fixpoint firstWalletWith (hasAddr : PyBtcWallet → string → bool) (addr160 : string)
    (items : list (string * PyBtcWallet)) : option string :=
  match items with
  | [] => None
  | (wltID, wlt) :: items' =>
      if hasAddr wlt addr160 then Some wltID
      else firstWalletWith hasAddr addr160 items'
  end.

Definition getWalletForAddr160 (hasAddr : PyBtcWallet → string → bool)
    (self : ArmoryMainWindow) (addr160 : string) : option string :=
  firstWalletWith hasAddr addr160 (map_to_list (walletMap self)).

(** ** loadBlockchain *)

(** The functions of the engine that [loadBlockchain] calls:
    [BDM_LoadBlockchainFile] works on the global [TheBDM];
    [syncWithBlockchain] stands for [setBlockchainSyncFlag] followed by
    [syncWithBlockchain], which update the wallet object in place;
    [getAddrLedgers] gives [wlt.getTxLedger(addr.getAddr160())] for each
    address of [wlt.getAddrList()], in that order. *)
Record BlockchainEngine : Type := {
  BDM_LoadBlockchainFile : BlockDataManager → outcome BlockDataManager;
  syncWithBlockchain     : BlockDataManager → PyBtcWallet → outcome PyBtcWallet;
  getAddrLedgers         : PyBtcWallet → list (list LedgerEntry)
}.

Record AllWalletsDispModel : Type := { modelResets : nat }.

(** The window together with the attributes that only [loadBlockchain]
    uses: the per-address ledgers, the model of the wallet table, and the
    message of the status bar. *)
Record StartupWindow : Type := {
  mainWindow       : ArmoryMainWindow;
  walletSubLedgers : list (list (list LedgerEntry));
  walletModel      : option AllWalletsDispModel;
  statusBarMessage : string
}.

Definition MS (A : Type) : Type := StartupWindow → outcome A * StartupWindow.

#[global] Instance MS_ret : MRet MS := λ A a self, (Return a, self).
#[global] Instance MS_bind : MBind MS := λ A B f m self,
  match m self with
  | (Return a, self') => f a self'
  | (Raise e, self') => (Raise e, self')
  end.

Definition set_mainWindow (w : ArmoryMainWindow) (self : StartupWindow) : StartupWindow :=
  {| mainWindow := w;
     walletSubLedgers := walletSubLedgers self;
     walletModel := walletModel self;
     statusBarMessage := statusBarMessage self |}.

(** A computation on the attributes of the main window. *)
Definition onWindow {A : Type} (m : M A) : MS A := λ self,
  let r := m (mainWindow self) in (r.1, set_mainWindow r.2 self).

Definition showMessage (message : string) : MS unit := λ self,
  (Return tt, {| mainWindow := mainWindow self;
                 walletSubLedgers := walletSubLedgers self;
                 walletModel := walletModel self;
                 statusBarMessage := message |}).

Definition appendSubLedgers (ledgers : list (list LedgerEntry)) : MS unit := λ self,
  (Return tt, {| mainWindow := mainWindow self;
                 walletSubLedgers := walletSubLedgers self ++ [ledgers];
                 walletModel := walletModel self;
                 statusBarMessage := statusBarMessage self |}).

(** [self.walletModel.reset()]. *)
Definition resetWalletModel : MS unit := λ self,
  match walletModel self with
  | Some model =>
      (Return tt, {| mainWindow := mainWindow self;
                     walletSubLedgers := walletSubLedgers self;
                     walletModel := Some {| modelResets := S (modelResets model) |};
                     statusBarMessage := statusBarMessage self |})
  | None => (Raise (AttributeError "walletModel"), self)
  end.

Fixpoint for_eachS {A : Type} (l : list A) (body : A → MS unit) : MS unit :=
  match l with
  | [] => mret tt
  | x :: l' => body x ;; for_eachS l' body
  end.

(** The body of [for wltID, wlt in self.walletMap.iteritems()]. *)
Definition syncWallet (chain : BlockchainEngine) (wltID : string) : MS unit :=
  onWindow (print ("Syncing " +:+ wltID));;
  wm ← onWindow (gets walletMap);
  stored ← onWindow (lift (getitem wm wltID));
  bdm ← onWindow (gets TheBDM);
  wlt ← onWindow (lift (syncWithBlockchain chain bdm stored));
  onWindow (modify (λ self, set_walletMap (<[wltID := wlt]> (walletMap self)) self));;
  wi ← onWindow (gets walletIndices);
  wltIndex ← onWindow (lift (getitem wi wltID));
  balance ← onWindow (lift (getBalance wlt));
  balances ← onWindow (gets walletBalances);
  match balances with
  | BalanceList l =>
      l' ← onWindow (lift (list_setitem l wltIndex balance));
      onWindow (modify (set_walletBalances (BalanceList l')))
  | BalanceValue _ => onWindow (raise TypeError)
  end;;
  appendSubLedgers (getAddrLedgers chain wlt);;
  onWindow (modify (λ self, set_walletLedgers (walletLedgers self ++ [getTxLedger wlt]) self)).

Definition loadBlockchain (eng : ArmoryEngine) (chain : BlockchainEngine) : MS unit :=
  onWindow (print "Loading blockchain");;
  bdm ← onWindow (gets TheBDM);
  loaded ← onWindow (lift (BDM_LoadBlockchainFile chain bdm));
  onWindow (modify (set_TheBDM loaded));;
  onWindow (modify (λ self,
    set_latestBlockNum (getBlockHeight (getTopBlockHeader (TheBDM self))) self));;
  bdm ← onWindow (gets TheBDM);
  (if isInitialized bdm then
     showMessage "Syncing wallets with blockchain...";;
     onWindow (print "Syncing wallets with blockchain...");;
     wm ← onWindow (gets walletMap);
     for_eachS (map_to_list wm) (λ item, syncWallet chain item.1);;
     wltIDList ← onWindow (gets walletIDList);
     onWindow (createCombinedLedger eng (Some wltIDList) true);;
     onWindow (modify (λ self, set_ledgerSize (length (combinedLedger self)) self));;
     ledger ← onWindow (gets combinedLedger);
     tip ← onWindow (gets latestBlockNum);
     onWindow (print ("Ledger entries: " +:+ pretty (length ledger) +:+
                      " Max Block: " +:+ pretty tip));;
     showMessage "Blockchain loaded, wallets sync'd!"
   else
     showMessage "! Blockchain loading failed !");;
  resetWalletModel.

(** * Notions for the further properties *)

(** What the loading loop keeps true beside [registryInv]: the index of a
    wallet is its position in [walletIDList], there is one balance of -1 for
    each wallet, and only registered wallets are marked offline. *)
Definition registryIndexed (self : ArmoryMainWindow) : Prop :=
  size (walletMap self) = length (walletIDList self) ∧
  (∀ wltID i, walletIndices self !! wltID = Some i ↔ walletIDList self !! i = Some wltID) ∧
  walletBalances self = BalanceList (replicate (length (walletIDList self)) (-1)) ∧
  (∀ wltID, wltID ∈ walletOfflines self → wltID ∈ walletIDSet self).

(** ** Further concrete data *)

Module Sample.

(** The settings of [Scenario.withCopy] with wallet B listed as offline,
    and settings that exclude the file of wallet B. *)
Definition offlineB : SettingsFile :=
  {| Other_Wallets := ["/home/armory_A.wallet"; "/home/armory_B.wallet";
                       "/home/armory_A_copy.wallet"];
     Excluded_Wallets := [];
     Offline_WalletIDs := ["B"] |}.

Definition withoutB : SettingsFile :=
  {| Other_Wallets := ["/home/armory_A.wallet"; "/home/armory_B.wallet"];
     Excluded_Wallets := ["/home/armory_B.wallet"];
     Offline_WalletIDs := [] |}.

(** An entry of wallet A in block 200, above the tracked height 105 of
    [Scenario.window], with no arrival time recorded for its hash. *)
Definition aboveTip : LedgerEntry :=
  {| getBlockNum := 200; getIndex := 1; getValue := 700000000; getTxHash := "hh" |}.

(** The window of the scenario with a chain engine that is not
    initialized and has a block waiting in its file. *)
Definition notLoaded : ArmoryMainWindow :=
  set_TheBDM {| isInitialized := false;
                getTopBlockHeader := {| getBlockHeight := 0; getTimestamp := 0 |};
                getHeaderByHeight := λ _, None;
                blkFile := [Return (1, {| getBlockHeight := 1; getTimestamp := 1231469665 |})] |}
    Scenario.window.

(** An engine that loads the chain of the scenario and syncs every wallet
    without changing it, and an engine that comes back without a chain. *)
Definition chainEngine : BlockchainEngine :=
  {| BDM_LoadBlockchainFile := λ _, Return Scenario.chain;
     syncWithBlockchain := λ _ wlt, Return wlt;
     getAddrLedgers := λ wlt, [getTxLedger wlt] |}.

Definition noChainEngine : BlockchainEngine :=
  {| BDM_LoadBlockchainFile := λ bdm,
       Return {| isInitialized := false;
                 getTopBlockHeader := getTopBlockHeader bdm;
                 getHeaderByHeight := getHeaderByHeight bdm;
                 blkFile := blkFile bdm |};
     syncWithBlockchain := λ _ wlt, Return wlt;
     getAddrLedgers := λ wlt, [getTxLedger wlt] |}.

(** The window of the scenario as [__init__] has it when it calls
    [loadBlockchain]. *)
Definition starting : StartupWindow :=
  {| mainWindow := Scenario.window;
     walletSubLedgers := [];
     walletModel := Some {| modelResets := 0 |};
     statusBarMessage := EmptyString |}.

End Sample.

(** The exception that the loop of [createCombinedLedger] meets at a
    wallet identifier that is not [registered]: the lookups in [walletMap]
    and [walletIndices] come first, then the assignment to the slot. *)
Definition buildFailure (self : ArmoryMainWindow) (wltID : string) : exn :=
  match walletMap self !! wltID, walletIndices self !! wltID with
  | Some _, Some _ => IndexError
  | _, _ => KeyError wltID
  end.

(** Whether a registered wallet has the given type in the eyes of
    [determineWalletType]. *)
Definition walletTypeIs (eng : ArmoryEngine) (self : ArmoryMainWindow) (t : WLTTYPES)
    (wltID : string) : bool :=
  match walletMap self !! wltID with
  | Some wlt => WLTTYPES_eqb (determineWalletType eng wlt self) t
  | None => false
  end.

(** The two labels as [createCombinedLedger] writes them for given totals. *)
Definition unconfirmedLabel (eng : ArmoryEngine) (unconfFund : Z) : QLabel :=
  {| labelText :=
       "<b>Unconfirmed: <font color=" +:+ dquote +:+
       (if unconfFund >? 0 then "red" else "black") +:+ dquote +:+ "   >" +:+
       coin2str eng unconfFund +:+ "</font> BTC</b>" |}.

Definition totalFundsLabel (eng : ArmoryEngine) (totFund : Z) : QLabel :=
  {| labelText :=
       "<b>Total Funds: <font color=" +:+ dquote +:+ "green" +:+ dquote +:+ ">" +:+
       coin2str eng totFund +:+ "</font> BTC</b>" |}.

(** The confirmation count that a row shows for an entry, and the entries
    that [convertLedgerToTable] can turn into a row: the wallet is in the
    registry, and an entry shown with no confirmation has an arrival time. *)
Definition shownConfirmations (self : ArmoryMainWindow) (le : LedgerEntry) : Z :=
  if getBlockNum le >=? UNCONFIRMED_BLOCKNUM then 0
  else latestBlockNum self - getBlockNum le + 1.

Definition convertible (self : ArmoryMainWindow) (x : string * LedgerEntry) : Prop :=
  is_Some (walletMap self !! x.1) ∧
  (shownConfirmations self x.2 <= 0 →
   is_Some (zeroConfTxTime (NetworkingFactory self) !! getTxHash x.2)).

(** The key that is missing for an entry that is not [convertible]. *)
Definition missingKey (self : ArmoryMainWindow) (x : string * LedgerEntry) : string :=
  match walletMap self !! x.1 with
  | Some _ => getTxHash x.2
  | None => x.1
  end.

(** The ledgers of the wallets after the loop of [createCombinedLedger] has
    run over a list of wallet identifiers: every wallet of the list has put
    its current ledger into its slot. *)
Definition refreshedLedgers (self : ArmoryMainWindow) (wltIDList : list string)
    (ledgers : list (list LedgerEntry)) : list (list LedgerEntry) :=
  foldl (λ slots wltID,
           match walletMap self !! wltID, walletIndices self !! wltID with
           | Some wlt, Some i => <[i := getTxLedger wlt]> slots
           | _, _ => slots
           end)
        ledgers wltIDList.

(** The loop of [createCombinedLedger] over the list that was selected. *)
Definition collectLedgers (wltIDList : option (list string)) : M unit :=
  match wltIDList with
  | Some l => for_each l extendCombinedLedger
  | None => raise TypeError
  end.

(** The window of the scenario with a second unconfirmed transaction,
    tracked after the first, that has no arrival time. *)
Module Pending.

Definition window : ArmoryMainWindow :=
  let w := Scenario.window in
  {| walletMap := walletMap w; walletIndices := walletIndices w;
     walletIDSet := walletIDSet w; walletIDList := walletIDList w;
     walletBalances := walletBalances w; walletLedgers := walletLedgers w;
     combinedLedger := combinedLedger w; ledgerSize := ledgerSize w;
     latestBlockNum := latestBlockNum w; walletOfflines := walletOfflines w;
     ledgerTable := ledgerTable w; ledgerModel := ledgerModel w;
     ledgerView := ledgerView w; lblTotalFunds := lblTotalFunds w;
     lblUnconfirmed := lblUnconfirmed w; rdoAllWallets := rdoAllWallets w;
     rdoMyWallets := rdoMyWallets w; rdoWatchOnly := rdoWatchOnly w;
     NetworkingFactory := {| zeroConfTx := [("zz", "rawtx"); ("yy", "rawtx2")];
                             zeroConfTxTime := {["zz" := 1322000100]} |};
     TheBDM := TheBDM w; reactor := reactor w; stdout := stdout w |}.

End Pending.

(** * Properties *)

(** ** Running computations *)

Lemma bind_run {A B : Type} (m : M A) (k : A → M B) (self : ArmoryMainWindow) :
  (m ≫= k) self =
  match m self with
  | (Return a, self') => k a self'
  | (Raise e, self') => (Raise e, self')
  end.
Proof. reflexivity. Qed.

Lemma for_each_app {A : Type} (l1 l2 : list A) (body : A → M unit) (self : ArmoryMainWindow) :
  for_each (l1 ++ l2) body self =
  match for_each l1 body self with
  | (Return _, self') => for_each l2 body self'
  | (Raise e, self') => (Raise e, self')
  end.
Proof.
  revert self. induction l1 as [|x l1 IH]; intros self; simpl.
  - reflexivity.
  - rewrite !bind_run. destruct (body x self) as [[u|e] self1]; [apply IH | reflexivity].
Qed.

(** ** Attributes that a computation leaves alone *)

Section Preserves.
Context {X : Type} (f : ArmoryMainWindow → X).

Lemma preserves_ret {A : Type} (a : A) : preserves f (mret a).
Proof. intros self. reflexivity. Qed.

Lemma preserves_raise {A : Type} (e : exn) : preserves f (raise (A := A) e).
Proof. intros self. reflexivity. Qed.

Lemma preserves_gets {A : Type} (g : ArmoryMainWindow → A) : preserves f (gets g).
Proof. intros self. reflexivity. Qed.

Lemma preserves_lift {A : Type} (o : outcome A) : preserves f (lift o).
Proof. intros self. reflexivity. Qed.

Lemma preserves_read {A : Type} (g : ArmoryMainWindow → outcome A) :
  preserves f (λ self, lift (g self) self).
Proof. intros self. reflexivity. Qed.

Lemma preserves_modify (g : ArmoryMainWindow → ArmoryMainWindow) :
  (∀ self, f (g self) = f self) → preserves f (modify g).
Proof. intros Hg self. apply Hg. Qed.

Lemma preserves_bind {A B : Type} (m : M A) (k : A → M B) :
  preserves f m → (∀ a, preserves f (k a)) → preserves f (m ≫= k).
Proof.
  intros Hm Hk self. rewrite bind_run.
  specialize (Hm self). destruct (m self) as [[a|e] self1]; simpl in Hm.
  - rewrite Hk. exact Hm.
  - exact Hm.
Qed.

Lemma preserves_try_except {A : Type} (body : M A) (handler : exn → M A) :
  preserves f body → (∀ e, preserves f (handler e)) → preserves f (try_except body handler).
Proof.
  intros Hb Hh self. unfold try_except.
  specialize (Hb self). destruct (body self) as [[a|e] self1]; simpl in Hb.
  - exact Hb.
  - rewrite Hh. exact Hb.
Qed.

Lemma preserves_for_each {A : Type} (l : list A) (body : A → M unit) :
  (∀ x, x ∈ l → preserves f (body x)) → preserves f (for_each l body).
Proof.
  induction l as [|x l IH]; intros Hbody; simpl.
  - apply preserves_ret.
  - apply preserves_bind.
    + apply Hbody. left.
    + intros _. apply IH. intros y Hy. apply Hbody. right. exact Hy.
Qed.

End Preserves.

(** Decomposes a computation into its steps; what is left are the
    assignments, which [destruct] settles. *)
Ltac frame :=
  repeat first
    [ apply preserves_ret | apply preserves_raise | apply preserves_gets
    | apply preserves_lift | apply preserves_read
    | apply preserves_bind; [| intros ?]
    | apply preserves_try_except; [| intros ?]
    | apply preserves_for_each; intros ? _
    | apply preserves_modify; intros []; reflexivity
    | match goal with
      | |- preserves _ (if ?b then _ else _) => destruct b
      | |- preserves _ (match ?x with _ => _ end) => destruct x
      end ].

Lemma updateLedgerDisplay_combinedLedger eng :
  preserves combinedLedger (updateLedgerDisplay eng).
Proof. unfold updateLedgerDisplay. frame. Qed.

Lemma updateLedgerDisplay_ledgerSize eng :
  preserves ledgerSize (updateLedgerDisplay eng).
Proof. unfold updateLedgerDisplay. frame. Qed.

(** ** Sorting *)

Lemma filter_none {A : Type} (P : A → bool) (l : list A) :
  (∀ z, In z l → P z = false) → List.filter P l = [].
Proof.
  induction l as [|y l IH]; simpl; intros Hl; [reflexivity|].
  rewrite (Hl y) by (left; reflexivity). apply IH. intros z Hz. apply Hl. right. exact Hz.
Qed.

Section Sort.
Context {A : Type} (lt : A → A → bool).

Hypothesis lt_asym : ∀ a b, lt a b = true → lt b a = false.
Hypothesis lt_negtrans : ∀ a b c, lt b a = false → lt c b = false → lt c a = false.

Lemma sort_insert_perm (x : A) (l : list A) : sort_insert lt x l ≡ₚ x :: l.
Proof.
  induction l as [|y l IH]; simpl; [reflexivity|].
  destruct (lt x y); [reflexivity|].
  rewrite IH. apply Permutation_swap.
Qed.

Lemma sort_insert_ascending (x : A) (l : list A) :
  ascending lt l → ascending lt (sort_insert lt x l).
Proof.
  unfold ascending. induction l as [|y l IH]; simpl; intros Hl.
  - repeat constructor.
  - apply StronglySorted_cons in Hl as [Hy Hl].
    destruct (lt x y) eqn:Hxy.
    + constructor; [constructor; assumption|].
      constructor; [apply lt_asym, Hxy|].
      eapply Forall_impl; [exact Hy|]. simpl. intros z Hz.
      eapply lt_negtrans; [apply lt_asym, Hxy | exact Hz].
    + constructor; [apply IH, Hl|].
      rewrite sort_insert_perm. constructor; assumption.
Qed.

Lemma list_sort_loop_perm (l sorted : list A) :
  fold_left (λ sorted x, sort_insert lt x sorted) l sorted ≡ₚ sorted ++ l.
Proof.
  revert sorted. induction l as [|x l IH]; intros sorted; simpl.
  - by rewrite app_nil_r.
  - rewrite IH, sort_insert_perm. apply Permutation_middle.
Qed.

Lemma list_sort_loop_ascending (l sorted : list A) :
  ascending lt sorted → ascending lt (fold_left (λ sorted x, sort_insert lt x sorted) l sorted).
Proof.
  revert sorted. induction l as [|x l IH]; intros sorted Hs; simpl; [exact Hs|].
  apply IH, sort_insert_ascending, Hs.
Qed.

(** Stability, for a class of elements no two of which are in [lt]. *)
Section Stable.
Context (P : A → bool).
Hypothesis P_class : ∀ a b, P a = true → P b = true → lt a b = false.

Lemma sort_insert_stable (x : A) (l : list A) :
  ascending lt l → List.filter P (sort_insert lt x l) = List.filter P (l ++ [x]).
Proof.
  unfold ascending. induction l as [|y l IH]; simpl; intros Hl; [reflexivity|].
  apply StronglySorted_cons in Hl as [Hy Hl].
  destruct (lt x y) eqn:Hxy.
  - rewrite List.filter_app. simpl. destruct (P x) eqn:HPx; [|by rewrite app_nil_r].
    assert (Hnone : List.filter P (y :: l) = []).
    { apply filter_none. intros z Hz. destruct (P z) eqn:HPz; [|reflexivity].
      assert (Hxz : lt x z = false) by (apply P_class; assumption).
      destruct Hz as [<-|Hz]; [congruence|].
      rewrite Forall_forall in Hy. specialize (Hy z (proj2 (list_elem_of_In _ _) Hz)).
      simpl in Hy. rewrite (lt_negtrans y z x Hy Hxz) in Hxy. discriminate. }
    simpl in Hnone. destruct (P y); [discriminate|]. rewrite Hnone. reflexivity.
  - simpl. rewrite (IH Hl). reflexivity.
Qed.

Lemma list_sort_loop_stable (l sorted : list A) :
  ascending lt sorted →
  List.filter P (fold_left (λ sorted x, sort_insert lt x sorted) l sorted)
  = List.filter P (sorted ++ l).
Proof.
  revert sorted. induction l as [|x l IH]; intros sorted Hs; simpl.
  - by rewrite app_nil_r.
  - rewrite IH by (apply sort_insert_ascending, Hs).
    rewrite List.filter_app, (sort_insert_stable x sorted Hs), <- List.filter_app.
    by rewrite <- app_assoc.
Qed.

Lemma list_sort_reverse_stable (l : list A) :
  List.filter P (list_sort_reverse lt l) = List.filter P l.
Proof.
  unfold list_sort_reverse, list_sort.
  rewrite List.filter_rev, list_sort_loop_stable by constructor.
  simpl. rewrite List.filter_rev, rev_involutive. reflexivity.
Qed.

End Stable.

Lemma ascending_rev (l : list A) : ascending lt l → descending lt (rev l).
Proof.
  unfold ascending, descending. induction l as [|x l IH]; simpl; intros Hl.
  - constructor.
  - apply StronglySorted_cons in Hl as [Hx Hl].
    apply StronglySorted_app. split_and!.
    + intros a b Ha Hb. apply list_elem_of_In, in_rev, list_elem_of_In in Ha.
      apply list_elem_of_singleton in Hb as ->.
      rewrite Forall_forall in Hx. apply Hx, Ha.
    + apply IH, Hl.
    + repeat constructor.
Qed.

Lemma list_sort_reverse_descending (l : list A) : descending lt (list_sort_reverse lt l).
Proof. apply ascending_rev, list_sort_loop_ascending. constructor. Qed.

Lemma list_sort_reverse_perm (l : list A) : list_sort_reverse lt l ≡ₚ l.
Proof.
  unfold list_sort_reverse, list_sort.
  rewrite <- Permutation_rev, list_sort_loop_perm. simpl. symmetry. apply Permutation_rev.
Qed.

End Sort.

(** The order of ledger entries. *)
Lemma LedgerEntry_lt_spec (a b : LedgerEntry) :
  LedgerEntry_lt a b = true ↔
  getBlockNum a < getBlockNum b ∨ (getBlockNum a = getBlockNum b ∧ getIndex a < getIndex b).
Proof.
  unfold LedgerEntry_lt.
  destruct (Z.eqb_spec (getBlockNum a) (getBlockNum b)),
           (Z.eqb_spec (getIndex a) (getIndex b)); simpl;
    rewrite ?Z.ltb_lt; try lia; split; (discriminate || lia).
Qed.

Lemma LedgerEntry_lt_false (a b : LedgerEntry) :
  LedgerEntry_lt a b = false ↔
  getBlockNum b < getBlockNum a ∨ (getBlockNum a = getBlockNum b ∧ getIndex b <= getIndex a).
Proof.
  rewrite <- not_true_iff_false, LedgerEntry_lt_spec. lia.
Qed.

Lemma combinedLedger_lt_asym (x y : string * LedgerEntry) :
  combinedLedger_lt x y = true → combinedLedger_lt y x = false.
Proof. unfold combinedLedger_lt. rewrite LedgerEntry_lt_spec, LedgerEntry_lt_false. lia. Qed.

Lemma combinedLedger_lt_negtrans (x y z : string * LedgerEntry) :
  combinedLedger_lt y x = false → combinedLedger_lt z y = false → combinedLedger_lt z x = false.
Proof. unfold combinedLedger_lt. rewrite !LedgerEntry_lt_false. lia. Qed.

Lemma hasKey_class (key : Z * Z) (x y : string * LedgerEntry) :
  hasKey key x = true → hasKey key y = true → combinedLedger_lt x y = false.
Proof.
  unfold hasKey, combinedLedger_lt. rewrite !andb_true_iff, !Z.eqb_eq, LedgerEntry_lt_false. lia.
Qed.

(** ** The build of the combined ledger *)

Lemma extendCombinedLedger_run (self : ArmoryMainWindow) (wltID : string) :
  registered self wltID →
  ∃ ledgers, length ledgers = length (walletLedgers self) ∧
    extendCombinedLedger wltID self =
    (Return tt, set_combinedLedger (combinedLedger self ++ walletPairs self wltID)
                  (set_walletLedgers ledgers self)).
Proof.
  intros [[wlt Hwlt] (i & Hi & Hlt)].
  exists (<[i := getTxLedger wlt]> (walletLedgers self)). split; [apply length_insert|].
  unfold extendCombinedLedger, walletPairs. rewrite Hwlt.
  unfold mbind, M_bind, gets, lift, modify, getitem, list_setitem, list_getitem. simpl.
  rewrite Hwlt, Hi. rewrite bool_decide_true by exact Hlt. simpl.
  rewrite list_lookup_insert_eq by exact Hlt. reflexivity.
Qed.

Lemma for_each_extendCombinedLedger (wltIDList : list string) (self : ArmoryMainWindow) :
  Forall (registered self) wltIDList →
  ∃ ledgers, length ledgers = length (walletLedgers self) ∧
    for_each wltIDList extendCombinedLedger self =
    (Return tt, set_combinedLedger (combinedLedger self ++ collectedPairs self wltIDList)
                  (set_walletLedgers ledgers self)).
Proof.
  revert self. induction wltIDList as [|wltID l IH]; intros self Hreg.
  - exists (walletLedgers self). split; [reflexivity|]. simpl.
    rewrite app_nil_r. destruct self; reflexivity.
  - apply Forall_cons in Hreg as [Hid Hl].
    destruct (extendCombinedLedger_run self wltID Hid) as (ledgers1 & Hlen1 & Hrun1).
    set (self1 := set_combinedLedger (combinedLedger self ++ walletPairs self wltID)
                    (set_walletLedgers ledgers1 self)) in *.
    assert (Hl1 : Forall (registered self1) l).
    { eapply Forall_impl; [exact Hl|]. intros id [Hw (i & Hi & Hlt)].
      split; [exact Hw|]. exists i. split; [exact Hi|].
      subst self1. destruct self; simpl in *. lia. }
    destruct (IH self1 Hl1) as (ledgers2 & Hlen2 & Hrun2).
    exists ledgers2. split.
    + rewrite Hlen2. subst self1. destruct self; simpl in *. exact Hlen1.
    + simpl. rewrite bind_run, Hrun1, Hrun2. f_equal.
      subst self1. unfold collectedPairs, walletPairs.
      destruct self; simpl. rewrite <- app_assoc. reflexivity.
Qed.

Lemma createCombinedLedger_run eng (arg : option (list string)) (withZeroConf : bool)
    (self : ArmoryMainWindow) (wltIDList : list string) :
  selectWalletIDs eng self arg = Return (Some wltIDList) →
  Forall (registered self) wltIDList →
  ∃ ledgers, length ledgers = length (walletLedgers self) ∧
    createCombinedLedger eng arg withZeroConf self =
    try_except (updateLedgerDisplay eng) swallowAttributeError (built self wltIDList ledgers).
Proof.
  intros Hsel Hreg.
  assert (Hreg0 : Forall (registered (set_combinedLedger [] self)) wltIDList).
  { eapply Forall_impl; [exact Hreg|]. intros id Hid. destruct self; exact Hid. }
  destruct (for_each_extendCombinedLedger wltIDList _ Hreg0) as (ledgers & Hlen & Hrun).
  exists ledgers. split; [destruct self; exact Hlen|].
  unfold createCombinedLedger. rewrite bind_run. unfold lift at 1. rewrite Hsel.
  rewrite bind_run. unfold modify at 1. rewrite bind_run, Hrun.
  rewrite bind_run. unfold modify at 1. rewrite bind_run. unfold modify at 1.
  unfold built, collectedPairs, walletPairs. destruct self; reflexivity.
Qed.

(** What the display section can end with. *)
Lemma convertLedgerLoop_raises eng (self : ArmoryMainWindow) (ledger : list (string * LedgerEntry))
    (table2D : list Row) (e : exn) :
  convertLedgerLoop eng self ledger table2D = Raise e → ∃ k, e = KeyError k.
Proof.
  revert table2D. induction ledger as [|[wltID le] ledger IH]; intros table2D; simpl.
  - discriminate.
  - unfold convertLedgerRow, mbind, outcome_bind, getitem.
    destruct (walletMap self !! wltID); [|intros [= <-]; eauto].
    destruct (_ >? 0); [apply IH|].
    destruct (zeroConfTxTime _ !! _); [apply IH|intros [= <-]; eauto].
Qed.

Ltac close_display :=
  split_and!;
  first [ by eauto 6 | intros [?|[?|?]]; discriminate | intros ?; discriminate ].

Lemma updateLedgerDisplay_outcome eng (self : ArmoryMainWindow) :
  let r := updateLedgerDisplay eng self in
  (r.1 = Return tt ∨ (∃ a, r.1 = Raise (AttributeError a)) ∨ (∃ k, r.1 = Raise (KeyError k))) ∧
  (ledgerModel self = None ∨ lblUnconfirmed self = None ∨ lblTotalFunds self = None →
   ∃ a, r.1 = Raise (AttributeError a)) ∧
  (ledgerView self = None → r.1 ≠ Return tt).
Proof.
  unfold updateLedgerDisplay, mbind, M_bind, gets, lift, modify, getattr. simpl.
  destruct (sumFunds _ _) as [totFund unconfFund].
  destruct self; simpl.
  destruct ledgerModel0; simpl; [|close_display].
  destruct lblUnconfirmed0; simpl; [|close_display].
  destruct lblTotalFunds0; simpl; [|close_display].
  unfold convertLedgerToTable.
  match goal with |- context [convertLedgerLoop eng ?s ?l ?t] =>
    destruct (convertLedgerLoop eng s l t) as [table|e] eqn:Hconv end; simpl.
  2:{ apply convertLedgerLoop_raises in Hconv as [k ->]. close_display. }
  destruct ledgerView0; simpl; close_display.
Qed.

(** The result of a build: the ledger, its size, and how the call ends. *)
Lemma createCombinedLedger_result eng (arg : option (list string)) (withZeroConf : bool)
    (self : ArmoryMainWindow) (wltIDList : list string) :
  selectWalletIDs eng self arg = Return (Some wltIDList) →
  Forall (registered self) wltIDList →
  let r := createCombinedLedger eng arg withZeroConf self in
  combinedLedger r.2 = list_sort_reverse combinedLedger_lt (collectedPairs self wltIDList) ∧
  ledgerSize r.2 = length (combinedLedger r.2) ∧
  (r.1 = Return tt ∨ ∃ k, r.1 = Raise (KeyError k)) ∧
  (ledgerModel self = None ∨ lblUnconfirmed self = None ∨ lblTotalFunds self = None →
   r.1 = Return tt) ∧
  (ledgerView self = None → r.1 = Return tt ∨ ∃ k, r.1 = Raise (KeyError k)).
Proof.
  intros Hsel Hreg.
  destruct (createCombinedLedger_run eng arg withZeroConf self wltIDList Hsel Hreg)
    as (ledgers & _ & ->).
  set (b := built self wltIDList ledgers).
  assert (Hc : combinedLedger (try_except (updateLedgerDisplay eng) swallowAttributeError b).2
               = combinedLedger b).
  { apply preserves_try_except; [apply updateLedgerDisplay_combinedLedger|].
    intros e. unfold swallowAttributeError. frame. }
  assert (Hs : ledgerSize (try_except (updateLedgerDisplay eng) swallowAttributeError b).2
               = ledgerSize b).
  { apply preserves_try_except; [apply updateLedgerDisplay_ledgerSize|].
    intros e. unfold swallowAttributeError. frame. }
  destruct (updateLedgerDisplay_outcome eng b) as (Hout & Hmissing & _).
  assert (Hend : let r := try_except (updateLedgerDisplay eng) swallowAttributeError b in
            (r.1 = Return tt ∨ ∃ k, r.1 = Raise (KeyError k)) ∧
            ((∃ a, (updateLedgerDisplay eng b).1 = Raise (AttributeError a)) → r.1 = Return tt)).
  { unfold try_except. destruct (updateLedgerDisplay eng b) as [[[]|e] b']; simpl in *.
    - split; [by left|reflexivity].
    - destruct Hout as [?|[[a [= ->]]|[k [= ->]]]]; [discriminate| |]; simpl.
      + split; [by left|reflexivity].
      + split; [right; eauto|]. intros [a [=]]. }
  simpl in *. destruct Hend as [Hend1 Hend2].
  split_and!.
  - rewrite Hc. subst b. unfold built. destruct self; reflexivity.
  - rewrite Hs, Hc. subst b. unfold built. destruct self; reflexivity.
  - exact Hend1.
  - intros Hm. apply Hend2, Hmissing. subst b. unfold built. destruct self; exact Hm.
  - intros _. exact Hend1.
Qed.

Lemma extendCombinedLedger_unregistered (self : ArmoryMainWindow) (wltID : string) :
  ¬ registered self wltID →
  extendCombinedLedger wltID self = (Raise (buildFailure self wltID), self).
Proof.
  intros Hnot. unfold extendCombinedLedger, buildFailure.
  unfold mbind, M_bind, gets, lift, modify, getitem, list_setitem, list_getitem. simpl.
  destruct (walletMap self !! wltID) as [wlt|] eqn:Hw; [|reflexivity].
  destruct (walletIndices self !! wltID) as [i|] eqn:Hi; [|reflexivity].
  rewrite bool_decide_false; [reflexivity|].
  intros Hlt. apply Hnot. split; [eauto|]. exists i. by split.
Qed.

Lemma length_collectedPairs (self : ArmoryMainWindow) (wltIDList : list string) :
  length (collectedPairs self wltIDList) = sum_list_with (confirmedEntries self) wltIDList.
Proof.
  induction wltIDList as [|wltID l IH]; [reflexivity|].
  unfold collectedPairs in *. simpl. rewrite length_app, IH. f_equal.
  unfold walletPairs, confirmedEntries.
  destruct (walletMap self !! wltID); [apply length_map|reflexivity].
Qed.

(** ** Builds that stop before the sort *)

(** The selection raises: nothing has been assigned yet. *)
Lemma createCombinedLedger_no_selection eng (arg : option (list string)) (withZeroConf : bool)
    (self : ArmoryMainWindow) (e : exn) :
  selectWalletIDs eng self arg = Raise e →
  createCombinedLedger eng arg withZeroConf self = (Raise e, self).
Proof.
  intros Hsel. unfold createCombinedLedger. rewrite bind_run. unfold lift at 1.
  rewrite Hsel. reflexivity.
Qed.

(** No radio button is checked: the ledger has been emptied when the loop
    meets [None]. *)
Lemma createCombinedLedger_no_list eng (arg : option (list string)) (withZeroConf : bool)
    (self : ArmoryMainWindow) :
  selectWalletIDs eng self arg = Return None →
  createCombinedLedger eng arg withZeroConf self
  = (Raise TypeError, set_combinedLedger [] self).
Proof.
  intros Hsel. unfold createCombinedLedger. rewrite bind_run. unfold lift at 1.
  rewrite Hsel, bind_run. unfold modify at 1. rewrite bind_run. reflexivity.
Qed.

(** The loop comes to a wallet that is not registered. *)
Lemma createCombinedLedger_interrupted eng (arg : option (list string)) (withZeroConf : bool)
    (self : ArmoryMainWindow) (known rest : list string) (bad : string) :
  selectWalletIDs eng self arg = Return (Some (known ++ bad :: rest)) →
  Forall (registered self) known →
  ¬ registered self bad →
  let r := createCombinedLedger eng arg withZeroConf self in
  r.1 = Raise (buildFailure self bad) ∧
  combinedLedger r.2 = collectedPairs self known ∧
  ledgerSize r.2 = ledgerSize self.
Proof.
  intros Hsel Hreg Hbad.
  assert (Hreg0 : Forall (registered (set_combinedLedger [] self)) known).
  { eapply Forall_impl; [exact Hreg|]. intros id Hid. destruct self; exact Hid. }
  destruct (for_each_extendCombinedLedger known _ Hreg0) as (ledgers & Hlen & Hrun).
  set (s1 := set_combinedLedger _ (set_walletLedgers ledgers _)) in Hrun.
  assert (Hbad1 : ¬ registered s1 bad).
  { intros [Hw (i & Hi & Hlt)]. apply Hbad. subst s1. destruct self; simpl in *.
    split; [exact Hw|]. exists i. split; [exact Hi|]. simpl. lia. }
  assert (Hend : createCombinedLedger eng arg withZeroConf self
                 = (Raise (buildFailure s1 bad), s1)).
  { unfold createCombinedLedger. rewrite bind_run. unfold lift at 1. rewrite Hsel.
    rewrite bind_run. unfold modify at 1. rewrite bind_run.
    rewrite for_each_app, Hrun. cbn [for_each]. rewrite bind_run.
    rewrite (extendCombinedLedger_unregistered s1 bad Hbad1). reflexivity. }
  cbv zeta. rewrite Hend. subst s1.
  unfold buildFailure, collectedPairs, walletPairs. destruct self; simpl.
  split_and!; reflexivity.
Qed.

(** ** The rows of the ledger table *)

Lemma convertLedgerLoop_rows eng (self : ArmoryMainWindow) (ledger : list (string * LedgerEntry))
    (table2D table : list Row) :
  convertLedgerLoop eng self ledger table2D = Return table →
  ∃ rows, table = table2D ++ rows ∧
    Forall2 (λ x row, convertLedgerRow eng self x = Return row) ledger rows.
Proof.
  revert table2D. induction ledger as [|x ledger IH]; intros table2D; simpl.
  - intros [= <-]. exists []. split; [by rewrite app_nil_r|constructor].
  - unfold mbind at 1, outcome_bind at 1.
    destruct (convertLedgerRow eng self x) as [row|e] eqn:Hrow; [|discriminate].
    intros Hloop. destruct (IH _ Hloop) as (rows & -> & Hrows).
    exists (row :: rows). split; [by rewrite <- app_assoc|by constructor].
Qed.

Lemma convertLedgerRow_numConf eng (self : ArmoryMainWindow) (x : string * LedgerEntry) (row : Row) :
  convertLedgerRow eng self x = Return row →
  rowWltID row = x.1 ∧
  rowNumConf row = (if getBlockNum x.2 >=? UNCONFIRMED_BLOCKNUM then 0
                    else latestBlockNum self - getBlockNum x.2 + 1).
Proof.
  destruct x as [wltID le]. unfold convertLedgerRow, mbind, outcome_bind, getitem. simpl.
  destruct (walletMap self !! wltID); [|discriminate].
  destruct (_ >? 0).
  - intros [= <-]. split; reflexivity.
  - destruct (zeroConfTxTime _ !! _); [|discriminate]. intros [= <-]. split; reflexivity.
Qed.

(** ** The totals *)

Lemma sumFunds_loop (tip : Z) (ledger : list (string * LedgerEntry)) (totFund unconfFund : Z) :
  fold_left
    (λ funds item,
       let '(totFund, unconfFund) := funds in
       let le := item.2 in
       if tip - getBlockNum le + 1 <? 6
       then (totFund, unconfFund + getValue le)
       else (totFund + getValue le, unconfFund))
    ledger (totFund, unconfFund)
  = (totFund + sumValues (List.filter (λ x, negb (countsAsUnconfirmed tip x)) ledger),
     unconfFund + sumValues (List.filter (countsAsUnconfirmed tip) ledger)).
Proof.
  revert totFund unconfFund. induction ledger as [|x ledger IH]; intros totFund unconfFund; simpl.
  - f_equal; lia.
  - change (tip - getBlockNum x.2 + 1 <? 6) with (countsAsUnconfirmed tip x).
    destruct (countsAsUnconfirmed tip x); simpl; rewrite IH; f_equal; lia.
Qed.

Lemma sumValues_split (P : string * LedgerEntry → bool) (ledger : list (string * LedgerEntry)) :
  sumValues (List.filter (λ x, negb (P x)) ledger) + sumValues (List.filter P ledger)
  = sumValues ledger.
Proof.
  induction ledger as [|x ledger IH]; simpl; [reflexivity|].
  destruct (P x); simpl; lia.
Qed.

(** * Loading wallets *)

Lemma loadWallet_excluded eng (wltExclude wltOffline : list string) (fpath : string)
    (wlt : PyBtcWallet) (self : ArmoryMainWindow) :
  readWalletFile eng fpath = Return wlt → fpath ∈ wltExclude →
  loadWallet eng wltExclude wltOffline fpath self = (Return tt, self).
Proof.
  intros Hread Hex. unfold loadWallet, try_except. rewrite bind_run. unfold lift at 1.
  rewrite Hread. rewrite bool_decide_true by exact Hex. reflexivity.
Qed.

Lemma loadWallet_duplicate eng (wltExclude wltOffline : list string) (fpath : string)
    (wlt loaded : PyBtcWallet) (self : ArmoryMainWindow) :
  readWalletFile eng fpath = Return wlt → fpath ∉ wltExclude →
  wltUniqueIDB58 wlt ∈ walletIDSet self →
  walletMap self !! wltUniqueIDB58 wlt = Some loaded →
  loadWallet eng wltExclude wltOffline fpath self =
  (Return tt,
   set_stdout (stdout self ++
               duplicateWarning (wltUniqueIDB58 wlt) (walletPath loaded) fpath) self).
Proof.
  intros Hread Hex Hin Hloaded. unfold loadWallet, try_except. rewrite bind_run. unfold lift at 1.
  rewrite Hread. rewrite bool_decide_false by exact Hex.
  rewrite bind_run. unfold gets at 1. rewrite bool_decide_true by exact Hin.
  unfold print, modify, gets, lift, getitem, mbind, M_bind. simpl.
  rewrite Hloaded. unfold duplicateWarning. destruct self; simpl.
  rewrite <- !app_assoc. reflexivity.
Qed.

Lemma loadWallet_fresh eng (wltExclude wltOffline : list string) (fpath : string)
    (wlt : PyBtcWallet) (self : ArmoryMainWindow) :
  readWalletFile eng fpath = Return wlt → fpath ∉ wltExclude →
  wltUniqueIDB58 wlt ∉ walletIDSet self →
  registryInv self →
  ∃ self', loadWallet eng wltExclude wltOffline fpath self = (Return tt, self') ∧
    walletMap self' = <[wltUniqueIDB58 wlt := wlt]> (walletMap self) ∧
    walletIDSet self' = {[wltUniqueIDB58 wlt]} ∪ walletIDSet self ∧
    walletIDList self' = walletIDList self ++ [wltUniqueIDB58 wlt] ∧
    (∃ l, walletBalances self' = BalanceList l) ∧
    stdout self' = stdout self.
Proof.
  intros Hread Hex Hin ([l Hbal] & _). unfold loadWallet, try_except. rewrite bind_run.
  unfold lift at 1. rewrite Hread. rewrite bool_decide_false by exact Hex.
  rewrite bind_run. unfold gets at 1. rewrite bool_decide_false by exact Hin.
  unfold print, modify, gets, lift, getitem, mbind, M_bind. simpl.
  rewrite Hbal.
  destruct (bool_decide (wltUniqueIDB58 wlt ∈ wltOffline) || bool_decide (fpath ∈ wltOffline));
    eexists; (split; [reflexivity|]); destruct self; simpl; eauto 10.
Qed.

(** One pass of the loop on a file that can be read. *)
Lemma loadWallet_step eng (wltExclude wltOffline : list string) (fpath : string)
    (wlt : PyBtcWallet) (self : ArmoryMainWindow) :
  readWalletFile eng fpath = Return wlt → registryInv self →
  ∃ self', loadWallet eng wltExclude wltOffline fpath self = (Return tt, self') ∧
    registryInv self' ∧
    (∀ wltID w, walletMap self !! wltID = Some w → walletMap self' !! wltID = Some w) ∧
    (∃ lines, stdout self' = stdout self ++ lines) ∧
    (∀ wltID, wltID ∈ walletIDSet self' →
       wltID ∈ walletIDSet self ∨ ((fpath ∉ wltExclude) ∧ wltUniqueIDB58 wlt = wltID)) ∧
    (fpath ∉ wltExclude → wltUniqueIDB58 wlt ∈ walletIDSet self') ∧
    (fpath ∉ wltExclude → wltUniqueIDB58 wlt ∉ walletIDSet self →
       walletMap self' !! wltUniqueIDB58 wlt = Some wlt) ∧
    (fpath ∉ wltExclude → ∀ loaded, walletMap self !! wltUniqueIDB58 wlt = Some loaded →
       stdout self' = stdout self ++
                      duplicateWarning (wltUniqueIDB58 wlt) (walletPath loaded) fpath).
Proof.
  intros Hread Hinv.
  destruct (decide (fpath ∈ wltExclude)) as [Hex|Hex].
  { exists self. rewrite (loadWallet_excluded _ _ _ _ _ _ Hread Hex).
    split_and!; try done; [exists []; by rewrite app_nil_r|by left]. }
  destruct Hinv as (Hbal & Hset & Hnodup & Hlist).
  destruct (decide (wltUniqueIDB58 wlt ∈ walletIDSet self)) as [Hin|Hin].
  - destruct (proj1 (Hset _) Hin) as [loaded Hloaded].
    eexists. rewrite (loadWallet_duplicate _ _ _ _ _ _ _ Hread Hex Hin Hloaded).
    split; [reflexivity|]. destruct self; simpl in *.
    split; [unfold registryInv; simpl; by split_and!|].
    split_and!; try done; eauto.
    intros _ loaded' Hloaded'. congruence.
  - destruct (loadWallet_fresh eng wltExclude wltOffline fpath wlt self Hread Hex Hin)
      as (self' & Hrun & Hmap & Hset' & Hlist' & Hbal' & Hout);
      [by split_and!|].
    assert (Hnone : walletMap self !! wltUniqueIDB58 wlt = None).
    { destruct (walletMap self !! wltUniqueIDB58 wlt) eqn:E; [|done].
      exfalso. apply Hin, Hset. eauto. }
    exists self'. split; [exact Hrun|].
    split; [unfold registryInv; split_and!|split_and!].
    + exact Hbal'.
    + intros wltID. rewrite Hset', Hmap, elem_of_union, elem_of_singleton, Hset.
      destruct (decide (wltUniqueIDB58 wlt = wltID)) as [<-|Hne].
      * rewrite lookup_insert_eq. split; eauto.
      * rewrite lookup_insert_ne by done. split; [intros [?|?]; [congruence|done]|by right].
    + rewrite Hlist'. apply NoDup_app. split_and!; [done| |apply NoDup_singleton].
      intros wltID Hid ->%list_elem_of_singleton. apply Hin, Hlist, Hid.
    + intros wltID. rewrite Hlist', Hset', elem_of_app, elem_of_union, list_elem_of_singleton,
        elem_of_singleton, Hlist. tauto.
    + intros wltID w Hw. rewrite Hmap, lookup_insert_ne; [done|]. congruence.
    + exists []. by rewrite app_nil_r.
    + intros wltID. rewrite Hset', elem_of_union, elem_of_singleton.
      intros [->|?]; [by right|by left].
    + intros _. rewrite Hset', elem_of_union, elem_of_singleton. by left.
    + intros _ _. rewrite Hmap. apply lookup_insert_eq.
    + intros _ loaded Hloaded. congruence.
Qed.

(** The whole loop on files that can all be read. *)
Lemma loadWallets_run eng (wltExclude wltOffline wltPaths : list string)
    (self : ArmoryMainWindow) :
  Forall (λ fpath, ∃ wlt, readWalletFile eng fpath = Return wlt) wltPaths →
  registryInv self →
  ∃ self', loadWallets eng wltExclude wltOffline wltPaths self = (Return tt, self') ∧
    registryInv self' ∧
    (∀ wltID w, walletMap self !! wltID = Some w → walletMap self' !! wltID = Some w) ∧
    (∃ lines, stdout self' = stdout self ++ lines) ∧
    (∀ wltID, wltID ∈ walletIDSet self' →
       wltID ∈ walletIDSet self ∨
       ∃ fpath wlt, fpath ∈ wltPaths ∧ readWalletFile eng fpath = Return wlt ∧
                    (fpath ∉ wltExclude) ∧ wltUniqueIDB58 wlt = wltID) ∧
    (∀ fpath wlt, fpath ∈ wltPaths → readWalletFile eng fpath = Return wlt →
       fpath ∉ wltExclude → wltUniqueIDB58 wlt ∈ walletIDSet self').
Proof.
  unfold loadWallets. revert self.
  induction wltPaths as [|fpath l IH]; intros self Hparse Hinv.
  - exists self. split_and!; try done.
    + exists []. by rewrite app_nil_r.
    + by left.
    + intros fpath wlt Hin. by apply elem_of_nil in Hin.
  - apply Forall_cons in Hparse as [[wlt Hread] Hparse].
    destruct (loadWallet_step eng wltExclude wltOffline fpath wlt self Hread Hinv)
      as (self1 & Hrun1 & Hinv1 & Hmap1 & [lines1 Hout1] & Hfrom1 & Hreg1 & _).
    destruct (IH self1 Hparse Hinv1)
      as (self2 & Hrun2 & Hinv2 & Hmap2 & [lines2 Hout2] & Hfrom2 & Hreg2).
    exists self2. simpl. rewrite bind_run, Hrun1, Hrun2. split_and!; try done.
    + intros wltID w Hw. apply Hmap2, Hmap1, Hw.
    + exists (lines1 ++ lines2). by rewrite Hout2, Hout1, app_assoc.
    + intros wltID Hid. destruct (Hfrom2 _ Hid) as [Hid1|(p & w & Hp & Hw & Hex & Hidw)].
      * destruct (Hfrom1 _ Hid1) as [?|[Hex Hidw]]; [by left|].
        right. exists fpath, wlt. split_and!; try done. left.
      * right. exists p, w. split_and!; try done. by right.
    + intros p w [->|Hp]%elem_of_cons Hw Hex.
      * assert (w = wlt) as -> by congruence.
        destruct Hinv2 as (_ & Hset2 & _). destruct Hinv1 as (_ & Hset1 & _).
        apply Hset2. destruct (proj1 (Hset1 _) (Hreg1 Hex)) as [v Hv]. eauto.
      * by apply (Hreg2 p w).
Qed.

Lemma loadWalletsAndSettings_run eng (settings : SettingsFile) (homeWallets : list string)
    (self : ArmoryMainWindow) :
  loadWalletsAndSettings eng settings homeWallets self =
  loadWallets eng (Excluded_Wallets settings) (Offline_WalletIDs settings)
    (Other_Wallets settings ++ homeWallets) (freshRegistry self).
Proof.
  unfold loadWalletsAndSettings, print.
  repeat (rewrite bind_run; unfold modify at 1; cbv beta iota).
  unfold freshRegistry. reflexivity.
Qed.

Lemma freshRegistry_inv (self : ArmoryMainWindow) : registryInv (freshRegistry self).
Proof.
  destruct self; unfold registryInv; simpl. split_and!.
  - eauto.
  - intros wltID. rewrite lookup_empty. split; [by intros ?%elem_of_empty|by intros [? ?]].
  - apply NoDup_nil_2.
  - intros wltID. split; [by intros ?%elem_of_nil|by intros ?%elem_of_empty].
Qed.

(** A file that cannot be read: the handler prints and raises again. *)
Lemma loadWallet_unreadable eng (wltExclude wltOffline : list string) (fpath : string)
    (e : exn) (self : ArmoryMainWindow) :
  readWalletFile eng fpath = Raise e →
  loadWallet eng wltExclude wltOffline fpath self =
  (Raise e, set_stdout (stdout self ++ loadFailureWarning fpath) self).
Proof.
  intros Hread. unfold loadWallet, try_except. rewrite bind_run. unfold lift at 1.
  rewrite Hread. unfold print, modify, raise, mbind, M_bind. simpl.
  unfold loadFailureWarning. destruct self; simpl. rewrite <- app_assoc. reflexivity.
Qed.

(** C3 fails on the code: the settings name a file that is no wallet and
    then the file of wallet A.  The two warning lines are printed, the
    exception of the wallet library leaves [loadWalletsAndSettings], and
    wallet A is not in the registry. *)
Theorem C3_unreadable_wallet_aborts_loading :
  let r := loadWalletsAndSettings Scenario.engine Scenario.withBroken [] Scenario.early in
  readWalletFile Scenario.engine "/home/armory_A.wallet" = Return Scenario.walletA ∧
  r.1 = Raise (EngineError "not a wallet file") ∧
  walletMap r.2 !! "A" = None ∧
  walletIDList r.2 = [] ∧
  stdout r.2 = "Loading wallets..." :: loadFailureWarning "/home/armory_broken.wallet".
Proof. vm_compute. split_and!; reflexivity. Qed.

(** C7: when every wallet file can be read and two files that are not
    excluded hold wallets with the same identifier, the registry has one
    entry for the identifier, the wallet of the first of these files, the
    identifier is in [walletIDList] once, and the three lines of the warning,
    which name the path of the loaded wallet and the path that is skipped,
    are printed. *)
Theorem C7_duplicate_wallet_first_wins eng (settings : SettingsFile)
    (homeWallets : list string) (self : ArmoryMainWindow)
    (before between after : list string) (first later : string)
    (wlt1 wlt2 : PyBtcWallet) :
  Other_Wallets settings ++ homeWallets = before ++ first :: between ++ later :: after →
  Forall (λ fpath, ∃ wlt, readWalletFile eng fpath = Return wlt)
         (Other_Wallets settings ++ homeWallets) →
  readWalletFile eng first = Return wlt1 →
  readWalletFile eng later = Return wlt2 →
  wltUniqueIDB58 wlt2 = wltUniqueIDB58 wlt1 →
  first ∉ Excluded_Wallets settings →
  later ∉ Excluded_Wallets settings →
  (∀ fpath wlt, fpath ∈ before → readWalletFile eng fpath = Return wlt →
     fpath ∉ Excluded_Wallets settings → wltUniqueIDB58 wlt ≠ wltUniqueIDB58 wlt1) →
  ∃ self', loadWalletsAndSettings eng settings homeWallets self = (Return tt, self') ∧
    walletMap self' !! wltUniqueIDB58 wlt1 = Some wlt1 ∧
    NoDup (walletIDList self') ∧
    wltUniqueIDB58 wlt1 ∈ walletIDList self' ∧
    ∃ printedBefore printedAfter,
      stdout self' = printedBefore
                     ++ duplicateWarning (wltUniqueIDB58 wlt1) (walletPath wlt1) later
                     ++ printedAfter.
Proof.
  intros Hpaths Hparse Hread1 Hread2 Hsame Hex1 Hex2 Hfirst.
  rewrite loadWalletsAndSettings_run, Hpaths. rewrite Hpaths in Hparse.
  set (ex := Excluded_Wallets settings) in *. set (off := Offline_WalletIDs settings).
  apply Forall_app in Hparse as [Hp1 Hparse]. apply Forall_cons in Hparse as [_ Hparse].
  apply Forall_app in Hparse as [Hp2 Hparse]. apply Forall_cons in Hparse as [_ Hp3].
  destruct (loadWallets_run eng ex off before _ Hp1 (freshRegistry_inv self))
    as (s1 & Hrun1 & Hinv1 & _ & _ & Hfrom1 & _).
  assert (Hnew : wltUniqueIDB58 wlt1 ∉ walletIDSet s1).
  { intros Hin. destruct (Hfrom1 _ Hin) as [Hin0|(p & w & Hp & Hw & Hex & Hid)].
    - destruct self; simpl in Hin0. by apply elem_of_empty in Hin0.
    - by apply (Hfirst p w). }
  destruct (loadWallet_step eng ex off first wlt1 s1 Hread1 Hinv1)
    as (s2 & Hrun2 & Hinv2 & _ & _ & _ & _ & Hloaded2 & _).
  specialize (Hloaded2 Hex1 Hnew).
  destruct (loadWallets_run eng ex off between s2 Hp2 Hinv2)
    as (s3 & Hrun3 & Hinv3 & Hmap3 & _).
  destruct (loadWallet_step eng ex off later wlt2 s3 Hread2 Hinv3)
    as (s4 & Hrun4 & Hinv4 & Hmap4 & _ & _ & _ & _ & Hwarn4).
  rewrite Hsame in Hwarn4. specialize (Hwarn4 Hex2 wlt1 (Hmap3 _ _ Hloaded2)).
  destruct (loadWallets_run eng ex off after s4 Hp3 Hinv4)
    as (s5 & Hrun5 & Hinv5 & Hmap5 & [printed5 Hout5] & _).
  exists s5. split.
  - unfold loadWallets in *. rewrite for_each_app, Hrun1. simpl.
    rewrite bind_run, Hrun2, for_each_app, Hrun3. simpl.
    rewrite bind_run, Hrun4. exact Hrun5.
  - destruct Hinv5 as (_ & Hset5 & Hnodup5 & Hlist5). split_and!.
    + apply Hmap5, Hmap4, Hmap3, Hloaded2.
    + exact Hnodup5.
    + apply Hlist5, Hset5. exists wlt1. apply Hmap5, Hmap4, Hmap3, Hloaded2.
    + exists (stdout s3), printed5. rewrite Hout5, Hwarn4. by rewrite <- app_assoc.
Qed.

Lemma C7_duplicate_wallet_first_wins_witness :
  ∃ self', loadWalletsAndSettings Scenario.engine Scenario.withCopy [] Scenario.early
           = (Return tt, self') ∧
    walletMap self' !! "A" = Some Scenario.walletA ∧
    NoDup (walletIDList self') ∧
    "A" ∈ walletIDList self' ∧
    ∃ printedBefore printedAfter,
      stdout self' = printedBefore
                     ++ duplicateWarning "A" "/home/armory_A.wallet" "/home/armory_A_copy.wallet"
                     ++ printedAfter.
Proof.
  apply (C7_duplicate_wallet_first_wins Scenario.engine Scenario.withCopy [] Scenario.early
           [] ["/home/armory_B.wallet"] []
           "/home/armory_A.wallet" "/home/armory_A_copy.wallet"
           Scenario.walletA Scenario.walletA).
  - reflexivity.
  - repeat (constructor; [eexists; reflexivity|]). constructor.
  - reflexivity.
  - reflexivity.
  - reflexivity.
  - apply not_elem_of_nil.
  - apply not_elem_of_nil.
  - intros fpath wlt Hin. by apply elem_of_nil in Hin.
Defined.

(** * The combined ledger *)

(** Settles [registered] for the wallets of a concrete window. *)
Ltac registered_wallets :=
  repeat (constructor;
          [split; [eexists; vm_compute; reflexivity
                  | eexists; split; [vm_compute; reflexivity | vm_compute; lia]]|]);
  constructor.

(** C1, as amended: the combined ledger has one row for each entry of the
    confirmed ledger of each wallet that the loop of the build has
    processed, so its length is the sum of the lengths of these ledgers.
    The loop works on the list that the build uses (the argument, or the
    list that the radio buttons select from [walletIDList] by wallet type).
    It processes the whole list when every wallet of it is registered, and
    stops at the first wallet that is not, with [KeyError] or [IndexError].
    With no list selected the build ends with [TypeError] on an empty
    ledger, and a selection that raises leaves the window as it was.
    Zero-conf entries are not added, whatever [withZeroConf] is. *)
Theorem C1_row_count eng (arg : option (list string)) (withZeroConf : bool)
    (self : ArmoryMainWindow) :
  let r := createCombinedLedger eng arg withZeroConf self in
  let rows := length (combinedLedger r.2) in
  (∀ wltIDList, selectWalletIDs eng self arg = Return (Some wltIDList) →
     Forall (registered self) wltIDList →
     rows = sum_list_with (confirmedEntries self) wltIDList) ∧
  (∀ known bad rest, selectWalletIDs eng self arg = Return (Some (known ++ bad :: rest)) →
     Forall (registered self) known → ¬ registered self bad →
     r.1 = Raise (buildFailure self bad) ∧
     rows = sum_list_with (confirmedEntries self) known) ∧
  (selectWalletIDs eng self arg = Return None → r.1 = Raise TypeError ∧ rows = 0%nat) ∧
  (∀ e, selectWalletIDs eng self arg = Raise e → r = (Raise e, self)).
Proof.
  cbv zeta. split_and!.
  - intros wltIDList Hsel Hreg.
    destruct (createCombinedLedger_result eng arg withZeroConf self wltIDList Hsel Hreg)
      as (-> & _).
    rewrite (Permutation_length (list_sort_reverse_perm _ _)).
    apply length_collectedPairs.
  - intros known bad rest Hsel Hreg Hbad.
    destruct (createCombinedLedger_interrupted eng arg withZeroConf self known rest bad
                Hsel Hreg Hbad) as (Hend & -> & _).
    split; [exact Hend|apply length_collectedPairs].
  - intros Hsel. rewrite (createCombinedLedger_no_list eng arg withZeroConf self Hsel).
    split; [reflexivity|]. destruct self; reflexivity.
  - intros e Hsel. by apply createCombinedLedger_no_selection.
Qed.

Lemma C1_row_count_witness :
  length (combinedLedger
            (createCombinedLedger Scenario.engine None true Scenario.window).2)
  = sum_list_with (confirmedEntries Scenario.window) ["A"; "B"] ∧
  length (combinedLedger
            (createCombinedLedger Scenario.engine (Some (["A"] ++ "C" :: ["B"])) true
               Scenario.window).2)
  = sum_list_with (confirmedEntries Scenario.window) ["A"].
Proof.
  split.
  - destruct (C1_row_count Scenario.engine None true Scenario.window) as (Hrows & _).
    apply Hrows.
    + vm_compute. reflexivity.
    + registered_wallets.
  - destruct (C1_row_count Scenario.engine (Some (["A"] ++ "C" :: ["B"])) true
                Scenario.window) as (_ & Hstop & _).
    apply (Hstop ["A"] "C" ["B"]).
    + reflexivity.
    + registered_wallets.
    + intros [[wlt Hwlt] _]. vm_compute in Hwlt. discriminate.
Defined.

(** C1, as stated, fails: with "All wallets" checked, wallet A has one
    confirmed entry and wallet B one zero-conf entry, which makes two rows
    by the claim; the combined ledger has one. *)
Lemma C1_counterexample :
  selectWalletIDs Scenario.engine Scenario.window None = Return (Some ["A"; "B"]) ∧
  sum_list_with (λ wltID, confirmedEntries Scenario.window wltID
                          + zeroConfEntries Scenario.window wltID)%nat ["A"; "B"] = 2%nat ∧
  length (combinedLedger
            (createCombinedLedger Scenario.engine None true Scenario.window).2) = 1%nat.
Proof. split_and!; vm_compute; reflexivity. Qed.

(** C6, as amended: after a build whose loop has run to its end (a list is
    selected and every wallet of it is registered) the combined ledger is
    sorted by ordering key, non-increasing: no row is less than a row after
    it.  Rows of equal ordering key keep the order in which they were
    collected (the order of the wallet list, then the order of the wallet's
    ledger); wallet identifier and transaction hash play no part.  A build
    that stops earlier does not sort: at a wallet that is not registered it
    leaves the rows collected so far, in the order of collection; with no
    list selected it leaves the ledger empty; and a selection that raises
    leaves the window as it was. *)
Theorem C6_sorted_newest_first eng (arg : option (list string)) (withZeroConf : bool)
    (self : ArmoryMainWindow) :
  let r := createCombinedLedger eng arg withZeroConf self in
  let ledger := combinedLedger r.2 in
  (∀ wltIDList, selectWalletIDs eng self arg = Return (Some wltIDList) →
     Forall (registered self) wltIDList →
     descending combinedLedger_lt ledger ∧
     ∀ key, List.filter (hasKey key) ledger
            = List.filter (hasKey key) (collectedPairs self wltIDList)) ∧
  (∀ known bad rest, selectWalletIDs eng self arg = Return (Some (known ++ bad :: rest)) →
     Forall (registered self) known → ¬ registered self bad →
     r.1 = Raise (buildFailure self bad) ∧ ledger = collectedPairs self known) ∧
  (selectWalletIDs eng self arg = Return None → r.1 = Raise TypeError ∧ ledger = []) ∧
  (∀ e, selectWalletIDs eng self arg = Raise e → r = (Raise e, self)).
Proof.
  cbv zeta. split_and!.
  - intros wltIDList Hsel Hreg.
    destruct (createCombinedLedger_result eng arg withZeroConf self wltIDList Hsel Hreg)
      as (Hledger & _).
    simpl in Hledger. rewrite Hledger. split.
    + apply list_sort_reverse_descending.
      * apply combinedLedger_lt_asym.
      * apply combinedLedger_lt_negtrans.
    + intros key. apply list_sort_reverse_stable.
      * apply combinedLedger_lt_asym.
      * apply combinedLedger_lt_negtrans.
      * apply hasKey_class.
  - intros known bad rest Hsel Hreg Hbad.
    destruct (createCombinedLedger_interrupted eng arg withZeroConf self known rest bad
                Hsel Hreg Hbad) as (Hend & Hledger & _).
    by split.
  - intros Hsel. rewrite (createCombinedLedger_no_list eng arg withZeroConf self Hsel).
    split; [reflexivity|]. destruct self; reflexivity.
  - intros e Hsel. by apply createCombinedLedger_no_selection.
Qed.

Lemma C6_sorted_newest_first_witness :
  let ledger := combinedLedger
                  (createCombinedLedger Scenario.engine None true Scenario.transfer).2 in
  descending combinedLedger_lt ledger ∧
  ∀ key, List.filter (hasKey key) ledger
         = List.filter (hasKey key) (collectedPairs Scenario.transfer ["B"; "A"]).
Proof.
  destruct (C6_sorted_newest_first Scenario.engine None true Scenario.transfer)
    as (Hsorted & _).
  apply Hsorted.
  - vm_compute. reflexivity.
  - registered_wallets.
Defined.

(** C6, as stated, fails: wallet B was loaded before wallet A and both have
    an entry for the same transaction.  The two rows have the same ordering
    key, and the row of B comes first. *)
Lemma C6_counterexample :
  ¬ tieBreakOrdered
      (combinedLedger (createCombinedLedger Scenario.engine None true Scenario.transfer).2).
Proof.
  intros Hties.
  specialize (Hties 0%nat 1%nat ("B", Scenario.sentB) ("A", Scenario.receivedA)).
  destruct Hties as [Hlt|[Heq _]].
  - lia.
  - vm_compute. reflexivity.
  - vm_compute. reflexivity.
  - reflexivity.
  - vm_compute in Hlt. discriminate.
  - discriminate.
Qed.

(** C8: the first column of every row of the table is the confirmation
    count: [latestBlockNum - height + 1] for an entry in a block, and 0 for
    an entry whose height is the sentinel 0xffffffff. *)
Theorem C8_confirmation_count eng (self : ArmoryMainWindow)
    (ledger : list (string * LedgerEntry)) (table : list Row) :
  convertLedgerToTable eng self ledger = Return table →
  Forall2 (λ x row,
             rowWltID row = x.1 ∧
             (getBlockNum x.2 < UNCONFIRMED_BLOCKNUM →
              rowNumConf row = latestBlockNum self - getBlockNum x.2 + 1) ∧
             (getBlockNum x.2 >= UNCONFIRMED_BLOCKNUM → rowNumConf row = 0))
          ledger table.
Proof.
  intros Htable. apply convertLedgerLoop_rows in Htable as (rows & -> & Hrows). simpl.
  eapply Forall2_impl; [exact Hrows|]. simpl. intros x row Hrow.
  apply convertLedgerRow_numConf in Hrow as [Hid ->]. split; [exact Hid|].
  destruct (Z.geb_spec (getBlockNum x.2) UNCONFIRMED_BLOCKNUM); split; intros; (reflexivity || lia).
Qed.

(** C10, as amended: a build whose loop runs to its end (a list is
    selected and every wallet of it is registered) replaces the stored
    combined ledger by the sorted pairs of these wallets, whatever was
    stored before, and sets [ledgerSize] to its length.  The display section
    changes neither; an [AttributeError] raised there never reaches the
    caller, and with the model or a label missing the call returns
    normally.  A build that stops earlier does not reach the assignment of
    [ledgerSize], which keeps its old value: at a wallet that is not
    registered the ledger is left with the pairs collected so far, with no
    list selected it is left empty, and a selection that raises leaves the
    window as it was. *)
Theorem C10_build_replaces_ledger eng (arg : option (list string)) (withZeroConf : bool)
    (self : ArmoryMainWindow) :
  let r := createCombinedLedger eng arg withZeroConf self in
  (∀ wltIDList, selectWalletIDs eng self arg = Return (Some wltIDList) →
     Forall (registered self) wltIDList →
     combinedLedger r.2
       = list_sort_reverse combinedLedger_lt (collectedPairs self wltIDList) ∧
     ledgerSize r.2 = length (combinedLedger r.2) ∧
     (∀ attr, r.1 ≠ Raise (AttributeError attr)) ∧
     (ledgerModel self = None ∨ lblUnconfirmed self = None ∨ lblTotalFunds self = None →
      r.1 = Return tt) ∧
     (ledgerView self = None → r.1 = Return tt ∨ ∃ k, r.1 = Raise (KeyError k))) ∧
  (∀ known bad rest, selectWalletIDs eng self arg = Return (Some (known ++ bad :: rest)) →
     Forall (registered self) known → ¬ registered self bad →
     r.1 = Raise (buildFailure self bad) ∧
     combinedLedger r.2 = collectedPairs self known ∧
     ledgerSize r.2 = ledgerSize self) ∧
  (selectWalletIDs eng self arg = Return None →
     r.1 = Raise TypeError ∧ combinedLedger r.2 = [] ∧ ledgerSize r.2 = ledgerSize self) ∧
  (∀ e, selectWalletIDs eng self arg = Raise e → r = (Raise e, self)).
Proof.
  cbv zeta. split_and!.
  - intros wltIDList Hsel Hreg.
    destruct (createCombinedLedger_result eng arg withZeroConf self wltIDList Hsel Hreg)
      as (Hledger & Hsize & Hend & Hmissing & Hview).
    split_and!; try assumption.
    intros attr Hattr. destruct Hend as [Hend|[k Hend]]; congruence.
  - intros known bad rest Hsel Hreg Hbad.
    by apply (createCombinedLedger_interrupted eng arg withZeroConf self known rest bad).
  - intros Hsel. rewrite (createCombinedLedger_no_list eng arg withZeroConf self Hsel).
    destruct self; split_and!; reflexivity.
  - intros e Hsel. by apply createCombinedLedger_no_selection.
Qed.

Lemma C10_build_replaces_ledger_witness :
  let r := createCombinedLedger Scenario.engine (Some ["A"; "B"]) true Scenario.early in
  combinedLedger r.2
    = list_sort_reverse combinedLedger_lt (collectedPairs Scenario.early ["A"; "B"]) ∧
  ledgerSize r.2 = length (combinedLedger r.2) ∧
  (∀ attr, r.1 ≠ Raise (AttributeError attr)) ∧
  (ledgerModel Scenario.early = None ∨ lblUnconfirmed Scenario.early = None ∨
   lblTotalFunds Scenario.early = None → r.1 = Return tt) ∧
  (ledgerView Scenario.early = None → r.1 = Return tt ∨ ∃ k, r.1 = Raise (KeyError k)).
Proof.
  destruct (C10_build_replaces_ledger Scenario.engine (Some ["A"; "B"]) true Scenario.early)
    as (Hbuilt & _).
  apply Hbuilt.
  - reflexivity.
  - registered_wallets.
Defined.

(** C10, as stated, fails: a build over wallet A and an identifier C that
    is not in the registry ends with [KeyError] in the loop.  The stored
    ledger has the row of wallet A, and [ledgerSize] is still 0. *)
Lemma C10_counterexample :
  let r := createCombinedLedger Scenario.engine (Some ["A"; "C"]) true Scenario.window in
  r.1 = Raise (KeyError "C") ∧
  combinedLedger r.2 = [("A", Scenario.entryA)] ∧
  length (combinedLedger r.2) = 1%nat ∧
  ledgerSize r.2 = 0%nat.
Proof. vm_compute. split_and!; reflexivity. Qed.

Lemma C8_confirmation_count_witness :
  ∃ table,
    convertLedgerToTable Scenario.engine Scenario.window
      [("A", Scenario.entryA); ("B", Scenario.entryZC)] = Return table ∧
    Forall2 (λ x row,
               rowWltID row = x.1 ∧
               (getBlockNum x.2 < UNCONFIRMED_BLOCKNUM →
                rowNumConf row = latestBlockNum Scenario.window - getBlockNum x.2 + 1) ∧
               (getBlockNum x.2 >= UNCONFIRMED_BLOCKNUM → rowNumConf row = 0))
            [("A", Scenario.entryA); ("B", Scenario.entryZC)] table.
Proof.
  eexists. split.
  - vm_compute. reflexivity.
  - apply (C8_confirmation_count Scenario.engine Scenario.window). vm_compute. reflexivity.
Defined.

(** The date column of a row: the time of the top block of the chain when
    the confirmation count is positive, and the arrival time recorded for
    the transaction hash otherwise. *)
Lemma convertLedgerRow_date eng (self : ArmoryMainWindow) (x : string * LedgerEntry) (row : Row) :
  convertLedgerRow eng self x = Return row →
  if rowNumConf row >? 0
  then rowDate row = unixTimeToFormatStr eng (getTimestamp (getTopBlockHeader (TheBDM self)))
  else ∃ t, zeroConfTxTime (NetworkingFactory self) !! getTxHash x.2 = Some t ∧
            rowDate row = unixTimeToFormatStr eng t.
Proof.
  destruct x as [wltID le]. unfold convertLedgerRow, mbind, outcome_bind, getitem. simpl.
  destruct (walletMap self !! wltID); [|discriminate].
  destruct (_ >? 0) eqn:Hconf.
  - intros [= <-]. simpl. rewrite Hconf. reflexivity.
  - destruct (zeroConfTxTime _ !! _) as [t|]; [|discriminate].
    intros [= <-]. simpl. rewrite Hconf. eauto.
Qed.

(** C9 fails on the code: the entry of wallet A is in block 100, whose
    header has the time 1321997000; the top block, at height 105, has the
    time 1322000000.  The row of the entry has six confirmations and shows
    the time of the top block. *)
Theorem C9_confirmed_row_shows_top_block_time eng :
  getHeaderByHeight (TheBDM Scenario.window) (getBlockNum Scenario.entryA)
    = Some {| getBlockHeight := 100; getTimestamp := 1321997000 |} ∧
  getTopBlockHeader (TheBDM Scenario.window)
    = {| getBlockHeight := 105; getTimestamp := 1322000000 |} ∧
  (table ← convertLedgerToTable eng Scenario.window [("A", Scenario.entryA)];
   Return (map (λ row, (rowNumConf row, rowDate row)) table))
    = Return [(6, unixTimeToFormatStr eng 1322000000)].
Proof. split_and!; vm_compute; reflexivity. Qed.

(** * The heartbeat *)

Lemma readBlkFileUpdate_reactor : preserves reactor readBlkFileUpdate.
Proof.
  intros self. unfold readBlkFileUpdate.
  destruct (blkFile (TheBDM self)) as [|[[newBlks top]|e] later]; destruct self; reflexivity.
Qed.

Lemma checkNewBlocks_reactor : preserves reactor checkNewBlocks.
Proof.
  unfold checkNewBlocks. apply preserves_bind; [apply preserves_gets|]. intros bdm.
  destruct (isInitialized bdm); [|apply preserves_ret].
  apply preserves_bind; [apply readBlkFileUpdate_reactor|]. intros newBlks. frame.
Qed.

Lemma updateBalances_reactor : preserves reactor updateBalances.
Proof. unfold updateBalances. frame. Qed.

Lemma updateBalances_latestBlockNum : preserves latestBlockNum updateBalances.
Proof. unfold updateBalances. frame. Qed.

Lemma updateBalances_TheBDM : preserves TheBDM updateBalances.
Proof. unfold updateBalances. frame. Qed.

(** What [createCombinedLedger], the observer of [__init__], leaves alone. *)
Lemma extendCombinedLedger_preserves {X : Type} (f : ArmoryMainWindow → X) (wltID : string) :
  (∀ v self, f (set_walletLedgers v self) = f self) →
  (∀ v self, f (set_combinedLedger v self) = f self) →
  preserves f (extendCombinedLedger wltID).
Proof.
  intros Hl Hc. unfold extendCombinedLedger.
  repeat first
    [ apply preserves_gets | apply preserves_lift
    | apply preserves_bind; [| intros ?]
    | apply preserves_modify; intros ?; first [apply Hl | apply Hc] ].
Qed.

Lemma createCombinedLedger_reactor eng (arg : option (list string)) (withZeroConf : bool) :
  preserves reactor (createCombinedLedger eng arg withZeroConf).
Proof.
  unfold createCombinedLedger, updateLedgerDisplay.
  apply preserves_bind; [apply preserves_read|]. intros ids.
  apply preserves_bind; [frame|]. intros _.
  apply preserves_bind.
  { destruct ids; [|apply preserves_raise].
    apply preserves_for_each. intros wltID _.
    apply extendCombinedLedger_preserves; intros v []; reflexivity. }
  intros _. frame.
Qed.

Lemma createCombinedLedger_latestBlockNum eng (arg : option (list string)) (withZeroConf : bool) :
  preserves latestBlockNum (createCombinedLedger eng arg withZeroConf).
Proof.
  unfold createCombinedLedger, updateLedgerDisplay.
  apply preserves_bind; [apply preserves_read|]. intros ids.
  apply preserves_bind; [frame|]. intros _.
  apply preserves_bind.
  { destruct ids; [|apply preserves_raise].
    apply preserves_for_each. intros wltID _.
    apply extendCombinedLedger_preserves; intros v []; reflexivity. }
  intros _. frame.
Qed.

Lemma createCombinedLedger_TheBDM eng (arg : option (list string)) (withZeroConf : bool) :
  preserves TheBDM (createCombinedLedger eng arg withZeroConf).
Proof.
  unfold createCombinedLedger, updateLedgerDisplay.
  apply preserves_bind; [apply preserves_read|]. intros ids.
  apply preserves_bind; [frame|]. intros _.
  apply preserves_bind.
  { destruct ids; [|apply preserves_raise].
    apply preserves_for_each. intros wltID _.
    apply extendCombinedLedger_preserves; intros v []; reflexivity. }
  intros _. frame.
Qed.

Lemma observers_preserve {X : Type} (f : ArmoryMainWindow → X) (funcs : list (M unit)) :
  Forall (preserves f) funcs → preserves f (for_each funcs (λ func, func)).
Proof.
  intros Hfuncs. apply preserves_for_each. intros func Hin.
  rewrite Forall_forall in Hfuncs. apply Hfuncs, Hin.
Qed.

Lemma checkNewBlocks_quiet (self polled : ArmoryMainWindow) (newBlks : Z) :
  isInitialized (TheBDM self) = true →
  readBlkFileUpdate self = (Return newBlks, polled) →
  newBlks <= 0 →
  checkNewBlocks self =
  (Return tt, set_latestBlockNum (getBlockHeight (getTopBlockHeader (TheBDM polled))) polled).
Proof.
  intros Hinit Hread Hquiet. unfold checkNewBlocks. rewrite bind_run. unfold gets at 1.
  rewrite Hinit, bind_run, Hread.
  destruct (Z.gtb_spec newBlks 0); [lia|]. reflexivity.
Qed.

Lemma for_each_raises (funcs : list (M unit)) (func : M unit) (self : ArmoryMainWindow) :
  func ∈ funcs → (∀ st, ∃ e, (func st).1 = Raise e) →
  ∃ e, (for_each funcs (λ func, func) self).1 = Raise e.
Proof.
  intros Hin Hfails. revert self. induction funcs as [|g funcs IH]; intros self.
  - by apply elem_of_nil in Hin.
  - simpl. rewrite bind_run. apply elem_of_cons in Hin as [<-|Hin].
    + destruct (Hfails self) as [e He]. destruct (func self) as [[[]|e'] s1]; simpl in *; eauto.
      discriminate.
    + destruct (g self) as [[[]|e'] s1]; simpl; eauto.
Qed.

(** C2, as amended: after a heartbeat tick in which the chain engine is
    initialized and its read of the block file reports no new block, the
    tracked tip height equals the height of the engine's top block.  The
    height is assigned as the engine gives it: nothing compares it with the
    height tracked before. *)
Theorem C2_tip_after_quiet_poll (extraHeartbeatFunctions : list (M unit)) (nextBeatSec : Z)
    (self polled : ArmoryMainWindow) (newBlks : Z) :
  isInitialized (TheBDM self) = true →
  readBlkFileUpdate self = (Return newBlks, polled) →
  newBlks <= 0 →
  Forall (preserves latestBlockNum) extraHeartbeatFunctions →
  Forall (preserves TheBDM) extraHeartbeatFunctions →
  let r := Heartbeat extraHeartbeatFunctions nextBeatSec self in
  latestBlockNum r.2 = getBlockHeight (getTopBlockHeader (TheBDM r.2)).
Proof.
  intros Hinit Hread Hquiet Hnum Hbdm. simpl. unfold Heartbeat.
  rewrite bind_run, (checkNewBlocks_quiet self polled newBlks Hinit Hread Hquiet).
  set (s1 := set_latestBlockNum _ polled).
  set (rest := _ ≫= _).
  assert (Hrest1 : preserves latestBlockNum rest).
  { subst rest. apply preserves_bind; [apply updateBalances_latestBlockNum|]. intros _.
    apply preserves_bind; [by apply observers_preserve|]. intros _. frame. }
  assert (Hrest2 : preserves TheBDM rest).
  { subst rest. apply preserves_bind; [apply updateBalances_TheBDM|]. intros _.
    apply preserves_bind; [by apply observers_preserve|]. intros _. frame. }
  rewrite Hrest1, Hrest2. subst s1. destruct polled; reflexivity.
Qed.

Lemma C2_tip_after_quiet_poll_witness :
  let r := Heartbeat Scenario.observers 3 Scenario.lowerTop in
  latestBlockNum r.2 = getBlockHeight (getTopBlockHeader (TheBDM r.2)).
Proof.
  apply (C2_tip_after_quiet_poll Scenario.observers 3 Scenario.lowerTop Scenario.lowerTop 0).
  - reflexivity.
  - reflexivity.
  - lia.
  - repeat constructor. apply createCombinedLedger_latestBlockNum.
  - repeat constructor. apply createCombinedLedger_TheBDM.
Defined.

(** C2, as stated, fails twice.  When the engine reads one new block, the
    tick leaves the tracked height at 105 while the top block is at 106.
    When the engine's top block is at 104, below the tracked 105, the tick
    lowers the tracked height to 104. *)
Lemma C2_counterexample :
  (let r := Heartbeat Scenario.observers 3 Scenario.oneNewBlock in
   isInitialized (TheBDM Scenario.oneNewBlock) = true ∧
   r.1 = Return tt ∧
   latestBlockNum r.2 = 105 ∧
   getBlockHeight (getTopBlockHeader (TheBDM r.2)) = 106) ∧
  (let r := Heartbeat Scenario.observers 3 Scenario.lowerTop in
   isInitialized (TheBDM Scenario.lowerTop) = true ∧
   r.1 = Return tt ∧
   latestBlockNum Scenario.lowerTop = 105 ∧
   latestBlockNum r.2 = 104).
Proof. split; vm_compute; split_and!; reflexivity. Qed.

(** A poll that fails, and a balance that cannot be read. *)
Lemma checkNewBlocks_poll_fails (self : ArmoryMainWindow) (e : exn) :
  isInitialized (TheBDM self) = true → (readBlkFileUpdate self).1 = Raise e →
  (checkNewBlocks self).1 = Raise e.
Proof.
  intros Hinit Hread. unfold checkNewBlocks. rewrite bind_run. unfold gets at 1.
  rewrite Hinit, bind_run.
  destruct (readBlkFileUpdate self) as [[newBlks|e'] polled]; simpl in *; congruence.
Qed.

Lemma readBlkFileUpdate_walletMap : preserves walletMap readBlkFileUpdate.
Proof.
  intros self. unfold readBlkFileUpdate.
  destruct (blkFile (TheBDM self)) as [|[[newBlks top]|e] later]; destruct self; reflexivity.
Qed.

Lemma checkNewBlocks_walletMap : preserves walletMap checkNewBlocks.
Proof.
  unfold checkNewBlocks. apply preserves_bind; [apply preserves_gets|]. intros bdm.
  destruct (isInitialized bdm); [|apply preserves_ret].
  apply preserves_bind; [apply readBlkFileUpdate_walletMap|]. intros newBlks. frame.
Qed.

Lemma refresh_loop_raises (body : string * PyBtcWallet → M unit)
    (items : list (string * PyBtcWallet)) (self : ArmoryMainWindow)
    (wltID : string) (wlt : PyBtcWallet) (e : exn) :
  (∀ item st w, walletMap st !! item.1 = Some w →
     body item st = match getBalance w with
                    | Return balance =>
                        (Return tt, set_walletBalances (BalanceValue balance) st)
                    | Raise e0 => (Raise e0, st)
                    end) →
  (∀ id w, (id, w) ∈ items → walletMap self !! id = Some w) →
  (wltID, wlt) ∈ items → getBalance wlt = Raise e →
  ∃ e', (for_each items body self).1 = Raise e'.
Proof.
  intros Hbody. revert self. induction items as [|[id w] items IH]; intros self Hmap Hin Hbal.
  - by apply elem_of_nil in Hin.
  - cbn [for_each]. rewrite bind_run, (Hbody (id, w) self w) by (apply Hmap; left).
    destruct (getBalance w) as [balance|e0] eqn:Hw; [|eauto].
    apply elem_of_cons in Hin as [[= <- <-]|Hin]; [congruence|].
    apply IH; [|done|done].
    intros id' w' Hin'. destruct self; simpl. apply (Hmap id' w'). by right.
Qed.

Lemma updateBalances_raises (self : ArmoryMainWindow) (wltID : string) (wlt : PyBtcWallet)
    (e : exn) :
  walletMap self !! wltID = Some wlt → getBalance wlt = Raise e →
  ∃ e', (updateBalances self).1 = Raise e'.
Proof.
  intros Hwlt Hbal. unfold updateBalances. rewrite bind_run. unfold gets at 1.
  apply (refresh_loop_raises _ _ self wltID wlt e); [| |by apply elem_of_map_to_list|done].
  - intros item st w Hw. unfold mbind, M_bind, gets, lift, modify, getitem. cbn [fst snd].
    rewrite Hw. by destruct (getBalance w).
  - intros id w Hin. by apply elem_of_map_to_list in Hin.
Qed.

(** C4, as amended: a heartbeat tick schedules the next tick as its last
    step, when the block poll, the balance refresh and every extra observer
    have returned: then the tick returns and the scheduled call is the last
    one of the reactor.  When one of the three steps raises, the exception
    leaves [Heartbeat], and a tick that ends with an exception has scheduled
    nothing.  The steps do raise: the poll when the read of the block file
    raises, the refresh when the balance of a wallet cannot be read, and the
    observers when one of them raises. *)
Theorem C4_next_tick_after_normal_tick (extraHeartbeatFunctions : list (M unit))
    (nextBeatSec : Z) (self : ArmoryMainWindow) :
  Forall (preserves reactor) extraHeartbeatFunctions →
  let r := Heartbeat extraHeartbeatFunctions nextBeatSec self in
  let polled := checkNewBlocks self in
  let refreshed := updateBalances polled.2 in
  let observed := for_each extraHeartbeatFunctions (λ func, func) refreshed.2 in
  (polled.1 = Return tt → refreshed.1 = Return tt → observed.1 = Return tt →
   r.1 = Return tt ∧ reactor r.2 = reactor self ++ [nextBeatSec]) ∧
  (r.1 = Return tt → reactor r.2 = reactor self ++ [nextBeatSec]) ∧
  (∀ e, polled.1 = Raise e → r.1 = Raise e) ∧
  (∀ e, polled.1 = Return tt → refreshed.1 = Raise e → r.1 = Raise e) ∧
  (∀ e, polled.1 = Return tt → refreshed.1 = Return tt → observed.1 = Raise e →
        r.1 = Raise e) ∧
  (∀ e, r.1 = Raise e → reactor r.2 = reactor self) ∧
  (∀ e, isInitialized (TheBDM self) = true → (readBlkFileUpdate self).1 = Raise e →
        r.1 = Raise e) ∧
  (∀ wltID wlt e, walletMap self !! wltID = Some wlt → getBalance wlt = Raise e →
                  ∃ e', r.1 = Raise e') ∧
  (∀ func, func ∈ extraHeartbeatFunctions → (∀ st, ∃ e, (func st).1 = Raise e) →
           ∃ e, r.1 = Raise e).
Proof.
  intros Hfuncs. cbv zeta. unfold Heartbeat. rewrite bind_run.
  pose proof (checkNewBlocks_reactor self) as H1.
  pose proof (checkNewBlocks_walletMap self) as Hmap.
  pose proof (checkNewBlocks_poll_fails self) as Hpoll.
  destruct (checkNewBlocks self) as [[[]|e1] s1]; cbn [fst snd] in *.
  2:{ split_and!; try discriminate; try (intros; congruence); eauto. }
  assert (Hquiet : ∀ e, isInitialized (TheBDM self) = true →
            (readBlkFileUpdate self).1 = Raise e → False).
  { intros e Hinit Hread. specialize (Hpoll e Hinit Hread). discriminate. }
  clear Hpoll. rewrite bind_run.
  pose proof (updateBalances_reactor s1) as H2.
  pose proof (updateBalances_raises s1) as Hrefresh.
  rewrite Hmap in Hrefresh.
  destruct (updateBalances s1) as [[[]|e2] s2]; cbn [fst snd] in *.
  2:{ split_and!; try discriminate; try done; try (intros; congruence); eauto.
      intros e Hinit Hread. destruct (Hquiet e Hinit Hread). }
  rewrite bind_run.
  pose proof (observers_preserve reactor _ Hfuncs s2) as H3.
  pose proof (λ func, for_each_raises extraHeartbeatFunctions func s2) as Hobs.
  destruct (for_each extraHeartbeatFunctions (λ func, func) s2) as [[[]|e3] s3];
    cbn [fst snd] in *.
  - unfold modify. cbn [fst snd].
    assert (Hnext : reactor (set_reactor (reactor s3 ++ [nextBeatSec]) s3)
                    = reactor self ++ [nextBeatSec]).
    { destruct s3; simpl in *. congruence. }
    split_and!; try discriminate; try done.
    intros e Hinit Hread. destruct (Hquiet e Hinit Hread).
  - split_and!; try discriminate; try done; try (intros; congruence); eauto.
    intros e Hinit Hread. destruct (Hquiet e Hinit Hread).
Qed.

Lemma C4_next_tick_after_normal_tick_witness :
  let r := Heartbeat Scenario.observers 3 Scenario.window in
  r.1 = Return tt ∧ reactor r.2 = reactor Scenario.window ++ [3].
Proof.
  destruct (C4_next_tick_after_normal_tick Scenario.observers 3 Scenario.window)
    as (Hnormal & _).
  - repeat constructor. apply createCombinedLedger_reactor.
  - apply Hnormal; vm_compute; reflexivity.
Defined.

(** C4, as stated, fails: with an extra observer that raises, the tick ends
    with the observer's exception and no heartbeat is scheduled. *)
Lemma C4_counterexample :
  let r := Heartbeat Scenario.failingObservers 3 Scenario.window in
  r.1 = Raise (EngineError "observer failed") ∧ reactor r.2 = [].
Proof. vm_compute. split; reflexivity. Qed.

(** * The totals of a build *)

(** The two totals of the loop over the combined ledger. *)
Lemma sumFunds_totals (tip : Z) (ledger : list (string * LedgerEntry)) :
  sumFunds tip ledger
  = (sumValues (List.filter (λ x, negb (countsAsUnconfirmed tip x)) ledger),
     sumValues (List.filter (countsAsUnconfirmed tip) ledger)).
Proof. unfold sumFunds. rewrite sumFunds_loop. reflexivity. Qed.

(** What the display section does to the two labels. *)
Lemma updateLedgerDisplay_labels eng (self : ArmoryMainWindow) :
  let r := try_except (updateLedgerDisplay eng) swallowAttributeError self in
  let funds := sumFunds (latestBlockNum self) (combinedLedger self) in
  (lblUnconfirmed r.2 = lblUnconfirmed self ∨
   lblUnconfirmed r.2 = Some (unconfirmedLabel eng funds.2)) ∧
  (lblTotalFunds r.2 = lblTotalFunds self ∨
   lblTotalFunds r.2 = Some (totalFundsLabel eng funds.1)) ∧
  (is_Some (ledgerModel self) → is_Some (lblUnconfirmed self) →
   is_Some (lblTotalFunds self) →
   lblUnconfirmed r.2 = Some (unconfirmedLabel eng funds.2) ∧
   lblTotalFunds r.2 = Some (totalFundsLabel eng funds.1)).
Proof.
  unfold try_except, swallowAttributeError, updateLedgerDisplay, mbind, M_bind, mret, M_ret,
    raise, gets, lift, modify, getattr, unconfirmedLabel, totalFundsLabel.
  simpl.
  destruct (sumFunds _ _) as [totFund unconfFund].
  destruct self; simpl.
  destruct ledgerModel0; simpl.
  2:{ split_and!; [by left|by left|]. by intros [? [=]]. }
  destruct lblUnconfirmed0; simpl.
  2:{ split_and!; [by left|by left|]. by intros _ [? [=]]. }
  destruct lblTotalFunds0; simpl.
  2:{ split_and!; [by right|by left|]. by intros _ _ [? [=]]. }
  unfold convertLedgerToTable.
  match goal with |- context [convertLedgerLoop eng ?s ?l ?t] =>
    destruct (convertLedgerLoop eng s l t) as [table|e] end; simpl.
  2:{ destruct (is_AttributeError e); simpl; split_and!; by try right. }
  destruct ledgerView0; simpl; split_and!; by try right.
Qed.

(** The loop of a build leaves the tracked height and the widgets alone. *)
Lemma collectLedgers_preserves {X : Type} (f : ArmoryMainWindow → X)
    (ids : option (list string)) :
  (∀ v self, f (set_walletLedgers v self) = f self) →
  (∀ v self, f (set_combinedLedger v self) = f self) →
  preserves f (collectLedgers ids).
Proof.
  intros Hl Hc. destruct ids; [|apply preserves_raise].
  apply preserves_for_each. intros wltID _. by apply extendCombinedLedger_preserves.
Qed.

(** The steps of a build. *)
Lemma createCombinedLedger_steps eng (arg : option (list string)) (withZeroConf : bool)
    (self : ArmoryMainWindow) :
  createCombinedLedger eng arg withZeroConf self
  = match selectWalletIDs eng self arg with
    | Raise e => (Raise e, self)
    | Return ids =>
        match collectLedgers ids (set_combinedLedger [] self) with
        | (Raise e, collected) => (Raise e, collected)
        | (Return _, collected) =>
            let sorted := list_sort_reverse combinedLedger_lt (combinedLedger collected) in
            try_except (updateLedgerDisplay eng) swallowAttributeError
              (set_ledgerSize (length sorted) (set_combinedLedger sorted collected))
        end
    end.
Proof.
  unfold createCombinedLedger. rewrite bind_run. unfold lift at 1.
  destruct (selectWalletIDs eng self arg) as [ids|e]; [|reflexivity].
  rewrite bind_run. unfold modify at 1. rewrite bind_run. fold (collectLedgers ids).
  destruct (collectLedgers ids (set_combinedLedger [] self)) as [[[]|e] collected];
    [|reflexivity].
  rewrite bind_run. unfold modify at 1. rewrite bind_run. unfold modify at 1.
  destruct collected; reflexivity.
Qed.

(** A build ends before its display section with the widgets untouched, or
    runs the display section on a window with the same tracked height and
    widgets. *)
Lemma createCombinedLedger_display eng (arg : option (list string)) (withZeroConf : bool)
    (self : ArmoryMainWindow) :
  let r := createCombinedLedger eng arg withZeroConf self in
  (lblUnconfirmed r.2 = lblUnconfirmed self ∧ lblTotalFunds r.2 = lblTotalFunds self) ∨
  ∃ sized, r = try_except (updateLedgerDisplay eng) swallowAttributeError sized ∧
           latestBlockNum sized = latestBlockNum self ∧
           lblUnconfirmed sized = lblUnconfirmed self ∧
           lblTotalFunds sized = lblTotalFunds self.
Proof.
  cbv zeta. rewrite createCombinedLedger_steps.
  destruct (selectWalletIDs eng self arg) as [ids|e]; [|by left].
  pose proof (collectLedgers_preserves latestBlockNum ids
                ltac:(by intros ? []) ltac:(by intros ? [])
                (set_combinedLedger [] self)) as Htip.
  pose proof (collectLedgers_preserves lblUnconfirmed ids
                ltac:(by intros ? []) ltac:(by intros ? [])
                (set_combinedLedger [] self)) as HlblU.
  pose proof (collectLedgers_preserves lblTotalFunds ids
                ltac:(by intros ? []) ltac:(by intros ? [])
                (set_combinedLedger [] self)) as HlblT.
  destruct (collectLedgers ids (set_combinedLedger [] self)) as [[[]|e] collected];
    cbn [fst snd] in *.
  - right. eexists. split; [reflexivity|].
    destruct collected, self; simpl in *. by split_and!.
  - left. destruct collected, self; simpl in *. by split.
Qed.



(** * Further properties of the wallet loading *)

Lemma loadWallet_fresh_full eng (wltExclude wltOffline : list string) (fpath : string)
    (wlt : PyBtcWallet) (self : ArmoryMainWindow) (balances : list Z) :
  readWalletFile eng fpath = Return wlt → fpath ∉ wltExclude →
  wltUniqueIDB58 wlt ∉ walletIDSet self →
  walletBalances self = BalanceList balances →
  ∃ self', loadWallet eng wltExclude wltOffline fpath self = (Return tt, self') ∧
    walletMap self' = <[wltUniqueIDB58 wlt := wlt]> (walletMap self) ∧
    walletIndices self' =
      <[wltUniqueIDB58 wlt := (size (<[wltUniqueIDB58 wlt := wlt]> (walletMap self)) - 1)%nat]>
        (walletIndices self) ∧
    walletIDSet self' = {[wltUniqueIDB58 wlt]} ∪ walletIDSet self ∧
    walletIDList self' = walletIDList self ++ [wltUniqueIDB58 wlt] ∧
    walletBalances self' = BalanceList (balances ++ [-1]) ∧
    walletOfflines self' =
      (if bool_decide (wltUniqueIDB58 wlt ∈ wltOffline) || bool_decide (fpath ∈ wltOffline)
       then {[wltUniqueIDB58 wlt]} ∪ walletOfflines self else walletOfflines self) ∧
    walletLedgers self' = walletLedgers self ∧
    stdout self' = stdout self.
Proof.
  intros Hread Hex Hin Hbal. unfold loadWallet, try_except. rewrite bind_run.
  unfold lift at 1. rewrite Hread. rewrite bool_decide_false by exact Hex.
  rewrite bind_run. unfold gets at 1. rewrite bool_decide_false by exact Hin.
  unfold print, modify, gets, lift, getitem, mbind, M_bind. simpl.
  rewrite Hbal.
  destruct (bool_decide (wltUniqueIDB58 wlt ∈ wltOffline) || bool_decide (fpath ∈ wltOffline));
    eexists; (split; [reflexivity|]); destruct self; simpl; split_and!; reflexivity.
Qed.

(** One pass of the loop keeps the indices, the balances and the offline
    marks in step with the registry. *)
Lemma loadWallet_step_indexed eng (wltExclude wltOffline : list string) (fpath : string)
    (wlt : PyBtcWallet) (self self' : ArmoryMainWindow) :
  readWalletFile eng fpath = Return wlt →
  registryInv self → registryIndexed self →
  loadWallet eng wltExclude wltOffline fpath self = (Return tt, self') →
  registryIndexed self' ∧
  walletLedgers self' = walletLedgers self ∧
  (∀ wltID w, walletMap self' !! wltID = Some w →
     walletMap self !! wltID = Some w ∨
     ((fpath ∉ wltExclude) ∧ w = wlt ∧ wltUniqueIDB58 wlt = wltID)) ∧
  (∀ wltID, wltID ∈ walletOfflines self' ↔
     wltID ∈ walletOfflines self ∨
     ((fpath ∉ wltExclude) ∧ wltID = wltUniqueIDB58 wlt ∧ (wltID ∉ walletIDSet self) ∧
      (wltID ∈ wltOffline ∨ fpath ∈ wltOffline))).
Proof.
  intros Hread Hinv Hidx Hrun.
  destruct (decide (fpath ∈ wltExclude)) as [Hex|Hex].
  { rewrite (loadWallet_excluded _ _ _ _ _ _ Hread Hex) in Hrun.
    injection Hrun as <-. split_and!; eauto. intros wltID. split; [by left|].
    intros [?|(? & _)]; done. }
  destruct Hinv as (Hbal & Hset & Hnodup & Hlist).
  destruct Hidx as (Hsize & Hindex & Hbalances & Hoff).
  destruct (decide (wltUniqueIDB58 wlt ∈ walletIDSet self)) as [Hin|Hin].
  - destruct (proj1 (Hset _) Hin) as [loaded Hloaded].
    rewrite (loadWallet_duplicate _ _ _ _ _ _ _ Hread Hex Hin Hloaded) in Hrun.
    injection Hrun as <-. destruct self; simpl in *.
    split; [unfold registryIndexed; simpl; by split_and!|].
    split_and!; eauto. intros wltID. split; [by left|].
    intros [?|(_ & -> & ? & _)]; done.
  - destruct (loadWallet_fresh_full eng wltExclude wltOffline fpath wlt self _
                Hread Hex Hin Hbalances)
      as (s & Hrun' & Hmap & Hindices & Hset' & Hlist' & Hbal' & Hoff' & Hledgers & _).
    rewrite Hrun' in Hrun. injection Hrun as <-.
    assert (Hnone : walletMap self !! wltUniqueIDB58 wlt = None).
    { destruct (walletMap self !! wltUniqueIDB58 wlt) eqn:E; [|done].
      exfalso. apply Hin, Hset. eauto. }
    assert (Hnotin : wltUniqueIDB58 wlt ∉ walletIDList self).
    { intros Hl. apply Hin, Hlist, Hl. }
    split; [unfold registryIndexed; split_and!|split_and!].
    + rewrite Hmap, Hlist', length_app, map_size_insert_None by done. simpl. lia.
    + intros wltID i. rewrite Hindices, Hlist', lookup_snoc_Some.
      rewrite map_size_insert_None by done. replace (S _ - 1)%nat with (size (walletMap self)) by lia.
      rewrite Hsize.
      destruct (decide (wltUniqueIDB58 wlt = wltID)) as [<-|Hne].
      * rewrite lookup_insert_eq. split.
        -- intros [= <-]. by right.
        -- intros [[_ Hl]|[-> _]]; [|done].
           exfalso. apply Hnotin. apply list_elem_of_lookup. eauto.
      * rewrite lookup_insert_ne by done. rewrite Hindex. split.
        -- intros Hl. left. split; [by eapply lookup_lt_Some|done].
        -- intros [[_ Hl]|[_ ?]]; [done|congruence].
    + rewrite Hbal', Hlist', length_app. simpl.
      replace (length (walletIDList self) + 1)%nat with (S (length (walletIDList self))) by lia.
      by rewrite replicate_S_end.
    + intros wltID. rewrite Hoff', Hset'.
      destruct (_ || _); rewrite ?elem_of_union, ?elem_of_singleton; [|by right; apply Hoff].
      intros [?|?]; [by left|by right; apply Hoff].
    + exact Hledgers.
    + intros wltID w. rewrite Hmap.
      destruct (decide (wltUniqueIDB58 wlt = wltID)) as [<-|Hne].
      * rewrite lookup_insert_eq. intros [= <-]. by right.
      * rewrite lookup_insert_ne by done. by left.
    + intros wltID. rewrite Hoff'.
      destruct (bool_decide (wltUniqueIDB58 wlt ∈ wltOffline) || _) eqn:Hb.
      * rewrite elem_of_union, elem_of_singleton.
        apply orb_true_iff in Hb as [Hb|Hb]; apply bool_decide_eq_true in Hb.
        -- split; [intros [->|?]; [right; by split_and!; auto|by left]|].
           intros [?|(_ & -> & _)]; [by right|by left].
        -- split; [intros [->|?]; [right; by split_and!; auto|by left]|].
           intros [?|(_ & -> & _)]; [by right|by left].
      * apply orb_false_iff in Hb as [Hb1 Hb2].
        apply bool_decide_eq_false in Hb1, Hb2. split; [by left|].
        intros [?|(_ & -> & _ & [?|?])]; done.
Qed.

Lemma freshRegistry_indexed (self : ArmoryMainWindow) : registryIndexed (freshRegistry self).
Proof.
  destruct self; unfold registryIndexed; simpl. split_and!.
  - apply map_size_empty.
  - intros wltID i. rewrite lookup_empty, lookup_nil. done.
  - reflexivity.
  - intros wltID Hw. by apply elem_of_empty in Hw.
Qed.

(** The whole loop on files that can all be read, with the indices, the
    balances, the offline marks and the origin of every registered wallet. *)
Lemma loadWallets_indexed eng (wltExclude wltOffline wltPaths : list string)
    (self self' : ArmoryMainWindow) :
  Forall (λ fpath, ∃ wlt, readWalletFile eng fpath = Return wlt) wltPaths →
  registryInv self → registryIndexed self →
  (∀ wltID, wltID ∈ wltOffline → wltID ∈ walletIDSet self → wltID ∈ walletOfflines self) →
  loadWallets eng wltExclude wltOffline wltPaths self = (Return tt, self') →
  registryIndexed self' ∧
  walletLedgers self' = walletLedgers self ∧
  (∀ wltID w, walletMap self' !! wltID = Some w →
     walletMap self !! wltID = Some w ∨
     ∃ fpath, fpath ∈ wltPaths ∧ (fpath ∉ wltExclude) ∧
              readWalletFile eng fpath = Return w ∧ wltUniqueIDB58 w = wltID) ∧
  (∀ wltID, wltID ∈ wltOffline → wltID ∈ walletIDSet self' → wltID ∈ walletOfflines self') ∧
  (∀ wltID, wltID ∈ walletOfflines self' →
     wltID ∈ walletOfflines self ∨ wltID ∈ wltOffline ∨
     ∃ fpath w, fpath ∈ wltPaths ∧ fpath ∈ wltOffline ∧ (fpath ∉ wltExclude) ∧
                readWalletFile eng fpath = Return w ∧ wltUniqueIDB58 w = wltID).
Proof.
  unfold loadWallets. revert self.
  induction wltPaths as [|fpath l IH]; intros self Hparse Hinv Hidx Hmarked Hrun.
  - simpl in Hrun. injection Hrun as <-. split_and!; eauto.
  - apply Forall_cons in Hparse as [[wlt Hread] Hparse].
    destruct (loadWallet_step eng wltExclude wltOffline fpath wlt self Hread Hinv)
      as (s1 & Hrun1 & Hinv1 & _ & _ & Hfrom1 & _).
    simpl in Hrun. rewrite bind_run, Hrun1 in Hrun.
    destruct (loadWallet_step_indexed eng wltExclude wltOffline fpath wlt self s1
                Hread Hinv Hidx Hrun1) as (Hidx1 & Hledgers1 & Hmap1 & Hoff1).
    assert (Hmarked1 : ∀ wltID, wltID ∈ wltOffline → wltID ∈ walletIDSet s1 →
                                wltID ∈ walletOfflines s1).
    { intros wltID Hlisted Hreg. apply Hoff1.
      destruct (decide (wltID ∈ walletIDSet self)) as [Hold|Hnew]; [left; by apply Hmarked|].
      destruct (Hfrom1 _ Hreg) as [?|[Hex Hid]]; [done|].
      right. split_and!; auto. }
    destruct (IH s1 Hparse Hinv1 Hidx1 Hmarked1 Hrun)
      as (Hidx2 & Hledgers2 & Hmap2 & Hmarked2 & Hoff2).
    split_and!; try done.
    + congruence.
    + intros wltID w Hw. destruct (Hmap2 _ _ Hw) as [Hw1|(p & Hp & Hex & Hr & Hid)].
      * destruct (Hmap1 _ _ Hw1) as [?|(Hex & -> & Hid)]; [by left|].
        right. exists fpath. split_and!; try done. left.
      * right. exists p. split_and!; try done. by right.
    + intros wltID Hw. destruct (Hoff2 _ Hw) as [Hw1|[?|(p & w & Hp & Hpo & Hex & Hr & Hid)]].
      * apply Hoff1 in Hw1 as [?|(Hex & -> & _ & [?|Hpo])]; [by left|by right; left|].
        right; right. exists fpath, wlt. split_and!; try done. left.
      * by right; left.
      * right; right. exists p, w. split_and!; try done. by right.
Qed.

Ltac readable_files :=
  repeat (constructor; [eexists; reflexivity|]); constructor.

(** X1: when every wallet file can be read, loading returns with a
    consistent registry: [walletIDList] has each registered identifier once,
    the index of a wallet is its position in that list, there is one balance
    of -1 for each wallet, and [walletLedgers] is empty. *)
Theorem X1_registry_consistent eng (settings : SettingsFile) (homeWallets : list string)
    (self : ArmoryMainWindow) :
  Forall (λ fpath, ∃ wlt, readWalletFile eng fpath = Return wlt)
         (Other_Wallets settings ++ homeWallets) →
  ∃ self', loadWalletsAndSettings eng settings homeWallets self = (Return tt, self') ∧
    NoDup (walletIDList self') ∧
    (∀ wltID, wltID ∈ walletIDList self' ↔ is_Some (walletMap self' !! wltID)) ∧
    (∀ wltID, wltID ∈ walletIDSet self' ↔ is_Some (walletMap self' !! wltID)) ∧
    (∀ wltID i, walletIndices self' !! wltID = Some i ↔ walletIDList self' !! i = Some wltID) ∧
    walletBalances self' = BalanceList (replicate (length (walletIDList self')) (-1)) ∧
    walletLedgers self' = [].
Proof.
  intros Hparse. rewrite loadWalletsAndSettings_run.
  destruct (loadWallets_run eng (Excluded_Wallets settings) (Offline_WalletIDs settings)
              _ (freshRegistry self) Hparse (freshRegistry_inv self))
    as (self' & Hrun & (Hbal & Hset & Hnodup & Hlist) & _).
  destruct (loadWallets_indexed eng (Excluded_Wallets settings) (Offline_WalletIDs settings)
              _ (freshRegistry self) self' Hparse (freshRegistry_inv self)
              (freshRegistry_indexed self)) as ((Hsize & Hindex & Hbalances & _) & Hledgers & _).
  { intros wltID _ Hreg. destruct self; simpl in Hreg. by apply elem_of_empty in Hreg. }
  { exact Hrun. }
  exists self'. split_and!; try done.
  intros wltID. by rewrite Hlist, Hset.
Qed.

Lemma X1_registry_consistent_witness :
  ∃ self', loadWalletsAndSettings Scenario.engine Scenario.withCopy [] Scenario.early
           = (Return tt, self') ∧
    NoDup (walletIDList self') ∧
    (∀ wltID, wltID ∈ walletIDList self' ↔ is_Some (walletMap self' !! wltID)) ∧
    (∀ wltID, wltID ∈ walletIDSet self' ↔ is_Some (walletMap self' !! wltID)) ∧
    (∀ wltID i, walletIndices self' !! wltID = Some i ↔ walletIDList self' !! i = Some wltID) ∧
    walletBalances self' = BalanceList (replicate (length (walletIDList self')) (-1)) ∧
    walletLedgers self' = [].
Proof.
  apply (X1_registry_consistent Scenario.engine Scenario.withCopy [] Scenario.early).
  readable_files.
Defined.

(** X2: when every wallet file can be read, the registry holds exactly the
    wallets of the files that are not excluded: each such file has its
    identifier registered, and each registered wallet is stored under its
    own identifier and was read from such a file. *)
Theorem X2_registry_holds_the_readable_wallets eng (settings : SettingsFile)
    (homeWallets : list string) (self : ArmoryMainWindow) :
  Forall (λ fpath, ∃ wlt, readWalletFile eng fpath = Return wlt)
         (Other_Wallets settings ++ homeWallets) →
  ∃ self', loadWalletsAndSettings eng settings homeWallets self = (Return tt, self') ∧
    (∀ fpath wlt, fpath ∈ Other_Wallets settings ++ homeWallets →
       readWalletFile eng fpath = Return wlt → fpath ∉ Excluded_Wallets settings →
       is_Some (walletMap self' !! wltUniqueIDB58 wlt)) ∧
    (∀ wltID wlt, walletMap self' !! wltID = Some wlt →
       wltUniqueIDB58 wlt = wltID ∧
       ∃ fpath, fpath ∈ Other_Wallets settings ++ homeWallets ∧
                (fpath ∉ Excluded_Wallets settings) ∧
                readWalletFile eng fpath = Return wlt).
Proof.
  intros Hparse. rewrite loadWalletsAndSettings_run.
  destruct (loadWallets_run eng (Excluded_Wallets settings) (Offline_WalletIDs settings)
              _ (freshRegistry self) Hparse (freshRegistry_inv self))
    as (self' & Hrun & (_ & Hset & _) & _ & _ & _ & Hreg).
  destruct (loadWallets_indexed eng (Excluded_Wallets settings) (Offline_WalletIDs settings)
              _ (freshRegistry self) self' Hparse (freshRegistry_inv self)
              (freshRegistry_indexed self)) as (_ & _ & Hfrom & _).
  { intros wltID _ Hin. destruct self; simpl in Hin. by apply elem_of_empty in Hin. }
  { exact Hrun. }
  exists self'. split_and!; [done| |].
  - intros fpath wlt Hin Hread Hex. apply Hset. by apply (Hreg fpath wlt).
  - intros wltID wlt Hw. destruct (Hfrom _ _ Hw) as [Hw0|(fpath & Hin & Hex & Hread & Hid)].
    + destruct self; simpl in Hw0. by rewrite lookup_empty in Hw0.
    + split; [done|]. by exists fpath.
Qed.

Lemma X2_registry_holds_the_readable_wallets_witness :
  ∃ self', loadWalletsAndSettings Scenario.engine Sample.withoutB [] Scenario.early
           = (Return tt, self') ∧
    (∀ fpath wlt, fpath ∈ Other_Wallets Sample.withoutB ++ [] →
       readWalletFile Scenario.engine fpath = Return wlt →
       fpath ∉ Excluded_Wallets Sample.withoutB →
       is_Some (walletMap self' !! wltUniqueIDB58 wlt)) ∧
    (∀ wltID wlt, walletMap self' !! wltID = Some wlt →
       wltUniqueIDB58 wlt = wltID ∧
       ∃ fpath, fpath ∈ Other_Wallets Sample.withoutB ++ [] ∧
                (fpath ∉ Excluded_Wallets Sample.withoutB) ∧
                readWalletFile Scenario.engine fpath = Return wlt).
Proof.
  apply (X2_registry_holds_the_readable_wallets Scenario.engine Sample.withoutB []
           Scenario.early).
  readable_files.
Defined.

(** X3: when every wallet file can be read, only registered wallets are
    marked offline, every registered wallet whose identifier is listed in
    [Offline_WalletIDs] is marked, and a marked wallet has its identifier or
    the path of one of its files in that list. *)
Theorem X3_offline_marks eng (settings : SettingsFile) (homeWallets : list string)
    (self : ArmoryMainWindow) :
  Forall (λ fpath, ∃ wlt, readWalletFile eng fpath = Return wlt)
         (Other_Wallets settings ++ homeWallets) →
  ∃ self', loadWalletsAndSettings eng settings homeWallets self = (Return tt, self') ∧
    (∀ wltID, wltID ∈ walletOfflines self' → is_Some (walletMap self' !! wltID)) ∧
    (∀ wltID, wltID ∈ Offline_WalletIDs settings → is_Some (walletMap self' !! wltID) →
       wltID ∈ walletOfflines self') ∧
    (∀ wltID, wltID ∈ walletOfflines self' →
       wltID ∈ Offline_WalletIDs settings ∨
       ∃ fpath wlt, fpath ∈ Other_Wallets settings ++ homeWallets ∧
                    fpath ∈ Offline_WalletIDs settings ∧
                    (fpath ∉ Excluded_Wallets settings) ∧
                    readWalletFile eng fpath = Return wlt ∧ wltUniqueIDB58 wlt = wltID).
Proof.
  intros Hparse. rewrite loadWalletsAndSettings_run.
  destruct (loadWallets_run eng (Excluded_Wallets settings) (Offline_WalletIDs settings)
              _ (freshRegistry self) Hparse (freshRegistry_inv self))
    as (self' & Hrun & (_ & Hset & _) & _).
  destruct (loadWallets_indexed eng (Excluded_Wallets settings) (Offline_WalletIDs settings)
              _ (freshRegistry self) self' Hparse (freshRegistry_inv self)
              (freshRegistry_indexed self)) as ((_ & _ & _ & Hsub) & _ & _ & Hmarked & Hoff).
  { intros wltID _ Hin. destruct self; simpl in Hin. by apply elem_of_empty in Hin. }
  { exact Hrun. }
  exists self'. split_and!; [done| | |].
  - intros wltID Hw. apply Hset, Hsub, Hw.
  - intros wltID Hlisted Hreg. apply Hmarked; [done|]. by apply Hset.
  - intros wltID Hw. destruct (Hoff _ Hw) as [Hw0|[?|?]]; [|by left|by right].
    destruct self; simpl in Hw0. by apply elem_of_empty in Hw0.
Qed.

Lemma X3_offline_marks_witness :
  ∃ self', loadWalletsAndSettings Scenario.engine Sample.offlineB [] Scenario.early
           = (Return tt, self') ∧
    (∀ wltID, wltID ∈ walletOfflines self' → is_Some (walletMap self' !! wltID)) ∧
    (∀ wltID, wltID ∈ Offline_WalletIDs Sample.offlineB → is_Some (walletMap self' !! wltID) →
       wltID ∈ walletOfflines self') ∧
    (∀ wltID, wltID ∈ walletOfflines self' →
       wltID ∈ Offline_WalletIDs Sample.offlineB ∨
       ∃ fpath wlt, fpath ∈ Other_Wallets Sample.offlineB ++ [] ∧
                    fpath ∈ Offline_WalletIDs Sample.offlineB ∧
                    (fpath ∉ Excluded_Wallets Sample.offlineB) ∧
                    readWalletFile Scenario.engine fpath = Return wlt ∧
                    wltUniqueIDB58 wlt = wltID).
Proof.
  apply (X3_offline_marks Scenario.engine Sample.offlineB [] Scenario.early).
  readable_files.
Defined.

(** X4: loading stops at the first file that cannot be read.  The wallets
    of the files before it stay registered, the two warning lines are
    printed, the exception of the wallet library leaves the loop, and no
    file after it is looked at. *)
Theorem X4_loading_stops_at_unreadable_file eng (wltExclude wltOffline : list string)
    (before after : list string) (bad : string) (e : exn)
    (self loaded : ArmoryMainWindow) :
  loadWallets eng wltExclude wltOffline before self = (Return tt, loaded) →
  readWalletFile eng bad = Raise e →
  loadWallets eng wltExclude wltOffline (before ++ bad :: after) self
  = (Raise e, set_stdout (stdout loaded ++ loadFailureWarning bad) loaded).
Proof.
  intros Hbefore Hbad. unfold loadWallets in *.
  rewrite for_each_app, Hbefore. simpl.
  rewrite bind_run, (loadWallet_unreadable _ _ _ _ _ _ Hbad). reflexivity.
Qed.

Lemma X4_loading_stops_at_unreadable_file_witness :
  loadWallets Scenario.engine [] []
    (["/home/armory_B.wallet"] ++ "/home/armory_broken.wallet" :: ["/home/armory_A.wallet"])
    (freshRegistry Scenario.early)
  = (Raise (EngineError "not a wallet file"),
     set_stdout
       (stdout (loadWallets Scenario.engine [] [] ["/home/armory_B.wallet"]
                  (freshRegistry Scenario.early)).2
        ++ loadFailureWarning "/home/armory_broken.wallet")
       (loadWallets Scenario.engine [] [] ["/home/armory_B.wallet"]
          (freshRegistry Scenario.early)).2).
Proof.
  apply (X4_loading_stops_at_unreadable_file Scenario.engine [] []
           ["/home/armory_B.wallet"] ["/home/armory_A.wallet"] "/home/armory_broken.wallet").
  - vm_compute. reflexivity.
  - reflexivity.
Defined.

(** X5: the exclusion list is looked at only after the file was read.  An
    excluded file that can be read changes nothing and prints nothing; an
    excluded file that cannot be read still ends the loading with the
    exception. *)
Theorem X5_excluded_file_is_read_first eng (wltExclude wltOffline : list string)
    (fpath : string) (self : ArmoryMainWindow) :
  fpath ∈ wltExclude →
  (∀ wlt, readWalletFile eng fpath = Return wlt →
     loadWallet eng wltExclude wltOffline fpath self = (Return tt, self)) ∧
  (∀ e, readWalletFile eng fpath = Raise e →
     loadWallet eng wltExclude wltOffline fpath self
     = (Raise e, set_stdout (stdout self ++ loadFailureWarning fpath) self)).
Proof.
  intros Hex. split.
  - intros wlt Hread. by apply (loadWallet_excluded _ _ _ _ wlt).
  - intros e Hread. by apply loadWallet_unreadable.
Qed.

Lemma X5_excluded_file_is_read_first_witness :
  (∀ wlt, readWalletFile Scenario.engine "/home/armory_B.wallet" = Return wlt →
     loadWallet Scenario.engine ["/home/armory_B.wallet"] [] "/home/armory_B.wallet"
       Scenario.early = (Return tt, Scenario.early)) ∧
  (∀ e, readWalletFile Scenario.engine "/home/armory_B.wallet" = Raise e →
     loadWallet Scenario.engine ["/home/armory_B.wallet"] [] "/home/armory_B.wallet"
       Scenario.early
     = (Raise e, set_stdout (stdout Scenario.early
                             ++ loadFailureWarning "/home/armory_B.wallet") Scenario.early)).
Proof.
  apply (X5_excluded_file_is_read_first Scenario.engine ["/home/armory_B.wallet"] []
           "/home/armory_B.wallet" Scenario.early).
  apply list_elem_of_singleton. reflexivity.
Defined.

(** * Further properties of the combined ledger *)

Lemma createCombinedLedger_walletMap eng (arg : option (list string)) (withZeroConf : bool) :
  preserves walletMap (createCombinedLedger eng arg withZeroConf).
Proof.
  unfold createCombinedLedger, updateLedgerDisplay.
  apply preserves_bind; [apply preserves_read|]. intros ids.
  apply preserves_bind; [frame|]. intros _.
  apply preserves_bind.
  { destruct ids; [|apply preserves_raise].
    apply preserves_for_each. intros wltID _.
    apply extendCombinedLedger_preserves; intros v []; reflexivity. }
  intros _. frame.
Qed.

Lemma createCombinedLedger_walletIndices eng (arg : option (list string)) (withZeroConf : bool) :
  preserves walletIndices (createCombinedLedger eng arg withZeroConf).
Proof.
  unfold createCombinedLedger, updateLedgerDisplay.
  apply preserves_bind; [apply preserves_read|]. intros ids.
  apply preserves_bind; [frame|]. intros _.
  apply preserves_bind.
  { destruct ids; [|apply preserves_raise].
    apply preserves_for_each. intros wltID _.
    apply extendCombinedLedger_preserves; intros v []; reflexivity. }
  intros _. frame.
Qed.

Lemma updateLedgerDisplay_walletLedgers eng :
  preserves walletLedgers (updateLedgerDisplay eng).
Proof. unfold updateLedgerDisplay. frame. Qed.

(** A build leaves the wallets registered. *)
Lemma createCombinedLedger_registered eng (arg : option (list string)) (withZeroConf : bool)
    (self : ArmoryMainWindow) (wltIDList : list string) :
  selectWalletIDs eng self arg = Return (Some wltIDList) →
  Forall (registered self) wltIDList →
  ∀ wltID, registered self wltID →
           registered (createCombinedLedger eng arg withZeroConf self).2 wltID.
Proof.
  intros Hsel Hreg wltID [Hw (i & Hi & Hlt)].
  unfold registered.
  rewrite createCombinedLedger_walletMap, createCombinedLedger_walletIndices.
  split; [exact Hw|]. exists i. split; [exact Hi|].
  destruct (createCombinedLedger_run eng arg withZeroConf self wltIDList Hsel Hreg)
    as (ledgers & Hlen & ->).
  assert (Hl : walletLedgers (try_except (updateLedgerDisplay eng) swallowAttributeError
                                (built self wltIDList ledgers)).2
               = walletLedgers (built self wltIDList ledgers)).
  { apply preserves_try_except; [apply updateLedgerDisplay_walletLedgers|].
    intros e. unfold swallowAttributeError. frame. }
  rewrite Hl. unfold built. destruct self; simpl in *. lia.
Qed.

Lemma collectedPairs_walletMap (self self' : ArmoryMainWindow) (wltIDList : list string) :
  walletMap self' = walletMap self →
  collectedPairs self' wltIDList = collectedPairs self wltIDList.
Proof. intros Hmap. unfold collectedPairs, walletPairs. by rewrite Hmap. Qed.

Lemma elem_of_collectedPairs (self : ArmoryMainWindow) (wltIDList : list string)
    (wltID : string) (le : LedgerEntry) :
  (wltID, le) ∈ collectedPairs self wltIDList ↔
  wltID ∈ wltIDList ∧ ∃ wlt, walletMap self !! wltID = Some wlt ∧ le ∈ getTxLedger wlt.
Proof.
  unfold collectedPairs. rewrite list_elem_of_In, in_flat_map. split.
  - intros (id & Hid & Hin). apply list_elem_of_In in Hid, Hin.
    unfold walletPairs in Hin. destruct (walletMap self !! id) as [wlt|] eqn:Hw.
    + apply list_elem_of_fmap in Hin as (le' & [= -> ->] & Hle). eauto.
    + by apply elem_of_nil in Hin.
  - intros (Hid & wlt & Hw & Hle). exists wltID. split; [by apply list_elem_of_In|].
    apply list_elem_of_In. unfold walletPairs. rewrite Hw.
    apply list_elem_of_fmap. eauto.
Qed.

(** X6: after a build the combined ledger holds the collected pairs, each
    as often as it was collected: a pair is a row exactly when its wallet
    is in the list that was used and its entry is in the ledger of that
    wallet. *)
Theorem X6_rows_are_the_entries_of_the_wallets eng (arg : option (list string))
    (withZeroConf : bool) (self : ArmoryMainWindow) (wltIDList : list string) :
  selectWalletIDs eng self arg = Return (Some wltIDList) →
  Forall (registered self) wltIDList →
  let ledger := combinedLedger (createCombinedLedger eng arg withZeroConf self).2 in
  ledger ≡ₚ collectedPairs self wltIDList ∧
  ∀ wltID le, (wltID, le) ∈ ledger ↔
              wltID ∈ wltIDList ∧
              ∃ wlt, walletMap self !! wltID = Some wlt ∧ le ∈ getTxLedger wlt.
Proof.
  intros Hsel Hreg.
  destruct (createCombinedLedger_result eng arg withZeroConf self wltIDList Hsel Hreg)
    as (Hledger & _).
  simpl. rewrite Hledger. split; [apply list_sort_reverse_perm|].
  intros wltID le. rewrite (list_sort_reverse_perm combinedLedger_lt).
  apply elem_of_collectedPairs.
Qed.

Lemma X6_rows_are_the_entries_of_the_wallets_witness :
  let ledger := combinedLedger
                  (createCombinedLedger Scenario.engine None true Scenario.transfer).2 in
  ledger ≡ₚ collectedPairs Scenario.transfer ["B"; "A"] ∧
  ∀ wltID le, (wltID, le) ∈ ledger ↔
              wltID ∈ ["B"; "A"] ∧
              ∃ wlt, walletMap Scenario.transfer !! wltID = Some wlt ∧ le ∈ getTxLedger wlt.
Proof.
  apply (X6_rows_are_the_entries_of_the_wallets Scenario.engine None true Scenario.transfer
           ["B"; "A"]).
  - vm_compute. reflexivity.
  - registered_wallets.
Defined.

(** X7: a wallet identifier that is not registered (unknown to [walletMap]
    or to [walletIndices], or with an index that has no slot in
    [walletLedgers]) ends the build with [KeyError] or [IndexError].  The
    combined ledger is left with the pairs of the wallets before it, not
    sorted, and [ledgerSize] keeps the value it had before the call. *)
Theorem X7_unregistered_wallet_ends_the_build eng (arg : option (list string))
    (withZeroConf : bool) (self : ArmoryMainWindow)
    (known rest : list string) (bad : string) :
  selectWalletIDs eng self arg = Return (Some (known ++ bad :: rest)) →
  Forall (registered self) known →
  ¬ registered self bad →
  let r := createCombinedLedger eng arg withZeroConf self in
  r.1 = Raise (buildFailure self bad) ∧
  combinedLedger r.2 = collectedPairs self known ∧
  ledgerSize r.2 = ledgerSize self.
Proof.
  intros Hsel Hreg Hbad.
  assert (Hreg0 : Forall (registered (set_combinedLedger [] self)) known).
  { eapply Forall_impl; [exact Hreg|]. intros id Hid. destruct self; exact Hid. }
  destruct (for_each_extendCombinedLedger known _ Hreg0) as (ledgers & Hlen & Hrun).
  set (s1 := set_combinedLedger _ (set_walletLedgers ledgers _)) in Hrun.
  assert (Hbad1 : ¬ registered s1 bad).
  { intros [Hw (i & Hi & Hlt)]. apply Hbad. subst s1. destruct self; simpl in *.
    split; [exact Hw|]. exists i. split; [exact Hi|]. simpl. lia. }
  assert (Hend : createCombinedLedger eng arg withZeroConf self
                 = (Raise (buildFailure s1 bad), s1)).
  { unfold createCombinedLedger. rewrite bind_run. unfold lift at 1. rewrite Hsel.
    rewrite bind_run. unfold modify at 1. rewrite bind_run.
    rewrite for_each_app, Hrun. cbn [for_each]. rewrite bind_run.
    rewrite (extendCombinedLedger_unregistered s1 bad Hbad1). reflexivity. }
  cbv zeta. rewrite Hend. subst s1.
  unfold buildFailure, collectedPairs, walletPairs. destruct self; simpl.
  split_and!; reflexivity.
Qed.

Lemma X7_unregistered_wallet_ends_the_build_witness :
  let r := createCombinedLedger Scenario.engine (Some (["A"] ++ "C" :: ["B"])) true
             Scenario.window in
  r.1 = Raise (buildFailure Scenario.window "C") ∧
  combinedLedger r.2 = collectedPairs Scenario.window ["A"] ∧
  ledgerSize r.2 = ledgerSize Scenario.window.
Proof.
  apply (X7_unregistered_wallet_ends_the_build Scenario.engine
           (Some (["A"] ++ "C" :: ["B"])) true Scenario.window ["A"] ["B"] "C").
  - reflexivity.
  - registered_wallets.
  - intros [[wlt Hwlt] _]. vm_compute in Hwlt. discriminate.
Defined.

(** X8: a second build with the same wallet list gives the same combined
    ledger and the same [ledgerSize] as the first. *)
Theorem X8_rebuild_gives_the_same_ledger eng (arg : option (list string))
    (withZeroConf withZeroConf' : bool) (self : ArmoryMainWindow) (wltIDList : list string) :
  selectWalletIDs eng self arg = Return (Some wltIDList) →
  Forall (registered self) wltIDList →
  selectWalletIDs eng (createCombinedLedger eng arg withZeroConf self).2 arg
    = Return (Some wltIDList) →
  let first := (createCombinedLedger eng arg withZeroConf self).2 in
  let second := (createCombinedLedger eng arg withZeroConf' first).2 in
  combinedLedger second = combinedLedger first ∧ ledgerSize second = ledgerSize first.
Proof.
  intros Hsel Hreg Hsel' first second.
  assert (Hreg' : Forall (registered first) wltIDList).
  { rewrite Forall_forall in Hreg. apply Forall_forall. intros wltID Hin.
    apply (createCombinedLedger_registered eng arg withZeroConf self wltIDList Hsel);
      [by apply Forall_forall|by apply Hreg]. }
  destruct (createCombinedLedger_result eng arg withZeroConf self wltIDList Hsel Hreg)
    as (Hledger & Hsize & _).
  destruct (createCombinedLedger_result eng arg withZeroConf' first wltIDList Hsel' Hreg')
    as (Hledger' & Hsize' & _).
  fold first in Hledger, Hsize. fold second in Hledger', Hsize'.
  assert (Hsame : combinedLedger second = combinedLedger first).
  { rewrite Hledger', Hledger. f_equal. apply collectedPairs_walletMap.
    apply createCombinedLedger_walletMap. }
  split; [exact Hsame|]. by rewrite Hsize', Hsize, Hsame.
Qed.

Lemma X8_rebuild_gives_the_same_ledger_witness :
  let first := (createCombinedLedger Scenario.engine None true Scenario.window).2 in
  let second := (createCombinedLedger Scenario.engine None true first).2 in
  combinedLedger second = combinedLedger first ∧ ledgerSize second = ledgerSize first.
Proof.
  apply (X8_rebuild_gives_the_same_ledger Scenario.engine None true true Scenario.window
           ["A"; "B"]).
  - vm_compute. reflexivity.
  - registered_wallets.
  - vm_compute. reflexivity.
Defined.

Lemma sort_insert_last {A : Type} (lt : A → A → bool) (x : A) (l : list A) :
  Forall (λ y, lt x y = false) l → sort_insert lt x l = l ++ [x].
Proof.
  induction l as [|y l IH]; simpl; intros Hl; [reflexivity|].
  apply Forall_cons in Hl as [Hy Hl]. rewrite Hy, (IH Hl). reflexivity.
Qed.

Lemma list_sort_loop_sorted {A : Type} (lt : A → A → bool) (l sorted : list A) :
  ascending lt (sorted ++ l) →
  fold_left (λ sorted x, sort_insert lt x sorted) l sorted = sorted ++ l.
Proof.
  revert sorted. induction l as [|x l IH]; intros sorted Hs; simpl.
  - by rewrite app_nil_r.
  - assert (Hx : Forall (λ y, lt x y = false) sorted).
    { apply StronglySorted_app in Hs as (Hbetween & _ & _).
      apply Forall_forall. intros y Hy. apply (Hbetween y x Hy). left. }
    rewrite (sort_insert_last lt x sorted Hx).
    rewrite IH; rewrite <- app_assoc; [reflexivity|exact Hs].
Qed.

Lemma descending_rev {A : Type} (lt : A → A → bool) (l : list A) :
  descending lt l → ascending lt (rev l).
Proof. apply (ascending_rev (λ a b, lt b a)). Qed.

Lemma list_sort_reverse_sorted {A : Type} (lt : A → A → bool) (l : list A) :
  descending lt l → list_sort_reverse lt l = l.
Proof.
  intros Hl. unfold list_sort_reverse, list_sort.
  rewrite list_sort_loop_sorted by (simpl; by apply descending_rev).
  simpl. apply rev_involutive.
Qed.

(** X9: when the collected pairs are already newest first, the build keeps
    them as they are: the sort moves nothing. *)
Theorem X9_sorted_pairs_stay_in_place eng (arg : option (list string)) (withZeroConf : bool)
    (self : ArmoryMainWindow) (wltIDList : list string) :
  selectWalletIDs eng self arg = Return (Some wltIDList) →
  Forall (registered self) wltIDList →
  descending combinedLedger_lt (collectedPairs self wltIDList) →
  combinedLedger (createCombinedLedger eng arg withZeroConf self).2
  = collectedPairs self wltIDList.
Proof.
  intros Hsel Hreg Hsorted.
  destruct (createCombinedLedger_result eng arg withZeroConf self wltIDList Hsel Hreg)
    as (-> & _).
  by apply list_sort_reverse_sorted.
Qed.

Lemma X9_sorted_pairs_stay_in_place_witness :
  combinedLedger (createCombinedLedger Scenario.engine None true Scenario.transfer).2
  = collectedPairs Scenario.transfer ["B"; "A"].
Proof.
  apply (X9_sorted_pairs_stay_in_place Scenario.engine None true Scenario.transfer ["B"; "A"]).
  - vm_compute. reflexivity.
  - registered_wallets.
  - repeat constructor.
Defined.

Lemma py_filter_registered eng (self : ArmoryMainWindow) (whichWay : bool) (l : list string) :
  Forall (λ wltID, is_Some (walletMap self !! wltID)) l →
  py_filter (λ x, filt eng self x whichWay) l
  = Return (List.filter
              (λ wltID, if whichWay then negb (walletTypeIs eng self WatchOnly wltID)
                        else walletTypeIs eng self WatchOnly wltID) l).
Proof.
  induction l as [|wltID l IH]; intros Hl; simpl; [reflexivity|].
  apply Forall_cons in Hl as [[wlt Hwlt] Hl]. rewrite (IH Hl).
  unfold filt, walletTypeIs, getitem, mbind, outcome_bind. rewrite Hwlt.
  destruct whichWay; destruct (WLTTYPES_eqb _ _); reflexivity.
Qed.

(** X10: without a list the build takes its wallets by the radio buttons:
    "All wallets" gives every registered wallet; otherwise "My wallets"
    gives those whose type is not watching-only; otherwise "Watching-only"
    gives those whose type is watching-only; with none checked there is no
    list.  The last two lists split the registered wallets between them. *)
Theorem X10_wallets_chosen_by_radio_buttons eng (self : ArmoryMainWindow)
    (rdoAll rdoMy rdoWatch : QRadioButton) :
  rdoAllWallets self = Some rdoAll →
  rdoMyWallets self = Some rdoMy →
  rdoWatchOnly self = Some rdoWatch →
  Forall (λ wltID, is_Some (walletMap self !! wltID)) (walletIDList self) →
  let mine := List.filter (λ wltID, negb (walletTypeIs eng self WatchOnly wltID))
                          (walletIDList self) in
  let watched := List.filter (walletTypeIs eng self WatchOnly) (walletIDList self) in
  selectWalletIDs eng self None
  = Return (if isChecked rdoAll then Some (walletIDList self)
            else if isChecked rdoMy then Some mine
            else if isChecked rdoWatch then Some watched
            else None) ∧
  mine ++ watched ≡ₚ walletIDList self.
Proof.
  intros Hall Hmy Hwatch Hreg. simpl. split.
  - unfold selectWalletIDs, getattr. rewrite Hall, Hmy, Hwatch.
    unfold mbind, outcome_bind.
    destruct (isChecked rdoAll); [reflexivity|].
    destruct (isChecked rdoMy).
    { by rewrite (py_filter_registered eng self true _ Hreg). }
    destruct (isChecked rdoWatch); [|reflexivity].
    by rewrite (py_filter_registered eng self false _ Hreg).
  - clear. induction (walletIDList self) as [|wltID l IH]; simpl; [reflexivity|].
    destruct (walletTypeIs eng self WatchOnly wltID); simpl.
    + rewrite <- Permutation_middle. by constructor.
    + by constructor.
Qed.

Lemma X10_wallets_chosen_by_radio_buttons_witness :
  let mine := List.filter (λ wltID, negb (walletTypeIs Scenario.engine Scenario.window
                                            WatchOnly wltID))
                          (walletIDList Scenario.window) in
  let watched := List.filter (walletTypeIs Scenario.engine Scenario.window WatchOnly)
                             (walletIDList Scenario.window) in
  selectWalletIDs Scenario.engine Scenario.window None
  = Return (if isChecked {| isChecked := true |} then Some (walletIDList Scenario.window)
            else if isChecked {| isChecked := false |} then Some mine
            else if isChecked {| isChecked := false |} then Some watched
            else None) ∧
  mine ++ watched ≡ₚ walletIDList Scenario.window.
Proof.
  apply (X10_wallets_chosen_by_radio_buttons Scenario.engine Scenario.window).
  - reflexivity.
  - reflexivity.
  - reflexivity.
  - repeat (constructor; [eexists; vm_compute; reflexivity|]). constructor.
Defined.

(** The table depends on the registry, the tracked height, the chain
    engine, the arrival times and the offline marks only. *)
Lemma convertLedgerRow_ext eng (s1 s2 : ArmoryMainWindow) (x : string * LedgerEntry) :
  walletMap s1 = walletMap s2 → latestBlockNum s1 = latestBlockNum s2 →
  TheBDM s1 = TheBDM s2 → NetworkingFactory s1 = NetworkingFactory s2 →
  walletOfflines s1 = walletOfflines s2 →
  convertLedgerRow eng s1 x = convertLedgerRow eng s2 x.
Proof.
  intros Hmap Htip Hbdm Hnet Hoff. destruct x as [wltID le]. unfold convertLedgerRow.
  rewrite Hmap, Htip, Hbdm, Hnet, Hoff. reflexivity.
Qed.

Lemma convertLedgerLoop_ext eng (s1 s2 : ArmoryMainWindow) (ledger : list (string * LedgerEntry))
    (table2D : list Row) :
  walletMap s1 = walletMap s2 → latestBlockNum s1 = latestBlockNum s2 →
  TheBDM s1 = TheBDM s2 → NetworkingFactory s1 = NetworkingFactory s2 →
  walletOfflines s1 = walletOfflines s2 →
  convertLedgerLoop eng s1 ledger table2D = convertLedgerLoop eng s2 ledger table2D.
Proof.
  intros Hmap Htip Hbdm Hnet Hoff. revert table2D.
  induction ledger as [|x ledger IH]; intros table2D; simpl; [reflexivity|].
  rewrite (convertLedgerRow_ext eng s1 s2 x Hmap Htip Hbdm Hnet Hoff).
  unfold mbind, outcome_bind. destruct (convertLedgerRow eng s2 x); [apply IH|reflexivity].
Qed.

(** X11: when the model, the view and the two labels exist and the table
    can be made, a build returns normally, the two labels show the totals of
    the new combined ledger (the unconfirmed one in red exactly when that
    total is positive), and the table, the model and the view hold the rows
    of the new combined ledger. *)
Theorem X11_display_follows_the_ledger eng (arg : option (list string)) (withZeroConf : bool)
    (self : ArmoryMainWindow) (wltIDList : list string) (table : list Row)
    (model : LedgerDispModelSimple) (view : QTableView) (lblU lblT : QLabel) :
  selectWalletIDs eng self arg = Return (Some wltIDList) →
  Forall (registered self) wltIDList →
  ledgerModel self = Some model → ledgerView self = Some view →
  lblUnconfirmed self = Some lblU → lblTotalFunds self = Some lblT →
  convertLedgerToTable eng self
    (list_sort_reverse combinedLedger_lt (collectedPairs self wltIDList)) = Return table →
  let r := createCombinedLedger eng arg withZeroConf self in
  let funds := sumFunds (latestBlockNum self) (combinedLedger r.2) in
  r.1 = Return tt ∧
  lblUnconfirmed r.2 = Some (unconfirmedLabel eng funds.2) ∧
  lblTotalFunds r.2 = Some (totalFundsLabel eng funds.1) ∧
  ledgerTable r.2 = table ∧
  ledgerModel r.2 = Some {| modelTable := table |} ∧
  ledgerView r.2 = Some {| viewModel := Some {| modelTable := table |} |}.
Proof.
  intros Hsel Hreg Hmodel Hview HlblU HlblT Htable.
  destruct (createCombinedLedger_run eng arg withZeroConf self wltIDList Hsel Hreg)
    as (ledgers & _ & Hrun).
  cbv zeta. rewrite Hrun. clear Hrun Hsel Hreg.
  set (sorted := list_sort_reverse combinedLedger_lt (collectedPairs self wltIDList)) in *.
  unfold built. fold sorted. clearbody sorted.
  unfold try_except, updateLedgerDisplay, mbind, M_bind, gets, lift, modify, getattr.
  destruct self; simpl in *. subst. simpl.
  destruct (sumFunds latestBlockNum0 sorted) as [totFund unconfFund] eqn:Hfunds. simpl.
  unfold convertLedgerToTable in *.
  erewrite convertLedgerLoop_ext; [rewrite Htable| | | | |]; try reflexivity.
  simpl. rewrite Hfunds. split_and!; reflexivity.
Qed.

Lemma X11_display_follows_the_ledger_witness :
  ∃ table,
    let r := createCombinedLedger Scenario.engine None true Scenario.window in
    let funds := sumFunds (latestBlockNum Scenario.window) (combinedLedger r.2) in
    r.1 = Return tt ∧
    lblUnconfirmed r.2 = Some (unconfirmedLabel Scenario.engine funds.2) ∧
    lblTotalFunds r.2 = Some (totalFundsLabel Scenario.engine funds.1) ∧
    ledgerTable r.2 = table ∧
    ledgerModel r.2 = Some {| modelTable := table |} ∧
    ledgerView r.2 = Some {| viewModel := Some {| modelTable := table |} |}.
Proof.
  eexists.
  eapply (X11_display_follows_the_ledger Scenario.engine None true Scenario.window
            ["A"; "B"]).
  - vm_compute. reflexivity.
  - registered_wallets.
  - reflexivity.
  - reflexivity.
  - reflexivity.
  - reflexivity.
  - vm_compute. reflexivity.
Defined.

(** * Further properties of the ledger table *)

Lemma convertLedgerRow_convertible eng (self : ArmoryMainWindow) (x : string * LedgerEntry) :
  convertible self x → ∃ row, convertLedgerRow eng self x = Return row.
Proof.
  destruct x as [wltID le]. intros [[wlt Hwlt] Htime]. simpl in *.
  unfold convertLedgerRow, mbind, outcome_bind, getitem. rewrite Hwlt.
  fold (shownConfirmations self le).
  destruct (Z.gtb_spec (shownConfirmations self le) 0) as [Hpos|Hle]; [eauto|].
  destruct (Htime Hle) as [t Ht]. rewrite Ht. eauto.
Qed.

Lemma convertLedgerRow_not_convertible eng (self : ArmoryMainWindow)
    (x : string * LedgerEntry) :
  ¬ convertible self x → convertLedgerRow eng self x = Raise (KeyError (missingKey self x)).
Proof.
  destruct x as [wltID le]. intros Hnot. unfold convertible, missingKey in *. simpl in *.
  unfold convertLedgerRow, mbind, outcome_bind, getitem.
  destruct (walletMap self !! wltID) as [wlt|] eqn:Hwlt; [|reflexivity].
  fold (shownConfirmations self le).
  destruct (Z.gtb_spec (shownConfirmations self le) 0) as [Hpos|Hle].
  - exfalso. apply Hnot. split; [eauto|]. lia.
  - destruct (zeroConfTxTime _ !! _) eqn:Ht; [|reflexivity].
    exfalso. apply Hnot. split; eauto.
Qed.

Lemma convertLedgerRow_returns eng (self : ArmoryMainWindow) (x : string * LedgerEntry)
    (row : Row) :
  convertLedgerRow eng self x = Return row → convertible self x.
Proof.
  destruct x as [wltID le]. unfold convertible. simpl.
  unfold convertLedgerRow, mbind, outcome_bind, getitem.
  destruct (walletMap self !! wltID) as [wlt|]; [|discriminate].
  fold (shownConfirmations self le).
  destruct (Z.gtb_spec (shownConfirmations self le) 0) as [Hpos|Hle].
  - intros _. split; [eauto|]. lia.
  - destruct (zeroConfTxTime _ !! _); [|discriminate]. intros _. split; eauto.
Qed.

Lemma convertLedgerLoop_convertible eng (self : ArmoryMainWindow)
    (ledger : list (string * LedgerEntry)) (table2D : list Row) :
  Forall (convertible self) ledger →
  ∃ rows, convertLedgerLoop eng self ledger table2D = Return (table2D ++ rows) ∧
          length rows = length ledger.
Proof.
  revert table2D. induction ledger as [|x ledger IH]; intros table2D Hl; simpl.
  - exists []. by rewrite app_nil_r.
  - apply Forall_cons in Hl as [Hx Hl].
    destruct (convertLedgerRow_convertible eng self x Hx) as [row Hrow].
    rewrite Hrow. unfold mbind, outcome_bind.
    destruct (IH (table2D ++ [row]) Hl) as (rows & Hrows & Hlen).
    exists (row :: rows). rewrite Hrows, <- app_assoc. simpl. by rewrite Hlen.
Qed.

(** X12: [convertLedgerToTable] returns a table exactly when every entry
    of the ledger belongs to a registered wallet and every entry that is
    shown with no confirmation has an arrival time; the table then has one
    row for each entry. *)
Theorem X12_table_needs_wallets_and_arrival_times eng (self : ArmoryMainWindow)
    (ledger : list (string * LedgerEntry)) :
  (Forall (convertible self) ledger →
   ∃ table, convertLedgerToTable eng self ledger = Return table ∧
            length table = length ledger) ∧
  (∀ table, convertLedgerToTable eng self ledger = Return table →
            Forall (convertible self) ledger ∧ length table = length ledger).
Proof.
  split.
  - intros Hl. destruct (convertLedgerLoop_convertible eng self ledger [] Hl)
      as (rows & Hrows & Hlen). exists rows. by split.
  - intros table Htable. apply convertLedgerLoop_rows in Htable as (rows & -> & Hrows).
    simpl. split; [|symmetry; by eapply Forall2_length].
    clear -Hrows. induction Hrows as [|x row ledger rows Hrow _ IH]; constructor; [|exact IH].
    by apply (convertLedgerRow_returns eng self x row).
Qed.

(** X13: the table stops at the first entry that cannot be turned into a
    row, with a [KeyError] for what is missing: the wallet identifier when
    the wallet is not registered, the transaction hash when the entry is
    shown with no confirmation and has no arrival time. *)
Theorem X13_table_stops_at_missing_key eng (self : ArmoryMainWindow)
    (done rest : list (string * LedgerEntry)) (x : string * LedgerEntry) :
  Forall (convertible self) done →
  ¬ convertible self x →
  convertLedgerToTable eng self (done ++ x :: rest) = Raise (KeyError (missingKey self x)).
Proof.
  intros Hdone Hnot. unfold convertLedgerToTable. generalize (@nil Row).
  induction done as [|y done IH]; intros table2D; simpl.
  - by rewrite (convertLedgerRow_not_convertible eng self x Hnot).
  - apply Forall_cons in Hdone as [Hy Hdone].
    destruct (convertLedgerRow_convertible eng self y Hy) as [row ->].
    unfold mbind, outcome_bind. by apply IH.
Qed.

Lemma X13_table_stops_at_missing_key_witness :
  convertLedgerToTable Scenario.engine Scenario.window
    ([("A", Scenario.entryA)] ++ ("A", Sample.aboveTip) :: [("B", Scenario.entryZC)])
  = Raise (KeyError (missingKey Scenario.window ("A", Sample.aboveTip))).
Proof.
  apply (X13_table_stops_at_missing_key Scenario.engine Scenario.window
           [("A", Scenario.entryA)] [("B", Scenario.entryZC)] ("A", Sample.aboveTip)).
  - constructor; [|constructor]. split.
    + eexists. vm_compute. reflexivity.
    + intros Hle. vm_compute in Hle. exfalso. apply Hle. reflexivity.
  - intros [_ Htime]. destruct Htime as [t Ht].
    + vm_compute. discriminate.
    + vm_compute in Ht. discriminate.
Defined.

(** X14: in every row of the table the value and the amount are those of
    the entry, the name is the label of the entry's wallet, the comment is
    the wallet's comment for the transaction hash or the empty string when
    there is none, and the last flag is set exactly for a watching-only
    wallet that is not marked offline. *)
Theorem X14_columns_of_a_row eng (self : ArmoryMainWindow)
    (ledger : list (string * LedgerEntry)) (table : list Row) :
  convertLedgerToTable eng self ledger = Return table →
  Forall2 (λ x row,
             ∃ wlt, walletMap self !! x.1 = Some wlt ∧
                    rowTxDir row = getValue x.2 ∧
                    rowAmount row = coin2str eng (getValue x.2) ∧
                    rowWltName row = labelName wlt ∧
                    rowComment row = default EmptyString (commentsMap wlt !! getTxHash x.2) ∧
                    rowIsMine row = watchingOnly wlt &&
                                    negb (bool_decide (x.1 ∈ walletOfflines self)))
          ledger table.
Proof.
  intros Htable. apply convertLedgerLoop_rows in Htable as (rows & -> & Hrows). simpl.
  eapply Forall2_impl; [exact Hrows|]. simpl. intros [wltID le] row.
  unfold convertLedgerRow, mbind, outcome_bind, getitem. simpl.
  destruct (walletMap self !! wltID) as [wlt|]; [|discriminate].
  destruct (_ >? 0).
  - intros [= <-]. exists wlt. simpl.
    split_and!; try reflexivity; by destruct (commentsMap wlt !! getTxHash le).
  - destruct (zeroConfTxTime _ !! _); [|discriminate].
    intros [= <-]. exists wlt. simpl.
    split_and!; try reflexivity; by destruct (commentsMap wlt !! getTxHash le).
Qed.

Lemma X14_columns_of_a_row_witness :
  ∃ table,
    convertLedgerToTable Scenario.engine Scenario.window
      [("A", Scenario.entryA); ("B", Scenario.entryZC)] = Return table ∧
    Forall2 (λ x row,
               ∃ wlt, walletMap Scenario.window !! x.1 = Some wlt ∧
                      rowTxDir row = getValue x.2 ∧
                      rowAmount row = coin2str Scenario.engine (getValue x.2) ∧
                      rowWltName row = labelName wlt ∧
                      rowComment row
                        = default EmptyString (commentsMap wlt !! getTxHash x.2) ∧
                      rowIsMine row = watchingOnly wlt &&
                                      negb (bool_decide (x.1 ∈ walletOfflines Scenario.window)))
            [("A", Scenario.entryA); ("B", Scenario.entryZC)] table.
Proof.
  eexists. split.
  - vm_compute. reflexivity.
  - apply (X14_columns_of_a_row Scenario.engine Scenario.window). vm_compute. reflexivity.
Defined.

(** * Further properties of the zero-conf ledger and of the heartbeat *)

Lemma dict_getitem_item {V : Type} (d : list (string * V)) (k : string) (v : V) :
  NoDup d.*1 → (k, v) ∈ d → dict_getitem d k = Return v.
Proof.
  induction d as [|[k' v'] d IH]; intros Hnodup Hin; [by apply elem_of_nil in Hin|].
  simpl in *. apply NoDup_cons in Hnodup as [Hfresh Hnodup].
  apply elem_of_cons in Hin as [[= -> ->]|Hin].
  - by rewrite String.eqb_refl.
  - destruct (String.eqb_spec k' k) as [->|_]; [|by apply IH].
    exfalso. apply Hfresh. apply list_elem_of_fmap. by exists (k, v).
Qed.

Lemma collectZeroConf_run (zcMap : list (string * string)) (timeMap : gmap string Z)
    (items : list (string * string)) (zcTxBinList : list string) (zcTxTimeList : list Z) :
  NoDup zcMap.*1 → (∀ item, item ∈ items → item ∈ zcMap) →
  Forall (λ item, is_Some (timeMap !! item.1)) items →
  ∃ times, collectZeroConf zcMap timeMap items.*1 zcTxBinList zcTxTimeList
           = Return (zcTxBinList ++ items.*2, zcTxTimeList ++ times).
Proof.
  intros Hnodup. revert zcTxBinList zcTxTimeList.
  induction items as [|[zchash tx] items IH]; intros bins times0 Hsub Htimes.
  - exists []. simpl. by rewrite !app_nil_r.
  - apply Forall_cons in Htimes as [[t Ht] Htimes]. simpl in Ht.
    rewrite !fmap_cons. cbn [collectZeroConf fst snd].
    rewrite (dict_getitem_item zcMap zchash tx Hnodup) by (apply Hsub; left).
    unfold getitem, mbind, outcome_bind. rewrite Ht.
    destruct (IH (bins ++ [tx]) (times0 ++ [t])) as (times & ->); [|done|].
    { intros item Hin. apply Hsub. by right. }
    exists (t :: times). by rewrite <- !app_assoc.
Qed.

Lemma collectZeroConf_stops (zcMap : list (string * string)) (timeMap : gmap string Z)
    (before after : list (string * string)) (zchash tx : string)
    (zcTxBinList : list string) (zcTxTimeList : list Z) :
  NoDup zcMap.*1 → (∀ item, item ∈ before ++ [(zchash, tx)] → item ∈ zcMap) →
  Forall (λ item, is_Some (timeMap !! item.1)) before →
  timeMap !! zchash = None →
  collectZeroConf zcMap timeMap (before ++ (zchash, tx) :: after).*1 zcTxBinList zcTxTimeList
  = Raise (KeyError zchash).
Proof.
  intros Hnodup. revert zcTxBinList zcTxTimeList.
  induction before as [|[h0 tx0] before IH]; intros bins times0 Hsub Htimes Hnone.
  - rewrite app_nil_l, fmap_cons. cbn [collectZeroConf fst].
    rewrite (dict_getitem_item zcMap zchash tx Hnodup) by (apply Hsub; left).
    unfold getitem, mbind, outcome_bind. by rewrite Hnone.
  - apply Forall_cons in Htimes as [[t Ht] Htimes]. simpl in Ht.
    rewrite <- app_comm_cons, fmap_cons. cbn [collectZeroConf fst].
    rewrite (dict_getitem_item zcMap h0 tx0 Hnodup) by (apply Hsub; left).
    unfold getitem, mbind, outcome_bind. rewrite Ht.
    apply IH; [|done|done]. intros item Hin. apply Hsub. by right.
Qed.

(** X15: the hashes of [zeroConfTx] being distinct, as the keys of a dict
    are, [createZeroConfLedger] returns what the wallet's query gives for
    the serialized transactions, all of them, in the order in which the
    dict gives its keys, when every one of them has an arrival time.  When
    one has none, the call raises [KeyError] for the first such hash in that
    order. *)
Theorem X15_zero_conf_ledger (self : ArmoryMainWindow) (wlt : PyBtcWallet) :
  NoDup (zeroConfTx (NetworkingFactory self)).*1 →
  let zcMap := zeroConfTx (NetworkingFactory self) in
  let timeMap := zeroConfTxTime (NetworkingFactory self) in
  (Forall (λ item, is_Some (timeMap !! item.1)) zcMap →
   createZeroConfLedger self wlt
   = Return (getLedgerEntriesForZeroConfTxList wlt zcMap.*2)) ∧
  (∀ before zchash tx after, zcMap = before ++ (zchash, tx) :: after →
     Forall (λ item, is_Some (timeMap !! item.1)) before →
     timeMap !! zchash = None →
     createZeroConfLedger self wlt = Raise (KeyError zchash)).
Proof.
  intros Hnodup. cbv zeta. unfold createZeroConfLedger. split.
  - intros Htimes.
    destruct (collectZeroConf_run (zeroConfTx (NetworkingFactory self))
                (zeroConfTxTime (NetworkingFactory self))
                (zeroConfTx (NetworkingFactory self)) [] [] Hnodup) as (times & ->);
      [done|done|reflexivity].
  - intros before zchash tx after Hsplit Htimes Hnone.
    rewrite Hsplit at 2.
    rewrite (collectZeroConf_stops (zeroConfTx (NetworkingFactory self))
               (zeroConfTxTime (NetworkingFactory self)) before after zchash tx [] []);
      try done.
    intros item Hin. rewrite Hsplit. apply elem_of_app in Hin as [Hin|Hin].
    + apply elem_of_app. by left.
    + apply elem_of_cons in Hin as [->|Hin]; [|by apply elem_of_nil in Hin].
      apply elem_of_app. right. left.
Qed.

Lemma X15_zero_conf_ledger_witness :
  createZeroConfLedger Scenario.window Scenario.walletB
  = Return (getLedgerEntriesForZeroConfTxList Scenario.walletB ["rawtx"]) ∧
  createZeroConfLedger Pending.window Scenario.walletB = Raise (KeyError "yy").
Proof.
  split.
  - destruct (X15_zero_conf_ledger Scenario.window Scenario.walletB) as (Hall & _).
    + repeat constructor. apply not_elem_of_nil.
    + apply Hall. repeat constructor. eexists. vm_compute. reflexivity.
  - destruct (X15_zero_conf_ledger Pending.window Scenario.walletB) as (_ & Hstop).
    + constructor; [|repeat constructor; apply not_elem_of_nil].
      intros Hin. apply elem_of_cons in Hin as [Heq|Hin]; [discriminate|].
      by apply elem_of_nil in Hin.
    + apply (Hstop [("zz", "rawtx")] "yy" "rawtx2" []).
      * reflexivity.
      * repeat constructor. eexists. vm_compute. reflexivity.
      * vm_compute. reflexivity.
Defined.

Lemma checkNewBlocks_uninitialized (self : ArmoryMainWindow) :
  isInitialized (TheBDM self) = false → checkNewBlocks self = (Return tt, self).
Proof.
  intros Hinit. unfold checkNewBlocks. rewrite bind_run. unfold gets at 1.
  rewrite Hinit. reflexivity.
Qed.

(** X16: while the chain engine is not initialized, a heartbeat tick does
    not read the block file: the engine and the tracked tip height are after
    the tick what they were before. *)
Theorem X16_no_poll_before_the_chain_is_loaded (extraHeartbeatFunctions : list (M unit))
    (nextBeatSec : Z) (self : ArmoryMainWindow) :
  isInitialized (TheBDM self) = false →
  Forall (preserves latestBlockNum) extraHeartbeatFunctions →
  Forall (preserves TheBDM) extraHeartbeatFunctions →
  let r := Heartbeat extraHeartbeatFunctions nextBeatSec self in
  latestBlockNum r.2 = latestBlockNum self ∧ TheBDM r.2 = TheBDM self.
Proof.
  intros Hinit Hnum Hbdm. simpl. unfold Heartbeat.
  rewrite bind_run, (checkNewBlocks_uninitialized self Hinit).
  set (rest := _ ≫= _). split.
  - apply (preserves_bind latestBlockNum updateBalances);
      [apply updateBalances_latestBlockNum|]. intros _.
    apply preserves_bind; [by apply observers_preserve|]. intros _. frame.
  - apply (preserves_bind TheBDM updateBalances); [apply updateBalances_TheBDM|]. intros _.
    apply preserves_bind; [by apply observers_preserve|]. intros _. frame.
Qed.

Lemma X16_no_poll_before_the_chain_is_loaded_witness :
  let r := Heartbeat Scenario.observers 3 Sample.notLoaded in
  latestBlockNum r.2 = latestBlockNum Sample.notLoaded ∧ TheBDM r.2 = TheBDM Sample.notLoaded.
Proof.
  apply (X16_no_poll_before_the_chain_is_loaded Scenario.observers 3 Sample.notLoaded).
  - reflexivity.
  - repeat constructor. apply createCombinedLedger_latestBlockNum.
  - repeat constructor. apply createCombinedLedger_TheBDM.
Defined.

(** * Further methods *)

Lemma firstWalletWith_Some (hasAddr : PyBtcWallet → string → bool) (addr160 : string)
    (items : list (string * PyBtcWallet)) (wltID : string) :
  firstWalletWith hasAddr addr160 items = Some wltID →
  ∃ wlt, (wltID, wlt) ∈ items ∧ hasAddr wlt addr160 = true.
Proof.
  induction items as [|[id wlt] items IH]; simpl; [discriminate|].
  destruct (hasAddr wlt addr160) eqn:Hhas.
  - intros [= <-]. exists wlt. split; [left|done].
  - intros Hrest. destruct (IH Hrest) as (wlt' & Hin & Hhas'). exists wlt'. split; [by right|done].
Qed.

Lemma firstWalletWith_None (hasAddr : PyBtcWallet → string → bool) (addr160 : string)
    (items : list (string * PyBtcWallet)) :
  firstWalletWith hasAddr addr160 items = None ↔
  ∀ wltID wlt, (wltID, wlt) ∈ items → hasAddr wlt addr160 = false.
Proof.
  induction items as [|[id wlt] items IH]; simpl.
  - split; [|done]. intros _ wltID wlt' Hin. by apply elem_of_nil in Hin.
  - destruct (hasAddr wlt addr160) eqn:Hhas.
    + split; [discriminate|]. intros Hall. rewrite (Hall id wlt) in Hhas; [done|left].
    + rewrite IH. split.
      * intros Hall wltID wlt' [[= -> ->]|Hin]%elem_of_cons; [done|by apply (Hall wltID)].
      * intros Hall wltID wlt' Hin. apply (Hall wltID). by right.
Qed.

(** X17: [getWalletForAddr160] answers with the identifier of a registered
    wallet that has the address, and with [None] exactly when no registered
    wallet has it; when one wallet alone has the address, the answer is that
    wallet, whatever the order of the dictionary. *)
Theorem X17_wallet_for_address (hasAddr : PyBtcWallet → string → bool)
    (self : ArmoryMainWindow) (addr160 : string) :
  (∀ wltID, getWalletForAddr160 hasAddr self addr160 = Some wltID →
     ∃ wlt, walletMap self !! wltID = Some wlt ∧ hasAddr wlt addr160 = true) ∧
  (getWalletForAddr160 hasAddr self addr160 = None ↔
     ∀ wltID wlt, walletMap self !! wltID = Some wlt → hasAddr wlt addr160 = false) ∧
  (∀ wltID wlt, walletMap self !! wltID = Some wlt → hasAddr wlt addr160 = true →
     (∀ other wlt', walletMap self !! other = Some wlt' → hasAddr wlt' addr160 = true →
        other = wltID) →
     getWalletForAddr160 hasAddr self addr160 = Some wltID).
Proof.
  unfold getWalletForAddr160. split_and!.
  - intros wltID Hsome. apply firstWalletWith_Some in Hsome as (wlt & Hin & Hhas).
    exists wlt. split; [by apply elem_of_map_to_list|done].
  - rewrite firstWalletWith_None. split.
    + intros Hall wltID wlt Hw. apply (Hall wltID). by apply elem_of_map_to_list.
    + intros Hall wltID wlt Hin. apply (Hall wltID). by apply elem_of_map_to_list.
  - intros wltID wlt Hw Hhas Huniq.
    destruct (firstWalletWith hasAddr addr160 (map_to_list (walletMap self)))
      as [found|] eqn:Hfound.
    + apply firstWalletWith_Some in Hfound as (wlt' & Hin & Hhas').
      apply elem_of_map_to_list in Hin. f_equal. by apply (Huniq found wlt').
    + rewrite firstWalletWith_None in Hfound.
      rewrite (Hfound wltID wlt) in Hhas; [done|by apply elem_of_map_to_list].
Qed.

(** ** loadBlockchain *)

Lemma bindS_run {A B : Type} (m : MS A) (k : A → MS B) (self : StartupWindow) :
  (m ≫= k) self =
  match m self with
  | (Return a, self') => k a self'
  | (Raise e, self') => (Raise e, self')
  end.
Proof. reflexivity. Qed.

Lemma onWindow_gets {A : Type} (f : ArmoryMainWindow → A) (self : StartupWindow) :
  onWindow (gets f) self = (Return (f (mainWindow self)), self).
Proof. destruct self; reflexivity. Qed.

Lemma onWindow_lift {A : Type} (o : outcome A) (self : StartupWindow) :
  onWindow (lift o) self = (o, self).
Proof. destruct self; reflexivity. Qed.

Lemma onWindow_modify (g : ArmoryMainWindow → ArmoryMainWindow) (self : StartupWindow) :
  onWindow (modify g) self = (Return tt, set_mainWindow (g (mainWindow self)) self).
Proof. reflexivity. Qed.

Lemma onWindow_print (line : string) (self : StartupWindow) :
  onWindow (print line) self
  = (Return tt, set_mainWindow (set_stdout (stdout (mainWindow self) ++ [line])
                                  (mainWindow self)) self).
Proof. reflexivity. Qed.

Ltac startup_simpl :=
  cbn [mainWindow set_mainWindow walletSubLedgers walletModel statusBarMessage].

(** One pass of the wallet loop of [loadBlockchain]. *)
Lemma syncWallet_run (chain : BlockchainEngine) (wltID : string) (self : StartupWindow)
    (stored wlt : PyBtcWallet) (i : nat) (balance : Z) (balances : list Z) :
  walletMap (mainWindow self) !! wltID = Some stored →
  syncWithBlockchain chain (TheBDM (mainWindow self)) stored = Return wlt →
  walletIndices (mainWindow self) !! wltID = Some i →
  getBalance wlt = Return balance →
  walletBalances (mainWindow self) = BalanceList balances →
  (i < length balances)%nat →
  syncWallet chain wltID self =
  (Return tt,
   {| mainWindow :=
        set_walletLedgers (walletLedgers (mainWindow self) ++ [getTxLedger wlt])
          (set_walletBalances (BalanceList (<[i := balance]> balances))
             (set_walletMap (<[wltID := wlt]> (walletMap (mainWindow self)))
                (set_stdout (stdout (mainWindow self) ++ ["Syncing " +:+ wltID])
                   (mainWindow self))));
      walletSubLedgers := walletSubLedgers self ++ [getAddrLedgers chain wlt];
      walletModel := walletModel self;
      statusBarMessage := statusBarMessage self |}).
Proof.
  intros Hstored Hsync Hindex Hbalance Hbalances Hlt.
  unfold syncWallet.
  rewrite bindS_run, onWindow_print. startup_simpl.
  rewrite bindS_run, onWindow_gets. startup_simpl.
  rewrite bindS_run, onWindow_lift. startup_simpl.
  cbn [walletMap set_stdout]. unfold getitem at 1. rewrite Hstored.
  rewrite bindS_run, onWindow_gets. startup_simpl.
  rewrite bindS_run, onWindow_lift. startup_simpl.
  cbn [TheBDM set_stdout]. rewrite Hsync.
  rewrite bindS_run, onWindow_modify. startup_simpl.
  rewrite bindS_run, onWindow_gets. startup_simpl.
  rewrite bindS_run, onWindow_lift. startup_simpl.
  cbn [walletIndices walletMap set_stdout set_walletMap].
  unfold getitem at 1. rewrite Hindex.
  rewrite bindS_run, onWindow_lift, Hbalance. startup_simpl.
  rewrite bindS_run, onWindow_gets. startup_simpl.
  cbn [walletBalances set_stdout set_walletMap]. rewrite Hbalances.
  rewrite bindS_run, bindS_run, onWindow_lift. startup_simpl.
  unfold list_setitem. rewrite bool_decide_true by exact Hlt.
  rewrite onWindow_modify. startup_simpl.
  rewrite bindS_run. unfold appendSubLedgers at 1. startup_simpl.
  rewrite onWindow_modify. startup_simpl.
  cbn [walletLedgers set_walletBalances set_walletMap set_stdout].
  reflexivity.
Qed.

(** The whole wallet loop, over items whose wallets can all be synced. *)
Lemma syncWallets_run (chain : BlockchainEngine) (items : list (string * PyBtcWallet))
    (self : StartupWindow) (balances : list Z) :
  NoDup items.*1 →
  walletBalances (mainWindow self) = BalanceList balances →
  (∀ wltID stored, (wltID, stored) ∈ items →
     walletMap (mainWindow self) !! wltID = Some stored ∧
     (∃ i, walletIndices (mainWindow self) !! wltID = Some i ∧ (i < length balances)%nat) ∧
     ∃ wlt balance,
       syncWithBlockchain chain (TheBDM (mainWindow self)) stored = Return wlt ∧
       getBalance wlt = Return balance) →
  ∃ self', for_eachS items (λ item, syncWallet chain item.1) self = (Return tt, self') ∧
    walletIndices (mainWindow self') = walletIndices (mainWindow self) ∧
    walletIDList (mainWindow self') = walletIDList (mainWindow self) ∧
    TheBDM (mainWindow self') = TheBDM (mainWindow self) ∧
    latestBlockNum (mainWindow self') = latestBlockNum (mainWindow self) ∧
    length (walletLedgers (mainWindow self'))
      = (length (walletLedgers (mainWindow self)) + length items)%nat ∧
    (∀ wltID, wltID ∉ items.*1 →
       walletMap (mainWindow self') !! wltID = walletMap (mainWindow self) !! wltID) ∧
    (∀ wltID stored, (wltID, stored) ∈ items →
       ∃ wlt, syncWithBlockchain chain (TheBDM (mainWindow self)) stored = Return wlt ∧
              walletMap (mainWindow self') !! wltID = Some wlt) ∧
    walletModel self' = walletModel self.
Proof.
  revert self balances. induction items as [|[wltID stored] items IH];
    intros self balances Hnodup Hbalances Hitems.
  - exists self. simpl.
    split_and!; try done; try lia; intros wltID stored' Hin; by apply elem_of_nil in Hin.
  - destruct (Hitems wltID stored) as (Hstored & (i & Hindex & Hlt) & wlt & balance & Hsync & Hbal);
      [left|].
    simpl in Hnodup. apply NoDup_cons in Hnodup as [Hfresh Hnodup].
    pose proof (syncWallet_run chain wltID self stored wlt i balance balances
                  Hstored Hsync Hindex Hbal Hbalances Hlt) as Hrun.
    set (self1 := {| mainWindow := _ |}) in Hrun.
    assert (Hw1 : walletMap (mainWindow self1) = <[wltID := wlt]> (walletMap (mainWindow self)) ∧
                  walletIndices (mainWindow self1) = walletIndices (mainWindow self) ∧
                  walletIDList (mainWindow self1) = walletIDList (mainWindow self) ∧
                  TheBDM (mainWindow self1) = TheBDM (mainWindow self) ∧
                  latestBlockNum (mainWindow self1) = latestBlockNum (mainWindow self) ∧
                  walletLedgers (mainWindow self1)
                    = walletLedgers (mainWindow self) ++ [getTxLedger wlt] ∧
                  walletBalances (mainWindow self1) = BalanceList (<[i := balance]> balances) ∧
                  walletModel self1 = walletModel self).
    { subst self1. by split_and!. }
    destruct Hw1 as (Hmap1 & Hidx1 & Hlist1 & Hbdm1 & Htip1 & Hledgers1 & Hbal1 & Hmodel1).
    destruct (IH self1 (<[i := balance]> balances) Hnodup Hbal1) as
      (self2 & Hrun2 & Hidx2 & Hlist2 & Hbdm2 & Htip2 & Hlen2 & Hother2 & Hsynced2 & Hmodel2).
    { intros id2 w2 Hin2.
      destruct (Hitems id2 w2) as (Hw2 & (i2 & Hi2 & Hlt2) & Hsync2); [by right|].
      assert (id2 ≠ wltID).
      { intros ->. apply Hfresh. apply list_elem_of_fmap. by exists (wltID, w2). }
      rewrite Hmap1, Hidx1, Hbdm1, length_insert, lookup_insert_ne by done.
      split_and!; eauto. }
    exists self2. simpl. rewrite bindS_run, Hrun, Hrun2. split_and!; try congruence.
    + rewrite Hlen2, Hledgers1, length_app. simpl. lia.
    + intros id Hid. apply not_elem_of_cons in Hid as [Hne Hid].
      rewrite (Hother2 id Hid), Hmap1. by rewrite lookup_insert_ne.
    + intros id stored' [[= -> ->]|Hin]%elem_of_cons.
      * exists wlt. split; [done|]. rewrite (Hother2 wltID Hfresh), Hmap1.
        apply lookup_insert_eq.
      * destruct (Hsynced2 id stored' Hin) as (wlt' & Hs & Hw). rewrite Hbdm1 in Hs. eauto.
Qed.

Tactic Notation "startup_simpl" "in" hyp(H) :=
  cbn [mainWindow set_mainWindow walletSubLedgers walletModel statusBarMessage] in H.

Ltac window_fields :=
  cbn [mainWindow set_mainWindow walletSubLedgers walletModel statusBarMessage
       walletMap walletIndices walletIDList walletIDSet walletBalances walletLedgers
       TheBDM latestBlockNum stdout combinedLedger ledgerSize
       set_stdout set_TheBDM set_latestBlockNum set_ledgerSize].

Lemma createCombinedLedger_walletIDList eng (arg : option (list string)) (withZeroConf : bool) :
  preserves walletIDList (createCombinedLedger eng arg withZeroConf).
Proof.
  unfold createCombinedLedger, updateLedgerDisplay.
  apply preserves_bind; [apply preserves_read|]. intros ids.
  apply preserves_bind; [frame|]. intros _.
  apply preserves_bind.
  { destruct ids; [|apply preserves_raise].
    apply preserves_for_each. intros wltID _.
    apply extendCombinedLedger_preserves; intros v []; reflexivity. }
  intros _. frame.
Qed.

(** Every wallet of a consistent registry has an index below the number
    of wallets. *)
Lemma registry_index_in_range (self : ArmoryMainWindow) (wltID : string) :
  registryInv self → registryIndexed self →
  is_Some (walletMap self !! wltID) →
  ∃ i, walletIndices self !! wltID = Some i ∧ (i < length (walletIDList self))%nat.
Proof.
  intros (_ & Hset & _ & Hlist) (_ & Hindex & _) Hreg.
  apply Hset, Hlist, list_elem_of_lookup in Hreg as [i Hi].
  exists i. split; [by apply Hindex|]. by eapply lookup_lt_Some.
Qed.

(** [loadBlockchain] on a consistent registry whose wallets can all be
    synced, with an engine that loads the chain. *)
Lemma loadBlockchain_run eng (chain : BlockchainEngine) (self : StartupWindow)
    (loaded : BlockDataManager) :
  registryInv (mainWindow self) → registryIndexed (mainWindow self) →
  walletLedgers (mainWindow self) = [] →
  BDM_LoadBlockchainFile chain (TheBDM (mainWindow self)) = Return loaded →
  isInitialized loaded = true →
  (∀ wltID stored, walletMap (mainWindow self) !! wltID = Some stored →
     ∃ wlt balance, syncWithBlockchain chain loaded stored = Return wlt ∧
                    getBalance wlt = Return balance) →
  is_Some (walletModel self) →
  let r := loadBlockchain eng chain self in
  (r.1 = Return tt ∨ ∃ k, r.1 = Raise (KeyError k)) ∧
  TheBDM (mainWindow r.2) = loaded ∧
  latestBlockNum (mainWindow r.2) = getBlockHeight (getTopBlockHeader loaded) ∧
  walletIDList (mainWindow r.2) = walletIDList (mainWindow self) ∧
  Forall (registered (mainWindow r.2)) (walletIDList (mainWindow self)) ∧
  combinedLedger (mainWindow r.2)
    = list_sort_reverse combinedLedger_lt
        (collectedPairs (mainWindow r.2) (walletIDList (mainWindow self))) ∧
  ledgerSize (mainWindow r.2) = length (combinedLedger (mainWindow r.2)) ∧
  (∀ wltID stored, walletMap (mainWindow self) !! wltID = Some stored →
     ∃ wlt, syncWithBlockchain chain loaded stored = Return wlt ∧
            walletMap (mainWindow r.2) !! wltID = Some wlt).
Proof.
  intros Hinv Hidx Hempty Hload Hinit Hsync [model Hmodel].
  set (r := loadBlockchain eng chain self).
  assert (Hr : r = loadBlockchain eng chain self) by reflexivity. clearbody r.
  cbv zeta. unfold loadBlockchain in Hr.
  rewrite bindS_run, onWindow_print in Hr. startup_simpl in Hr.
  rewrite bindS_run, onWindow_gets in Hr. startup_simpl in Hr. cbn [TheBDM set_stdout] in Hr.
  rewrite bindS_run, onWindow_lift, Hload in Hr. startup_simpl in Hr.
  rewrite bindS_run, onWindow_modify in Hr. startup_simpl in Hr.
  rewrite bindS_run, onWindow_modify in Hr. startup_simpl in Hr.
  rewrite bindS_run, onWindow_gets in Hr. startup_simpl in Hr.
  cbn [TheBDM set_latestBlockNum set_TheBDM] in Hr. rewrite Hinit in Hr.
  rewrite bindS_run, bindS_run in Hr. unfold showMessage at 1 in Hr. startup_simpl in Hr.
  rewrite bindS_run, onWindow_print in Hr. startup_simpl in Hr.
  rewrite bindS_run, onWindow_gets in Hr. startup_simpl in Hr.
  cbn [walletMap set_stdout set_latestBlockNum set_TheBDM] in Hr.
  set (w5 := set_stdout _ (set_latestBlockNum _ _)) in Hr.
  set (s5 := set_mainWindow w5 _) in Hr.
  assert (Hw5 : walletMap w5 = walletMap (mainWindow self) ∧
                walletIndices w5 = walletIndices (mainWindow self) ∧
                walletIDList w5 = walletIDList (mainWindow self) ∧
                walletBalances w5 = walletBalances (mainWindow self) ∧
                walletLedgers w5 = walletLedgers (mainWindow self) ∧
                TheBDM w5 = loaded ∧
                latestBlockNum w5 = getBlockHeight (getTopBlockHeader loaded)).
  { subst w5. by split_and!. }
  destruct Hw5 as (Hmap5 & Hidx5 & Hlist5 & Hbal5 & Hledgers5 & Hbdm5 & Htip5).
  pose proof Hidx as (Hsize & Hindex & Hbalances & Hoff).
  destruct (syncWallets_run chain (map_to_list (walletMap (mainWindow self))) s5
              (replicate (length (walletIDList (mainWindow self))) (-1)))
    as (s6 & Hrun6 & Hidx6 & Hlist6 & Hbdm6 & Htip6 & Hlen6 & _ & Hsynced6 & Hmodel6).
  { apply NoDup_fst_map_to_list. }
  { subst s5. startup_simpl. by rewrite Hbal5. }
  { intros wltID stored Hin. apply elem_of_map_to_list in Hin.
    subst s5. startup_simpl. rewrite Hmap5, Hidx5, Hbdm5, length_replicate.
    split_and!; [done| |by apply (Hsync wltID)].
    apply registry_index_in_range; [done|done|eauto]. }
  rewrite bindS_run, Hrun6 in Hr.
  subst s5. startup_simpl in Hidx6. startup_simpl in Hlist6. startup_simpl in Hbdm6.
  startup_simpl in Htip6. startup_simpl in Hlen6. startup_simpl in Hsynced6.
  startup_simpl in Hmodel6.
  rewrite Hidx5 in Hidx6. rewrite Hlist5 in Hlist6.
  rewrite Hbdm5 in Hbdm6, Hsynced6. rewrite Htip5 in Htip6.
  rewrite Hledgers5, Hempty, length_map_to_list in Hlen6. simpl in Hlen6.
  clearbody w5. clear Hmap5 Hbal5 Hledgers5.
  rewrite bindS_run, onWindow_gets, Hlist6 in Hr.
  assert (Hsynced : ∀ wltID stored, walletMap (mainWindow self) !! wltID = Some stored →
            ∃ wlt, syncWithBlockchain chain loaded stored = Return wlt ∧
                   walletMap (mainWindow s6) !! wltID = Some wlt).
  { intros wltID stored Hw. apply Hsynced6. by apply elem_of_map_to_list. }
  assert (Hreg6 : Forall (registered (mainWindow s6)) (walletIDList (mainWindow self))).
  { apply Forall_forall. intros wltID Hin.
    pose proof Hinv as (_ & Hset & _ & Hlist).
    apply Hlist, Hset in Hin as [stored Hstored].
    destruct (Hsynced wltID stored Hstored) as (wlt & _ & Hwlt).
    split; [eauto|].
    destruct (registry_index_in_range (mainWindow self) wltID) as (i & Hi & Hlt);
      [done|done|eauto|].
    exists i. rewrite Hidx6, Hlen6, Hsize. by split. }
  set (ids := walletIDList (mainWindow self)) in *.
  pose proof (createCombinedLedger_result eng (Some ids) true (mainWindow s6) ids
                eq_refl Hreg6) as (Hledger & Hlsize & Hend & _).
  pose proof (createCombinedLedger_walletMap eng (Some ids) true (mainWindow s6)) as Hmap7.
  pose proof (createCombinedLedger_walletIDList eng (Some ids) true (mainWindow s6)) as Hlist7.
  pose proof (createCombinedLedger_TheBDM eng (Some ids) true (mainWindow s6)) as Hbdm7.
  pose proof (createCombinedLedger_latestBlockNum eng (Some ids) true (mainWindow s6)) as Htip7.
  assert (Hreg7 : Forall (registered (createCombinedLedger eng (Some ids) true
                                         (mainWindow s6)).2) ids).
  { apply Forall_forall. intros wltID Hin.
    apply (createCombinedLedger_registered eng (Some ids) true (mainWindow s6) ids eq_refl Hreg6).
    rewrite Forall_forall in Hreg6. by apply Hreg6. }
  rewrite bindS_run in Hr. unfold onWindow at 1 in Hr.
  destruct (createCombinedLedger eng (Some ids) true (mainWindow s6)) as [o w7] eqn:Hbuild.
  cbn [fst snd] in *.
  rewrite <- (collectedPairs_walletMap (mainWindow s6) w7 ids Hmap7) in Hledger.
  destruct Hend as [->|[k ->]].
  - rewrite bindS_run, onWindow_modify in Hr. startup_simpl in Hr.
    rewrite bindS_run, onWindow_gets in Hr. startup_simpl in Hr.
    rewrite bindS_run, onWindow_gets in Hr. startup_simpl in Hr.
    rewrite bindS_run, onWindow_print in Hr. startup_simpl in Hr.
    unfold showMessage in Hr. startup_simpl in Hr.
    unfold resetWalletModel in Hr. startup_simpl in Hr.
    rewrite Hmodel6 in Hr. startup_simpl in Hr. rewrite Hmodel in Hr.
    subst r. cbn [fst snd]. startup_simpl.
    split_and!.
    + by left.
    + destruct w7; simpl in *. congruence.
    + destruct w7; simpl in *. congruence.
    + destruct w7; simpl in *. congruence.
    + eapply Forall_impl; [exact Hreg7|]. intros wltID Hreg. destruct w7; exact Hreg.
    + erewrite (collectedPairs_walletMap w7) by (destruct w7; reflexivity).
      rewrite <- Hledger. destruct w7; reflexivity.
    + destruct w7; reflexivity.
    + intros wltID stored Hw. destruct (Hsynced wltID stored Hw) as (wlt & Hs & Hwlt).
      exists wlt. split; [done|]. rewrite <- Hmap7 in Hwlt. destruct w7; exact Hwlt.
  - subst r. cbn [fst snd]. startup_simpl.
    split_and!.
    + right. eauto.
    + congruence.
    + congruence.
    + congruence.
    + exact Hreg7.
    + exact Hledger.
    + exact Hlsize.
    + intros wltID stored Hw. destruct (Hsynced wltID stored Hw) as (wlt & Hs & Hwlt).
      exists wlt. split; [done|]. by rewrite Hmap7.
Qed.

Lemma loadWalletsAndSettings_TheBDM eng (settings : SettingsFile) (homeWallets : list string) :
  preserves TheBDM (loadWalletsAndSettings eng settings homeWallets).
Proof. unfold loadWalletsAndSettings, loadWallets, loadWallet, print. frame. Qed.

(** The window that [loadWalletsAndSettings] leaves when every file can
    be read. *)
Lemma loadWalletsAndSettings_state eng (settings : SettingsFile) (homeWallets : list string)
    (self : ArmoryMainWindow) :
  Forall (λ fpath, ∃ wlt, readWalletFile eng fpath = Return wlt)
         (Other_Wallets settings ++ homeWallets) →
  ∃ loaded, loadWalletsAndSettings eng settings homeWallets self = (Return tt, loaded) ∧
    registryInv loaded ∧ registryIndexed loaded ∧
    walletLedgers loaded = [] ∧ TheBDM loaded = TheBDM self ∧
    (∀ wltID wlt, walletMap loaded !! wltID = Some wlt →
       ∃ fpath, fpath ∈ Other_Wallets settings ++ homeWallets ∧
                readWalletFile eng fpath = Return wlt).
Proof.
  intros Hparse.
  pose proof (loadWalletsAndSettings_TheBDM eng settings homeWallets self) as Hbdm.
  rewrite loadWalletsAndSettings_run in *.
  destruct (loadWallets_run eng (Excluded_Wallets settings) (Offline_WalletIDs settings)
              _ (freshRegistry self) Hparse (freshRegistry_inv self))
    as (loaded & Hrun & Hinv & _).
  destruct (loadWallets_indexed eng (Excluded_Wallets settings) (Offline_WalletIDs settings)
              _ (freshRegistry self) loaded Hparse (freshRegistry_inv self)
              (freshRegistry_indexed self)) as (Hidx & Hledgers & Hfrom & _).
  { intros wltID _ Hin. destruct self; simpl in Hin. by apply elem_of_empty in Hin. }
  { exact Hrun. }
  rewrite Hrun in Hbdm. exists loaded. split_and!; try done.
  intros wltID wlt Hw. destruct (Hfrom _ _ Hw) as [Hw0|(fpath & Hin & _ & Hread & _)].
  - destruct self; simpl in Hw0. by rewrite lookup_empty in Hw0.
  - eauto.
Qed.

(** X18: start-up composes.  When every wallet file can be read, the engine
    loads the chain and every wallet can be synced, [loadBlockchain] after
    [loadWalletsAndSettings] ends normally or with the [KeyError] of the
    table.  The tracked height is that of the top block, every wallet of
    [walletIDList] is registered for later builds, and [ledgerSize] is the
    number of rows of the combined ledger, the sum of the confirmed entries
    of the wallets. *)
Theorem X18_startup_builds_the_ledger eng (chain : BlockchainEngine)
    (settings : SettingsFile) (homeWallets : list string) (self : ArmoryMainWindow)
    (loaded : BlockDataManager) (subLedgers : list (list (list LedgerEntry)))
    (model : AllWalletsDispModel) (message : string) :
  Forall (λ fpath, ∃ wlt, readWalletFile eng fpath = Return wlt)
         (Other_Wallets settings ++ homeWallets) →
  BDM_LoadBlockchainFile chain (TheBDM self) = Return loaded →
  isInitialized loaded = true →
  (∀ fpath wlt, fpath ∈ Other_Wallets settings ++ homeWallets →
     readWalletFile eng fpath = Return wlt →
     ∃ synced balance, syncWithBlockchain chain loaded wlt = Return synced ∧
                       getBalance synced = Return balance) →
  let r := loadBlockchain eng chain
             {| mainWindow := (loadWalletsAndSettings eng settings homeWallets self).2;
                walletSubLedgers := subLedgers;
                walletModel := Some model;
                statusBarMessage := message |} in
  let w := mainWindow r.2 in
  (r.1 = Return tt ∨ ∃ k, r.1 = Raise (KeyError k)) ∧
  latestBlockNum w = getBlockHeight (getTopBlockHeader loaded) ∧
  Forall (registered w) (walletIDList w) ∧
  ledgerSize w = length (combinedLedger w) ∧
  ledgerSize w = sum_list_with (confirmedEntries w) (walletIDList w).
Proof.
  intros Hparse Hload Hinit Hsync.
  destruct (loadWalletsAndSettings_state eng settings homeWallets self Hparse)
    as (w0 & -> & Hinv & Hidx & Hledgers & Hbdm & Hfrom).
  cbn [snd]. set (s0 := {| mainWindow := w0 |}).
  destruct (loadBlockchain_run eng chain s0 loaded)
    as (Hend & _ & Htip & Hlist & Hreg & Hledger & Hsize & _); try done.
  - subst s0. cbn [mainWindow]. by rewrite Hbdm.
  - intros wltID stored Hw. subst s0. cbn [mainWindow] in Hw.
    destruct (Hfrom _ _ Hw) as (fpath & Hin & Hread). by apply (Hsync fpath).
  - cbv zeta. rewrite Hlist. split_and!; try done.
    rewrite Hsize, Hledger, (Permutation_length (list_sort_reverse_perm _ _)).
    apply length_collectedPairs.
Qed.

(** X19: when the engine comes back from loading without being
    initialized, [loadBlockchain] syncs no wallet and builds no ledger: the
    registry, the ledgers of the wallets, the combined ledger and its size
    stay as they were, and the status bar says that loading failed.  The
    call returns when the wallet model exists and raises [AttributeError]
    when it does not. *)
Theorem X19_failed_chain_load_is_reported eng (chain : BlockchainEngine)
    (self : StartupWindow) (loaded : BlockDataManager) :
  BDM_LoadBlockchainFile chain (TheBDM (mainWindow self)) = Return loaded →
  isInitialized loaded = false →
  let r := loadBlockchain eng chain self in
  let w := mainWindow r.2 in
  statusBarMessage r.2 = "! Blockchain loading failed !" ∧
  r.1 = match walletModel self with
        | Some _ => Return tt
        | None => Raise (AttributeError "walletModel")
        end ∧
  latestBlockNum w = getBlockHeight (getTopBlockHeader loaded) ∧
  walletMap w = walletMap (mainWindow self) ∧
  walletBalances w = walletBalances (mainWindow self) ∧
  walletLedgers w = walletLedgers (mainWindow self) ∧
  combinedLedger w = combinedLedger (mainWindow self) ∧
  ledgerSize w = ledgerSize (mainWindow self) ∧
  walletSubLedgers r.2 = walletSubLedgers self.
Proof.
  intros Hload Hinit.
  set (r := loadBlockchain eng chain self).
  assert (Hr : r = loadBlockchain eng chain self) by reflexivity. clearbody r.
  cbv zeta. unfold loadBlockchain in Hr.
  rewrite bindS_run, onWindow_print in Hr. startup_simpl in Hr.
  rewrite bindS_run, onWindow_gets in Hr. startup_simpl in Hr. cbn [TheBDM set_stdout] in Hr.
  rewrite bindS_run, onWindow_lift, Hload in Hr. startup_simpl in Hr.
  rewrite bindS_run, onWindow_modify in Hr. startup_simpl in Hr.
  rewrite bindS_run, onWindow_modify in Hr. startup_simpl in Hr.
  rewrite bindS_run, onWindow_gets in Hr. startup_simpl in Hr.
  cbn [TheBDM set_latestBlockNum set_TheBDM] in Hr. rewrite Hinit in Hr.
  rewrite bindS_run in Hr. unfold showMessage, resetWalletModel in Hr. startup_simpl in Hr.
  destruct (walletModel self); subst r; cbn [fst snd]; startup_simpl; by split_and!.
Qed.

Lemma X18_startup_builds_the_ledger_witness :
  let r := loadBlockchain Scenario.engine Sample.chainEngine
             {| mainWindow := (loadWalletsAndSettings Scenario.engine Scenario.withCopy []
                                 Scenario.window).2;
                walletSubLedgers := [];
                walletModel := Some {| modelResets := 0 |};
                statusBarMessage := EmptyString |} in
  let w := mainWindow r.2 in
  (r.1 = Return tt ∨ ∃ k, r.1 = Raise (KeyError k)) ∧
  latestBlockNum w = getBlockHeight (getTopBlockHeader Scenario.chain) ∧
  Forall (registered w) (walletIDList w) ∧
  ledgerSize w = length (combinedLedger w) ∧
  ledgerSize w = sum_list_with (confirmedEntries w) (walletIDList w).
Proof.
  apply (X18_startup_builds_the_ledger Scenario.engine Sample.chainEngine Scenario.withCopy []
           Scenario.window Scenario.chain [] {| modelResets := 0 |} EmptyString).
  - readable_files.
  - reflexivity.
  - reflexivity.
  - intros fpath wlt Hin Hread. exists wlt. simpl.
    repeat (apply elem_of_cons in Hin as [->|Hin];
            [vm_compute in Hread; injection Hread as <-; eexists; split; reflexivity|]).
    by apply elem_of_nil in Hin.
Defined.

Lemma X19_failed_chain_load_is_reported_witness :
  let r := loadBlockchain Scenario.engine Sample.noChainEngine Sample.starting in
  let w := mainWindow r.2 in
  statusBarMessage r.2 = "! Blockchain loading failed !" ∧
  r.1 = match walletModel Sample.starting with
        | Some _ => Return tt
        | None => Raise (AttributeError "walletModel")
        end ∧
  latestBlockNum w = getBlockHeight (getTopBlockHeader Scenario.chain) ∧
  walletMap w = walletMap (mainWindow Sample.starting) ∧
  walletBalances w = walletBalances (mainWindow Sample.starting) ∧
  walletLedgers w = walletLedgers (mainWindow Sample.starting) ∧
  combinedLedger w = combinedLedger (mainWindow Sample.starting) ∧
  ledgerSize w = ledgerSize (mainWindow Sample.starting) ∧
  walletSubLedgers r.2 = walletSubLedgers Sample.starting.
Proof.
  apply (X19_failed_chain_load_is_reported Scenario.engine Sample.noChainEngine
           Sample.starting
           {| isInitialized := false;
              getTopBlockHeader := getTopBlockHeader Scenario.chain;
              getHeaderByHeight := getHeaderByHeight Scenario.chain;
              blkFile := blkFile Scenario.chain |}).
  - reflexivity.
  - reflexivity.
Defined.

(** * The cached ledgers of the wallets *)

Lemma for_each_extendCombinedLedger_ledgers (wltIDList : list string) (self : ArmoryMainWindow) :
  Forall (registered self) wltIDList →
  walletLedgers (for_each wltIDList extendCombinedLedger self).2
  = refreshedLedgers self wltIDList (walletLedgers self).
Proof.
  revert self. induction wltIDList as [|wltID l IH]; intros self Hreg; [reflexivity|].
  apply Forall_cons in Hreg as [Hid Hl].
  pose proof Hid as [[wlt Hwlt] (i & Hi & Hlt)].
  assert (Hstep : extendCombinedLedger wltID self =
                  (Return tt, set_combinedLedger (combinedLedger self ++ walletPairs self wltID)
                                (set_walletLedgers (<[i := getTxLedger wlt]> (walletLedgers self))
                                   self))).
  { unfold extendCombinedLedger, walletPairs. rewrite Hwlt.
    unfold mbind, M_bind, gets, lift, modify, getitem, list_setitem, list_getitem. simpl.
    rewrite Hwlt, Hi. rewrite bool_decide_true by exact Hlt. simpl.
    rewrite list_lookup_insert_eq by exact Hlt. reflexivity. }
  set (self1 := set_combinedLedger _ _) in Hstep.
  assert (Hsame : walletMap self1 = walletMap self ∧ walletIndices self1 = walletIndices self ∧
                  walletLedgers self1 = <[i := getTxLedger wlt]> (walletLedgers self)).
  { subst self1. destruct self; by split_and!. }
  destruct Hsame as (Hmap1 & Hidx1 & Hledgers1). clearbody self1.
  assert (Hl1 : Forall (registered self1) l).
  { eapply Forall_impl; [exact Hl|]. intros id [Hw (j & Hj & Hltj)].
    split; [by rewrite Hmap1|]. exists j. rewrite Hidx1, Hledgers1, length_insert. by split. }
  simpl. rewrite bind_run, Hstep, (IH self1 Hl1), Hledgers1.
  unfold refreshedLedgers. simpl. rewrite Hwlt, Hi, Hmap1, Hidx1. reflexivity.
Qed.

Lemma createCombinedLedger_walletLedgers eng (arg : option (list string)) (withZeroConf : bool)
    (self : ArmoryMainWindow) (wltIDList : list string) :
  selectWalletIDs eng self arg = Return (Some wltIDList) →
  Forall (registered self) wltIDList →
  walletLedgers (createCombinedLedger eng arg withZeroConf self).2
  = refreshedLedgers self wltIDList (walletLedgers self).
Proof.
  intros Hsel Hreg.
  assert (Hreg0 : Forall (registered (set_combinedLedger [] self)) wltIDList).
  { eapply Forall_impl; [exact Hreg|]. intros id Hid. destruct self; exact Hid. }
  pose proof (for_each_extendCombinedLedger_ledgers wltIDList _ Hreg0) as Hledgers.
  destruct (for_each_extendCombinedLedger wltIDList _ Hreg0) as (ledgers & _ & Hrun).
  rewrite Hrun in Hledgers. cbn [snd] in Hledgers.
  unfold createCombinedLedger. rewrite bind_run. unfold lift at 1. rewrite Hsel.
  rewrite bind_run. unfold modify at 1. rewrite bind_run, Hrun.
  rewrite bind_run. unfold modify at 1. rewrite bind_run. unfold modify at 1.
  match goal with |- walletLedgers (try_except ?body ?handler ?st).2 = _ =>
    assert (Hkeep : walletLedgers (try_except body handler st).2 = walletLedgers st) end.
  { apply preserves_try_except; [apply updateLedgerDisplay_walletLedgers|].
    intros e. destruct (is_AttributeError e); frame. }
  rewrite Hkeep.
  transitivity (refreshedLedgers (set_combinedLedger [] self) wltIDList
                  (walletLedgers (set_combinedLedger [] self))).
  - rewrite <- Hledgers. destruct self; reflexivity.
  - unfold refreshedLedgers. destruct self; reflexivity.
Qed.

Lemma refreshedLedgers_length (self : ArmoryMainWindow) (wltIDList : list string)
    (ledgers : list (list LedgerEntry)) :
  length (refreshedLedgers self wltIDList ledgers) = length ledgers.
Proof.
  unfold refreshedLedgers. revert ledgers.
  induction wltIDList as [|wltID l IH]; intros ledgers; simpl; [reflexivity|].
  rewrite IH. destruct (walletMap self !! wltID), (walletIndices self !! wltID);
    by rewrite ?length_insert.
Qed.

Lemma refreshedLedgers_other (self : ArmoryMainWindow) (wltIDList : list string)
    (ledgers : list (list LedgerEntry)) (i : nat) :
  (∀ other, other ∈ wltIDList → walletIndices self !! other ≠ Some i) →
  refreshedLedgers self wltIDList ledgers !! i = ledgers !! i.
Proof.
  unfold refreshedLedgers. revert ledgers.
  induction wltIDList as [|id l IH]; intros ledgers Hothers; simpl; [reflexivity|].
  rewrite IH by (intros other Hother; apply Hothers; by right).
  destruct (walletMap self !! id) as [w|]; [|reflexivity].
  destruct (walletIndices self !! id) as [j|] eqn:Hj; [|reflexivity].
  apply list_lookup_insert_ne. intros ->. by apply (Hothers id); [left|].
Qed.

Lemma refreshedLedgers_lookup (self : ArmoryMainWindow) (wltIDList : list string)
    (ledgers : list (list LedgerEntry)) (wltID : string) (wlt : PyBtcWallet) (i : nat) :
  wltID ∈ wltIDList →
  walletMap self !! wltID = Some wlt → walletIndices self !! wltID = Some i →
  (i < length ledgers)%nat →
  (∀ other, other ∈ wltIDList → walletIndices self !! other = Some i → other = wltID) →
  refreshedLedgers self wltIDList ledgers !! i = Some (getTxLedger wlt).
Proof.
  revert ledgers.
  induction wltIDList as [|id l IH]; intros ledgers Hin Hwlt Hi Hlt Honly.
  - by apply elem_of_nil in Hin.
  - change (refreshedLedgers self (id :: l) ledgers)
      with (refreshedLedgers self l
              match walletMap self !! id, walletIndices self !! id with
              | Some wlt0, Some i0 => <[i0 := getTxLedger wlt0]> ledgers
              | _, _ => ledgers
              end).
    destruct (decide (wltID ∈ l)) as [Hl|Hl].
    + apply IH; try done.
      * destruct (walletMap self !! id), (walletIndices self !! id);
          by rewrite ?length_insert.
      * intros other Hother. apply Honly. by right.
    + apply elem_of_cons in Hin as [<-|?]; [|done].
      rewrite Hwlt, Hi, refreshedLedgers_other.
      * by apply list_lookup_insert_eq.
      * intros other Hother Hoi. apply Hl. rewrite <- (Honly other); [done|by right|done].
Qed.

(** X20: a build brings the cached ledgers up to date: the slot of every
    wallet of the list holds the ledger that the wallet has now, provided no
    other wallet of the list has the same index; the number of slots does
    not change. *)
Theorem X20_build_refreshes_the_wallet_ledgers eng (arg : option (list string))
    (withZeroConf : bool) (self : ArmoryMainWindow) (wltIDList : list string) :
  selectWalletIDs eng self arg = Return (Some wltIDList) →
  Forall (registered self) wltIDList →
  let ledgers := walletLedgers (createCombinedLedger eng arg withZeroConf self).2 in
  length ledgers = length (walletLedgers self) ∧
  ∀ wltID wlt i,
    wltID ∈ wltIDList →
    walletMap self !! wltID = Some wlt → walletIndices self !! wltID = Some i →
    (∀ other, other ∈ wltIDList → walletIndices self !! other = Some i → other = wltID) →
    ledgers !! i = Some (getTxLedger wlt).
Proof.
  intros Hsel Hreg. cbv zeta.
  rewrite (createCombinedLedger_walletLedgers eng arg withZeroConf self wltIDList Hsel Hreg).
  split; [apply refreshedLedgers_length|].
  intros wltID wlt i Hin Hwlt Hi Honly.
  apply (refreshedLedgers_lookup self wltIDList _ wltID); try done.
  rewrite Forall_forall in Hreg. destruct (Hreg wltID Hin) as [_ (j & Hj & Hlt)]. congruence.
Qed.

Lemma X20_build_refreshes_the_wallet_ledgers_witness :
  let ledgers := walletLedgers
                   (createCombinedLedger Scenario.engine None true Scenario.window).2 in
  length ledgers = length (walletLedgers Scenario.window) ∧
  ∀ wltID wlt i,
    wltID ∈ ["A"; "B"] →
    walletMap Scenario.window !! wltID = Some wlt →
    walletIndices Scenario.window !! wltID = Some i →
    (∀ other, other ∈ ["A"; "B"] → walletIndices Scenario.window !! other = Some i →
              other = wltID) →
    ledgers !! i = Some (getTxLedger wlt).
Proof.
  apply (X20_build_refreshes_the_wallet_ledgers Scenario.engine None true Scenario.window
           ["A"; "B"]).
  - vm_compute. reflexivity.
  - registered_wallets.
Defined.
